(** * RxAssistant: the prescription pipeline of [frontend/src/App.jsx]
      and the upload collector of [frontend/src/components/UploadCard.jsx]

    The React components are embedded as state transformers over a [World]:
    the hook state of [AppContent] and [UploadCard], the log of requests
    handed to axios, the suspended async functions waiting for a response,
    and the logs of toasts, console lines and unhandled errors.  An async
    function is cut at each [await]: every piece is a computation in the
    state-and-exception monad [Exec] that ends either finished or suspended
    on a request, and a suspended piece is resumed by the event that settles
    its promise. *)

From stdpp Require Import base strings list gmap sets pretty.

Open Scope string_scope.
Open Scope list_scope.

(** ** Strings as JavaScript uses them here *)

(** The line feed of the template literal [`\n\n${...}`]. *)
Definition LF : string := String (Ascii.ascii_of_nat 10) "".

(** The separator of [extractedText.split(' ')]. *)
Definition SPACE : Ascii.ascii := Ascii.ascii_of_nat 32.

(** [s.split(sep)] for a one-character separator: never the empty array. *)
Fixpoint split (sep : Ascii.ascii) (s : string) : list string :=
  match s with
  | EmptyString => [""]
  | String c rest =>
      if Ascii.eqb c sep then "" :: split sep rest
      else match split sep rest with
           | [] => [String c ""]
           | part :: parts => String c part :: parts
           end
  end.

(** [xs.join(sep)]. *)
Fixpoint join (sep : string) (xs : list string) : string :=
  match xs with
  | [] => ""
  | [x] => x
  | x :: rest => x +:+ sep +:+ join sep rest
  end.

(** ** Data model *)

Inductive Sender := user | ai.

Record ChatMessage := {
  sender : Sender;
  content : string;
  timestamp : nat  (* the instant read by [new Date()] *)
}.

Module File.
Record t := { name : string; type : string; payload : string }.
End File.

Module MedicineCorrection.
Record t := {
  original : string;
  corrected : string;
  confidence : nat;
  method : string;
  explanation : string;
  is_valid : bool
}.
End MedicineCorrection.

Module MedicineInfo.
Record t := {
  name : string;
  category : string;
  description : string;
  dosage : string;
  side_effects : string;
  precautions : string;
  verified : bool
}.
End MedicineInfo.

(** The object handed to [setModalResults]. *)
Module ModalResults.
Record t := {
  extractedText : string;
  medicines : list MedicineInfo.t;
  medicineCorrections : list MedicineCorrection.t;
  fileName : string
}.
End ModalResults.

(** The value an exception carries; only [error.message] is ever read. *)
Record JsError := { message : string }.

(** A response field that holds a string, holds [null], or is absent. *)
Inductive Nullable := Undefined | Null | Str (s : string).

(** [new Error(m)]: an absent message gives the empty string, any other value
    its string conversion, which for [null] is the word null. *)
Definition Error (m : Nullable) : JsError :=
  {| message := match m with Undefined => "" | Null => "null" | Str s => s end |}.

(** *** The four endpoints: what is posted and what comes back *)

Inductive Request :=
| PostOcr (file : File.t)
| PostExtractMeds (prescription_text : string)
| PostMedInfo (medicines : list string)
| PostChat (message context : string).

Module OcrData.
Record t := { success : bool; text : string; message : Nullable }.
End OcrData.

Module MedsData.
Record t := {
  success : bool;
  medicines : list MedicineCorrection.t;
  correction_summary : option string
}.
End MedsData.

Module InfoData.
Record t := { success : bool; medicines_info : list MedicineInfo.t }.
End InfoData.

Module ChatData.
Record t := { success : bool; response : string }.
End ChatData.

(** How the promise returned by [axios.post] settles. *)
Inductive Outcome (A : Type) :=
| Resolved (data : A)
| Rejected (error : JsError).
Arguments Resolved {A} data.
Arguments Rejected {A} error.

Inductive Settlement :=
| SOcr (o : Outcome OcrData.t)
| SMeds (o : Outcome MedsData.t)
| SInfo (o : Outcome InfoData.t)
| SChat (o : Outcome ChatData.t).

(** ** Component state *)

(** The [useState] cells of [AppContent] the handlers below touch. *)
Record AppState := {
  isDarkMode : bool;
  messages : list ChatMessage;
  isTyping : bool;
  isProcessing : bool;
  medicines : list MedicineInfo.t;
  medicineCorrections : list MedicineCorrection.t;
  extractedText : string;
  isChatProcessing : bool;
  currentFile : option File.t;
  showResultsModal : bool;
  modalResults : option ModalResults.t
}.

Definition initialApp : AppState :=
  {| isDarkMode := false; messages := []; isTyping := false;
     isProcessing := false; medicines := []; medicineCorrections := [];
     extractedText := ""; isChatProcessing := false; currentFile := None;
     showResultsModal := false; modalResults := None |}.

(** The [useState] cells of [UploadCard]. *)
Record CardState := { preview : option string; fileName : string }.

Definition initialCard : CardState := {| preview := None; fileName := "" |}.

(** Where a suspended async function stands: the [await] it waits at,
    together with the local variables its remaining code still reads. *)
Inductive Cont :=
| AwaitOcr (file : File.t)
| AwaitMeds (file : File.t) (extractedText : string)
| AwaitInfo (file : File.t) (extractedText : string)
            (medicineData : list MedicineCorrection.t)
| AwaitChat.

Inductive Toast := toast_success (s : string) | toast_error (s : string).

Record World := {
  appContent : AppState;
  uploadCard : CardState;
  requests : list Request;      (* every axios.post so far, oldest first *)
  inflight : gmap nat Cont;     (* request number -> who awaits it *)
  readers : list File.t;        (* FileReaders that have not fired onload *)
  toasts : list Toast;
  console : list string;
  unhandled : list JsError;     (* errors no handler caught *)
  clock : nat
}.

Definition initialWorld : World :=
  {| appContent := initialApp; uploadCard := initialCard; requests := []; inflight := ∅;
     readers := []; toasts := []; console := []; unhandled := []; clock := 0 |}.

(** *** Setters *)

Definition setIsDarkMode (v : bool) (a : AppState) : AppState :=
  {| isDarkMode := v; messages := messages a; isTyping := isTyping a;
     isProcessing := isProcessing a; medicines := medicines a;
     medicineCorrections := medicineCorrections a;
     extractedText := extractedText a; isChatProcessing := isChatProcessing a;
     currentFile := currentFile a; showResultsModal := showResultsModal a;
     modalResults := modalResults a |}.

(** [setMessages] in its functional form [setMessages(prev => ...)]. *)
Definition setMessages (f : list ChatMessage -> list ChatMessage)
    (a : AppState) : AppState :=
  {| isDarkMode := isDarkMode a; messages := f (messages a);
     isTyping := isTyping a;
     isProcessing := isProcessing a; medicines := medicines a;
     medicineCorrections := medicineCorrections a;
     extractedText := extractedText a; isChatProcessing := isChatProcessing a;
     currentFile := currentFile a; showResultsModal := showResultsModal a;
     modalResults := modalResults a |}.

Definition setIsTyping (v : bool) (a : AppState) : AppState :=
  {| isDarkMode := isDarkMode a; messages := messages a; isTyping := v;
     isProcessing := isProcessing a; medicines := medicines a;
     medicineCorrections := medicineCorrections a;
     extractedText := extractedText a; isChatProcessing := isChatProcessing a;
     currentFile := currentFile a; showResultsModal := showResultsModal a;
     modalResults := modalResults a |}.

Definition setIsProcessing (v : bool) (a : AppState) : AppState :=
  {| isDarkMode := isDarkMode a; messages := messages a;
     isTyping := isTyping a;
     isProcessing := v; medicines := medicines a;
     medicineCorrections := medicineCorrections a;
     extractedText := extractedText a; isChatProcessing := isChatProcessing a;
     currentFile := currentFile a; showResultsModal := showResultsModal a;
     modalResults := modalResults a |}.

Definition setMedicines (v : list MedicineInfo.t) (a : AppState) : AppState :=
  {| isDarkMode := isDarkMode a; messages := messages a;
     isTyping := isTyping a;
     isProcessing := isProcessing a; medicines := v;
     medicineCorrections := medicineCorrections a;
     extractedText := extractedText a; isChatProcessing := isChatProcessing a;
     currentFile := currentFile a; showResultsModal := showResultsModal a;
     modalResults := modalResults a |}.

Definition setMedicineCorrections (v : list MedicineCorrection.t)
    (a : AppState) : AppState :=
  {| isDarkMode := isDarkMode a; messages := messages a;
     isTyping := isTyping a;
     isProcessing := isProcessing a; medicines := medicines a;
     medicineCorrections := v;
     extractedText := extractedText a; isChatProcessing := isChatProcessing a;
     currentFile := currentFile a; showResultsModal := showResultsModal a;
     modalResults := modalResults a |}.

Definition setExtractedText (v : string) (a : AppState) : AppState :=
  {| isDarkMode := isDarkMode a; messages := messages a;
     isTyping := isTyping a;
     isProcessing := isProcessing a; medicines := medicines a;
     medicineCorrections := medicineCorrections a;
     extractedText := v; isChatProcessing := isChatProcessing a;
     currentFile := currentFile a; showResultsModal := showResultsModal a;
     modalResults := modalResults a |}.

Definition setIsChatProcessing (v : bool) (a : AppState) : AppState :=
  {| isDarkMode := isDarkMode a; messages := messages a;
     isTyping := isTyping a;
     isProcessing := isProcessing a; medicines := medicines a;
     medicineCorrections := medicineCorrections a;
     extractedText := extractedText a; isChatProcessing := v;
     currentFile := currentFile a; showResultsModal := showResultsModal a;
     modalResults := modalResults a |}.

Definition setCurrentFile (v : option File.t) (a : AppState) : AppState :=
  {| isDarkMode := isDarkMode a; messages := messages a;
     isTyping := isTyping a;
     isProcessing := isProcessing a; medicines := medicines a;
     medicineCorrections := medicineCorrections a;
     extractedText := extractedText a; isChatProcessing := isChatProcessing a;
     currentFile := v; showResultsModal := showResultsModal a;
     modalResults := modalResults a |}.

Definition setShowResultsModal (v : bool) (a : AppState) : AppState :=
  {| isDarkMode := isDarkMode a; messages := messages a;
     isTyping := isTyping a;
     isProcessing := isProcessing a; medicines := medicines a;
     medicineCorrections := medicineCorrections a;
     extractedText := extractedText a; isChatProcessing := isChatProcessing a;
     currentFile := currentFile a; showResultsModal := v;
     modalResults := modalResults a |}.

Definition setModalResults (v : option ModalResults.t)
    (a : AppState) : AppState :=
  {| isDarkMode := isDarkMode a; messages := messages a;
     isTyping := isTyping a;
     isProcessing := isProcessing a; medicines := medicines a;
     medicineCorrections := medicineCorrections a;
     extractedText := extractedText a; isChatProcessing := isChatProcessing a;
     currentFile := currentFile a; showResultsModal := showResultsModal a;
     modalResults := v |}.

Definition setPreview (v : option string) (c : CardState) : CardState :=
  {| preview := v; fileName := fileName c |}.

Definition setFileName (v : string) (c : CardState) : CardState :=
  {| preview := preview c; fileName := v |}.

Definition withApp (f : AppState -> AppState) (w : World) : World :=
  {| appContent := f (appContent w); uploadCard := uploadCard w; requests := requests w;
     inflight := inflight w; readers := readers w; toasts := toasts w;
     console := console w; unhandled := unhandled w; clock := clock w |}.

Definition withCard (f : CardState -> CardState) (w : World) : World :=
  {| appContent := appContent w; uploadCard := f (uploadCard w); requests := requests w;
     inflight := inflight w; readers := readers w; toasts := toasts w;
     console := console w; unhandled := unhandled w; clock := clock w |}.

Definition withRequests (f : list Request -> list Request) (w : World) : World :=
  {| appContent := appContent w; uploadCard := uploadCard w; requests := f (requests w);
     inflight := inflight w; readers := readers w; toasts := toasts w;
     console := console w; unhandled := unhandled w; clock := clock w |}.

Definition withInflight (f : gmap nat Cont -> gmap nat Cont) (w : World) : World :=
  {| appContent := appContent w; uploadCard := uploadCard w; requests := requests w;
     inflight := f (inflight w); readers := readers w; toasts := toasts w;
     console := console w; unhandled := unhandled w; clock := clock w |}.

Definition withReaders (f : list File.t -> list File.t) (w : World) : World :=
  {| appContent := appContent w; uploadCard := uploadCard w; requests := requests w;
     inflight := inflight w; readers := f (readers w); toasts := toasts w;
     console := console w; unhandled := unhandled w; clock := clock w |}.

Definition withToasts (f : list Toast -> list Toast) (w : World) : World :=
  {| appContent := appContent w; uploadCard := uploadCard w; requests := requests w;
     inflight := inflight w; readers := readers w; toasts := f (toasts w);
     console := console w; unhandled := unhandled w; clock := clock w |}.

Definition withConsole (f : list string -> list string) (w : World) : World :=
  {| appContent := appContent w; uploadCard := uploadCard w; requests := requests w;
     inflight := inflight w; readers := readers w; toasts := toasts w;
     console := f (console w); unhandled := unhandled w; clock := clock w |}.

Definition withUnhandled (f : list JsError -> list JsError) (w : World) : World :=
  {| appContent := appContent w; uploadCard := uploadCard w; requests := requests w;
     inflight := inflight w; readers := readers w; toasts := toasts w;
     console := console w; unhandled := f (unhandled w); clock := clock w |}.

Definition withClock (f : nat -> nat) (w : World) : World :=
  {| appContent := appContent w; uploadCard := uploadCard w; requests := requests w;
     inflight := inflight w; readers := readers w; toasts := toasts w;
     console := console w; unhandled := unhandled w; clock := f (clock w) |}.

(** ** The monad of one synchronous piece of JavaScript *)

Inductive Completion (A : Type) :=
| Normal (a : A)
| Thrown (error : JsError).
Arguments Normal {A} a.
Arguments Thrown {A} error.

Definition Exec (A : Type) : Type := World -> Completion A * World.

Definition ret {A} (a : A) : Exec A := fun w => (Normal a, w).

Definition throw {A} (e : JsError) : Exec A := fun w => (Thrown e, w).

Definition bind {A B} (m : Exec A) (k : A -> Exec B) : Exec B :=
  fun w => match m w with
           | (Normal a, w1) => k a w1
           | (Thrown e, w1) => (Thrown e, w1)
           end.

Declare Scope exec_scope.
Delimit Scope exec_scope with exec.
Notation "x <- m ;; k" := (bind m (fun x => k))
  (at level 100, m at next level, right associativity) : exec_scope.
Notation "m ;;; k" := (bind m (fun _ => k))
  (at level 100, right associativity) : exec_scope.
Open Scope exec_scope.

(** A state update that cannot fail. *)
Definition modify (f : World -> World) : Exec unit := fun w => (Normal (), f w).

(** A call of one of [AppContent]'s setters. *)
Definition react (f : AppState -> AppState) : Exec unit := modify (withApp f).

(** What a piece of an async function ends with. *)
Inductive Suspend :=
| Finished
| Awaiting (promise : nat) (k : Cont).

(** [axios.post]: the request is handed over and a promise comes back. *)
Definition axios_post (req : Request) : Exec nat :=
  fun w => (Normal (length (requests w)), withRequests (fun rs => rs ++ [req]) w).

(** Past an [await]: a rejected promise is thrown at the await. *)
Definition settle {A} (o : Outcome A) : Exec A :=
  match o with
  | Resolved data => ret data
  | Rejected error => throw error
  end.

(** [try { body } catch (error) { handler } finally { fin }] around code that
    may suspend: a suspended body has left neither block yet. *)
Definition try_catch_finally (body : Exec Suspend)
    (handler : JsError -> Exec unit) (fin : Exec unit) : Exec Suspend :=
  fun w =>
    match body w with
    | (Normal (Awaiting p k), w1) => (Normal (Awaiting p k), w1)
    | (Normal Finished, w1) =>
        match fin w1 with
        | (Normal _, w2) => (Normal Finished, w2)
        | (Thrown e, w2) => (Thrown e, w2)
        end
    | (Thrown error, w1) =>
        match handler error w1 with
        | (Normal _, w2) =>
            match fin w2 with
            | (Normal _, w3) => (Normal Finished, w3)
            | (Thrown e, w3) => (Thrown e, w3)
            end
        | (Thrown e1, w2) =>
            match fin w2 with
            | (Normal _, w3) => (Thrown e1, w3)
            | (Thrown e2, w3) => (Thrown e2, w3)
            end
        end
    end.

(** Running a piece of an async function to its end: a suspension is
    registered under its promise, and an error that escapes the function
    rejects the promise nobody looks at. *)
Definition spawn (piece : Exec Suspend) (w : World) : World :=
  match piece w with
  | (Normal Finished, w1) => w1
  | (Normal (Awaiting p k), w1) => withInflight (insert p k) w1
  | (Thrown e, w1) => withUnhandled (fun es => es ++ [e]) w1
  end.

(** Running a synchronous event handler. *)
Definition dispatch (handler : Exec unit) (w : World) : World :=
  match handler w with
  | (Normal _, w1) => w1
  | (Thrown e, w1) => withUnhandled (fun es => es ++ [e]) w1
  end.

(** ** [AppContent]: the handlers of [App.jsx] *)

Definition console_error (line : string) : Exec unit :=
  modify (withConsole (fun ls => ls ++ [line])).

Definition console_log (line : string) : Exec unit :=
  modify (withConsole (fun ls => ls ++ [line])).

Definition toast (t : Toast) : Exec unit :=
  modify (withToasts (fun ts => ts ++ [t])).

Definition addMessage (sender : Sender) (content : string) : Exec unit :=
  fun w =>
    let newMessage :=
      {| sender := sender; content := content; timestamp := clock w |} in
    react (setMessages (fun prev => prev ++ [newMessage])) w.

(** The exact string the orchestrator compares [correction_summary] with. *)
Definition sentinel : string := "All medicine names were accurate.".

(** JavaScript truthiness of a value that is a string or absent. *)
Definition truthy (s : option string) : bool :=
  match s with
  | Some v => negb (String.eqb v "")
  | None => false
  end.

(** The condition of the [if] that appends the summary. *)
Definition shows_summary (summary : option string) : bool :=
  truthy summary && negb (bool_decide (summary = Some sentinel)).

Definition medicineNames (medicineData : list MedicineCorrection.t) : list string :=
  MedicineCorrection.corrected <$> medicineData.

(** The message before the summary is appended. *)
Definition medicineMessage_base (names : list string) : string :=
  "I found " +:+ pretty (length names)
    +:+ " medicine(s) in your prescription: " +:+ join ", " names.

Definition medicineMessage (data : MedsData.t) : string :=
  let base := medicineMessage_base (medicineNames (MedsData.medicines data)) in
  if shows_summary (MedsData.correction_summary data)
  then base +:+ LF +:+ LF +:+ default "" (MedsData.correction_summary data)
  else base.

(** *** [processPrescription], cut at its three awaits *)

(** From the top of the [try] to [await axios.post(.../ocr)]. *)
Definition processPrescription_try (file : File.t) : Exec Suspend :=
  addMessage user ("Uploaded prescription: " +:+ File.name file) ;;;
  p <- axios_post (PostOcr file) ;;
  ret (Awaiting p (AwaitOcr file)).

(** From the OCR response to [await axios.post(.../extract-meds)]. *)
Definition processPrescription_ocr (file : File.t)
    (o : Outcome OcrData.t) : Exec Suspend :=
  ocrResponse <- settle o ;;
  if negb (OcrData.success ocrResponse)
  then throw (Error (OcrData.message ocrResponse))
  else
    let extractedText := OcrData.text ocrResponse in
    react (setExtractedText extractedText) ;;;
    addMessage ai ("I've extracted the text from your prescription. Found "
                   +:+ pretty (length (split SPACE extractedText)) +:+ " words.") ;;;
    p <- axios_post (PostExtractMeds extractedText) ;;
    ret (Awaiting p (AwaitMeds file extractedText)).

(** From the extraction response to [await axios.post(.../med-info)]. *)
Definition processPrescription_meds (file : File.t) (extractedText : string)
    (o : Outcome MedsData.t) : Exec Suspend :=
  medsResponse <- settle o ;;
  if negb (MedsData.success medsResponse)
  then throw (Error (Str "Could not identify medicines in the prescription"))
  else
    let medicineData := MedsData.medicines medsResponse in
    react (setMedicineCorrections medicineData) ;;;
    addMessage ai (medicineMessage medsResponse) ;;;
    p <- axios_post (PostMedInfo (medicineNames medicineData)) ;;
    ret (Awaiting p (AwaitInfo file extractedText medicineData)).

(** From the information response to the end of the [try]. *)
Definition processPrescription_info (file : File.t) (extractedText : string)
    (medicineData : list MedicineCorrection.t)
    (o : Outcome InfoData.t) : Exec Suspend :=
  medInfoResponse <- settle o ;;
  if negb (InfoData.success medInfoResponse)
  then throw (Error (Str "Could not retrieve medicine information"))
  else
    let medicinesInfo := InfoData.medicines_info medInfoResponse in
    react (setMedicines medicinesInfo) ;;;
    addMessage ai "I've analyzed your prescription and prepared detailed information for each medicine. You can view the details below." ;;;
    react (setModalResults (Some
      {| ModalResults.extractedText := extractedText;
         ModalResults.medicines := medicinesInfo;
         ModalResults.medicineCorrections := medicineData;
         ModalResults.fileName := File.name file |})) ;;;
    react (setShowResultsModal true) ;;;
    toast (toast_success "Prescription processed successfully!") ;;;
    ret Finished.

Definition failure_text (error : JsError) : string :=
  "Sorry, I encountered an error while processing your prescription: "
    +:+ message error +:+ ". Please try again with a clearer image.".

Definition processPrescription_catch (error : JsError) : Exec unit :=
  console_error ("Error processing prescription: " +:+ message error) ;;;
  addMessage ai (failure_text error) ;;;
  toast (toast_error "Failed to process prescription. Please try again.").

Definition processPrescription_finally : Exec unit :=
  react (setIsTyping false) ;;;
  react (setIsProcessing false).

(** The call itself: everything up to the first await runs at once. *)
Definition processPrescription (file : File.t) : Exec unit :=
  react (setIsProcessing true) ;;;
  react (setIsTyping true) ;;;
  modify (spawn (try_catch_finally (processPrescription_try file)
                   processPrescription_catch processPrescription_finally)).

Definition handleFileUpload (file : File.t) : Exec unit :=
  react (setCurrentFile (Some file)) ;;;
  processPrescription file.

Definition clearResults : Exec unit :=
  react (setMedicines []) ;;;
  react (setMedicineCorrections []) ;;;
  react (setExtractedText "") ;;;
  react (setMessages (fun _ => [])) ;;;
  react (setCurrentFile None) ;;;
  react (setShowResultsModal false) ;;;
  react (setModalResults None).

(** [currentFile] is the one of the render the handler was created in. *)
Definition handleAnalyze : Exec unit :=
  fun w =>
    match currentFile (appContent w) with
    | Some file => processPrescription file w
    | None => ret () w
    end.

Definition toggleDarkMode : Exec unit :=
  fun w => react (setIsDarkMode (negb (isDarkMode (appContent w)))) w.

(** *** [handleChatMessage], cut at its await *)

Definition chat_context (medicines : list MedicineInfo.t) : string :=
  if bool_decide (0 < length medicines)
  then "Current medicines: " +:+ join ", " (MedicineInfo.name <$> medicines)
  else "".

Definition handleChatMessage_try (medicines : list MedicineInfo.t)
    (message : string) : Exec Suspend :=
  addMessage user message ;;;
  p <- axios_post (PostChat message (chat_context medicines)) ;;
  ret (Awaiting p AwaitChat).

Definition handleChatMessage_chat (o : Outcome ChatData.t) : Exec Suspend :=
  response <- settle o ;;
  (if ChatData.success response
   then addMessage ai (ChatData.response response)
   else addMessage ai "Sorry, I encountered an error. Please try again.") ;;;
  ret Finished.

Definition handleChatMessage_catch (error : JsError) : Exec unit :=
  console_error ("Chat error: " +:+ message error) ;;;
  addMessage ai "Sorry, I encountered an error while processing your message. Please try again.".

Definition handleChatMessage_finally : Exec unit :=
  react (setIsTyping false) ;;;
  react (setIsChatProcessing false).

Definition handleChatMessage (message : string) : Exec unit :=
  fun w =>
    (react (setIsChatProcessing true) ;;;
     react (setIsTyping true) ;;;
     modify (spawn (try_catch_finally
                      (handleChatMessage_try (medicines (appContent w)) message)
                      handleChatMessage_catch handleChatMessage_finally))) w.

(** The code that runs when the promise a continuation waits for settles. *)
Definition resume (k : Cont) (s : Settlement) : option (Exec Suspend) :=
  match k, s with
  | AwaitOcr file, SOcr o =>
      Some (try_catch_finally (processPrescription_ocr file o)
              processPrescription_catch processPrescription_finally)
  | AwaitMeds file extractedText, SMeds o =>
      Some (try_catch_finally (processPrescription_meds file extractedText o)
              processPrescription_catch processPrescription_finally)
  | AwaitInfo file extractedText medicineData, SInfo o =>
      Some (try_catch_finally
              (processPrescription_info file extractedText medicineData o)
              processPrescription_catch processPrescription_finally)
  | AwaitChat, SChat o =>
      Some (try_catch_finally (handleChatMessage_chat o)
              handleChatMessage_catch handleChatMessage_finally)
  | _, _ => None
  end.

(** ** [UploadCard]: the handlers of [UploadCard.jsx] *)

(** [reader.result] after [readAsDataURL]; [payload] is the base64 text.  A
    file without a type is read as [application/octet-stream]. *)
Definition dataURL (file : File.t) : string :=
  "data:"
    +:+ (if String.eqb (File.type file) "" then "application/octet-stream"
         else File.type file)
    +:+ ";base64," +:+ File.payload file.

(** [reader.readAsDataURL(file)]: the load event fires later. *)
Definition readAsDataURL (file : File.t) : Exec unit :=
  modify (withReaders (fun rs => rs ++ [file])).

(** [reader.onload]. *)
Definition reader_onload (file : File.t) : Exec unit :=
  modify (withCard (setPreview (Some (dataURL file)))).

(** [onDrop], with the [onFileUpload] prop as a parameter. *)
Definition onDrop (onFileUpload : File.t -> Exec unit)
    (acceptedFiles : list File.t) : Exec unit :=
  match acceptedFiles !! 0%nat with
  | Some file =>
      modify (withCard (setFileName (File.name file))) ;;;
      readAsDataURL file ;;;
      onFileUpload file
  | None => ret ()
  end.

Definition clearFile : Exec unit :=
  modify (withCard (setPreview None)) ;;;
  modify (withCard (setFileName "")).

(** The [onClick] of the Analysis button, with its props as parameters. *)
Definition analysis_onClick (hasFile : bool) (onAnalyze : Exec unit) : Exec unit :=
  if hasFile then onAnalyze
  else console_log "No file uploaded or analysis function not provided".

(** [hasFile={!!currentFile}]. *)
Definition hasFile (a : AppState) : bool :=
  match currentFile a with Some _ => true | None => false end.

(** ** Events *)

Inductive Event :=
| EvDrop (acceptedFiles : list File.t)   (* the dropzone hands over files *)
| EvReaderLoad (i : nat)                 (* a FileReader fires onload *)
| EvClearFile                            (* the X on the preview *)
| EvAnalysisClick                        (* the Analysis button *)
| EvClearResults                         (* the Clear Results button *)
| EvCloseModal                           (* the results modal's onClose *)
| EvToggleDarkMode
| EvSendChat (message : string)          (* ChatInput's onSendMessage *)
| EvSettle (id : nat) (s : Settlement)   (* a promise of axios settles *)
| EvTick.                                (* time passes *)

(** One event; [None] when the page offers no such event in this state:
    a button that is disabled or not rendered, a promise that is not
    pending.  The dropzone is given no [disabled] prop, so a drop is
    always offered. *)
Definition step (ev : Event) (w : World) : option World :=
  match ev with
  | EvDrop acceptedFiles =>
      Some (dispatch (onDrop handleFileUpload acceptedFiles) w)
  | EvReaderLoad i =>
      file ← readers w !! i;
      Some (dispatch (reader_onload file) (withReaders (delete i) w))
  | EvClearFile =>
      if truthy (preview (uploadCard w)) then Some (dispatch clearFile w) else None
  | EvAnalysisClick =>
      if isProcessing (appContent w) || negb (hasFile (appContent w)) then None
      else Some (dispatch (analysis_onClick (hasFile (appContent w)) handleAnalyze) w)
  | EvClearResults =>
      if bool_decide (0 < length (medicines (appContent w)))
         || truthy (Some (extractedText (appContent w)))
      then Some (dispatch clearResults w) else None
  | EvCloseModal =>
      if showResultsModal (appContent w) && bool_decide (is_Some (modalResults (appContent w)))
      then Some (dispatch (react (setShowResultsModal false)) w) else None
  | EvToggleDarkMode => Some (dispatch toggleDarkMode w)
  | EvSendChat message =>
      if isChatProcessing (appContent w) then None
      else Some (dispatch (handleChatMessage message) w)
  | EvSettle id s =>
      k ← inflight w !! id;
      piece ← resume k s;
      Some (spawn piece (withInflight (delete id) w))
  | EvTick => Some (withClock S w)
  end.

(** A sequence of events, oldest first. *)
Fixpoint exec (evs : list Event) (w : World) : option World :=
  match evs with
  | [] => Some w
  | ev :: rest => w1 ← step ev w; exec rest w1
  end.

(** ** What [UploadCard] renders in the drop zone *)

Definition lower (c : Ascii.ascii) : Ascii.ascii :=
  let n := Ascii.nat_of_ascii c in
  if bool_decide (65 <= n <= 90) then Ascii.ascii_of_nat (n + 32) else c.

(** [s.toLowerCase()] on the ASCII letters. *)
Fixpoint toLowerCase (s : string) : string :=
  match s with
  | EmptyString => EmptyString
  | String c rest => String (lower c) (toLowerCase rest)
  end.

(** [s.endsWith(suffix)]: some tail of [s] is [suffix]. *)
Fixpoint endsWith (s suffix : string) : bool :=
  String.eqb s suffix ||
  match s with
  | EmptyString => false
  | String _ rest => endsWith rest suffix
  end.

Inductive DropZoneView :=
| UploadPrompt                 (* no preview: the prompt *)
| PdfGlyph                     (* the FileText icon *)
| PreviewImage (src : string). (* <img src={preview}> *)

Definition dropZoneView (c : CardState) : DropZoneView :=
  if negb (truthy (preview c)) then UploadPrompt
  else if endsWith (toLowerCase (fileName c)) ".pdf" then PdfGlyph
  else PreviewImage (default "" (preview c)).

(** ** A backend, to run a whole pipeline against *)

(** A backend that answers every request it is sent.  The page sets no
    timeout: a request that is never answered is a sequence of events
    without its [EvSettle], and its run stays pending. *)
Record Backend := {
  ocr : File.t -> Outcome OcrData.t;
  extract_meds : string -> Outcome MedsData.t;
  med_info : list string -> Outcome InfoData.t;
  chat : string -> string -> Outcome ChatData.t
}.

Definition reply (b : Backend) (req : Request) : Settlement :=
  match req with
  | PostOcr file => SOcr (ocr b file)
  | PostExtractMeds prescription_text => SMeds (extract_meds b prescription_text)
  | PostMedInfo names => SInfo (med_info b names)
  | PostChat message context => SChat (chat b message context)
  end.

(** The oldest request still awaited. *)
Definition oldest_pending (w : World) : option nat :=
  fst <$> list_find (fun id => is_Some (inflight w !! id))
            (seq 0 (length (requests w))).

(** The backend answers the oldest pending request. *)
Definition answer (b : Backend) (w : World) : option World :=
  id ← oldest_pending w;
  req ← requests w !! id;
  step (EvSettle id (reply b req)) w.

(** Answer pending requests, at most [fuel] of them. *)
Fixpoint serve (fuel : nat) (b : Backend) (w : World) : World :=
  match fuel with
  | O => w
  | S n => match answer b w with
           | Some w1 => serve n b w1
           | None => w
           end
  end.

(** One upload, then the backend answers until nothing is pending; a run
    posts at most three requests. *)
Definition run_pipeline (b : Backend) (file : File.t) (w : World) : World :=
  serve 3 b (dispatch (handleFileUpload file) w).

(** The requests posted since [w]. *)
Definition issued_since (w w1 : World) : list Request :=
  drop (length (requests w)) (requests w1).

Inductive Endpoint := ep_ocr | ep_extract_meds | ep_med_info | ep_chat.

Definition endpoint (req : Request) : Endpoint :=
  match req with
  | PostOcr _ => ep_ocr
  | PostExtractMeds _ => ep_extract_meds
  | PostMedInfo _ => ep_med_info
  | PostChat _ _ => ep_chat
  end.

Definition endpoint_eqb (e1 e2 : Endpoint) : bool :=
  match e1, e2 with
  | ep_ocr, ep_ocr | ep_extract_meds, ep_extract_meds
  | ep_med_info, ep_med_info | ep_chat, ep_chat => true
  | _, _ => false
  end.

(** How many of [reqs] went to endpoint [e]. *)
Fixpoint calls (e : Endpoint) (reqs : list Request) : nat :=
  match reqs with
  | [] => 0
  | req :: rest =>
      (if endpoint_eqb (endpoint req) e then 1 else 0) + calls e rest
  end.

(** ** Vocabulary of the statements *)

(** The continuations of [processPrescription]. *)
Definition pipeline_cont (k : Cont) : bool :=
  match k with
  | AwaitOcr _ | AwaitMeds _ _ | AwaitInfo _ _ _ => true
  | AwaitChat => false
  end.

(** The error a pipeline step raises on a response: the rejection itself,
    or the [Error] thrown on [success: false]; [None] when the step goes on. *)
Definition failure (s : Settlement) : option JsError :=
  match s with
  | SOcr (Rejected e) | SMeds (Rejected e) | SInfo (Rejected e) => Some e
  | SOcr (Resolved d) =>
      if OcrData.success d then None else Some (Error (OcrData.message d))
  | SMeds (Resolved d) =>
      if MedsData.success d then None
      else Some (Error (Str "Could not identify medicines in the prescription"))
  | SInfo (Resolved d) =>
      if InfoData.success d then None
      else Some (Error (Str "Could not retrieve medicine information"))
  | SChat _ => None
  end.

(** Whether a settlement is of the kind continuation [k] awaits. *)
Definition awaits (k : Cont) (s : Settlement) : bool :=
  match k, s with
  | AwaitOcr _, SOcr _ | AwaitMeds _ _, SMeds _
  | AwaitInfo _ _ _, SInfo _ | AwaitChat, SChat _ => true
  | _, _ => false
  end.

(** The one AI message [handleChatMessage] answers a settlement with. *)
Definition chat_reply_text (o : Outcome ChatData.t) : string :=
  match o with
  | Resolved d =>
      if ChatData.success d then ChatData.response d
      else "Sorry, I encountered an error. Please try again."
  | Rejected _ =>
      "Sorry, I encountered an error while processing your message. Please try again."
  end.

(** The four displayed artifacts are those of one run: its file, its OCR
    text, its corrections and its medicine information. *)
Definition reflects_only (w : World) (file : File.t) (text : string)
    (data : list MedicineCorrection.t) (infos : list MedicineInfo.t) : Prop :=
  extractedText (appContent w) = text
  /\ medicineCorrections (appContent w) = data
  /\ medicines (appContent w) = infos
  /\ modalResults (appContent w) =
       Some {| ModalResults.extractedText := text;
               ModalResults.medicines := infos;
               ModalResults.medicineCorrections := data;
               ModalResults.fileName := File.name file |}.



(** ** Sample data *)

Definition rx1 : File.t :=
  {| File.name := "rx1.jpg"; File.type := "image/jpeg"; File.payload := "/9j/4AAQ" |}.

Definition rx2 : File.t :=
  {| File.name := "rx2.PDF"; File.type := "application/pdf"; File.payload := "JVBERi0x" |}.

Definition correction (original corrected : string) : MedicineCorrection.t :=
  {| MedicineCorrection.original := original;
     MedicineCorrection.corrected := corrected;
     MedicineCorrection.confidence := 95;
     MedicineCorrection.method := "exact";
     MedicineCorrection.explanation := "";
     MedicineCorrection.is_valid := true |}.

Definition info (name : string) : MedicineInfo.t :=
  {| MedicineInfo.name := name;
     MedicineInfo.category := "general medication";
     MedicineInfo.description := "";
     MedicineInfo.dosage := "";
     MedicineInfo.side_effects := "";
     MedicineInfo.precautions := "";
     MedicineInfo.verified := false |}.

Definition ocr_ok (text : string) : OcrData.t :=
  {| OcrData.success := true; OcrData.text := text; OcrData.message := Undefined |}.

Definition ocr_unreadable : OcrData.t :=
  {| OcrData.success := false; OcrData.text := "";
     OcrData.message := Str "No text found in image" |}.

Definition meds_ok (data : list MedicineCorrection.t)
    (summary : option string) : MedsData.t :=
  {| MedsData.success := true; MedsData.medicines := data;
     MedsData.correction_summary := summary |}.

Definition meds_failed : MedsData.t :=
  {| MedsData.success := false; MedsData.medicines := [];
     MedsData.correction_summary := None |}.

Definition info_ok (infos : list MedicineInfo.t) : InfoData.t :=
  {| InfoData.success := true; InfoData.medicines_info := infos |}.

Definition chat_ok (response : string) : ChatData.t :=
  {| ChatData.success := true; ChatData.response := response |}.

Definition network_error : JsError := {| message := "Network Error" |}.

(** A backend that reads one medicine and knows it. *)
Definition paracetamol_backend : Backend :=
  {| ocr := fun _ => Resolved (ocr_ok "Paracetamol 500mg twice daily");
     extract_meds := fun _ =>
       Resolved (meds_ok [correction "Paracetamol" "Paracetamol"] (Some sentinel));
     med_info := fun names => Resolved (info_ok (info <$> names));
     chat := fun _ _ => Resolved (chat_ok "Take it after food.") |}.

(** A backend whose OCR endpoint cannot be reached. *)
Definition offline_backend : Backend :=
  {| ocr := fun _ => Rejected network_error;
     extract_meds := fun _ => Rejected network_error;
     med_info := fun _ => Rejected network_error;
     chat := fun _ _ => Rejected network_error |}.

(** A backend that reads the text and fails to extract medicines. *)
Definition no_extraction_backend : Backend :=
  {| ocr := fun _ => Resolved (ocr_ok "illegible scrawl");
     extract_meds := fun _ => Resolved meds_failed;
     med_info := fun names => Resolved (info_ok (info <$> names));
     chat := fun _ _ => Rejected network_error |}.

(** The world a sequence of events leads to from the freshly loaded page. *)
Definition world_after (evs : list Event) : World :=
  default initialWorld (exec evs initialWorld).

Definition paracetamol_text : string := "Paracetamol 500mg twice daily".

(** [rx1.jpg] has just been selected. *)
Definition uploaded_world : World := world_after [EvDrop [rx1]].

(** ... and its text has been read. *)
Definition ocr_done_world : World :=
  world_after [EvDrop [rx1];
               EvSettle 0 (SOcr (Resolved (ocr_ok paracetamol_text)))].

(** ... and its one medicine has been identified. *)
Definition meds_done_world : World :=
  world_after [EvDrop [rx1];
               EvSettle 0 (SOcr (Resolved (ocr_ok paracetamol_text)));
               EvSettle 1 (SMeds (Resolved
                 (meds_ok [correction "Paracetamol" "Paracetamol"]
                    (Some sentinel))))].

(** The completion notice of the information step. *)
Definition completion_notice : string :=
  "I've analyzed your prescription and prepared detailed information for each medicine. You can view the details below.".

(** A backend whose information endpoint answers about another medicine
    than the one it was asked about. *)
Definition mislabelling_backend : Backend :=
  {| ocr := fun _ => Resolved (ocr_ok paracetamol_text);
     extract_meds := fun _ =>
       Resolved (meds_ok [correction "Paracetmol" "Paracetamol"]
                   (Some "1 medicine name was corrected."));
     med_info := fun _ => Resolved (info_ok [info "Ibuprofen"]);
     chat := fun _ _ => Rejected network_error |}.


Definition ibuprofen_text : string := "Ibuprofen 200mg after meals".

(** [rx1.jpg] was selected and, before any response, [rx2.PDF] as well:
    request 0 belongs to the first run, request 1 to the second. *)
Definition two_uploads_world : World :=
  world_after [EvDrop [rx1]; EvDrop [rx2]].

(** A synchronous piece of code only ever extends the transcript. *)
Definition appends {A} (m : Exec A) : Prop :=
  forall w, messages (appContent w) `prefix_of` messages (appContent (m w).2).

(** The same for a change of the world. *)
Definition grows (f : World -> World) : Prop :=
  forall w, messages (appContent w) `prefix_of` messages (appContent (f w)).

(** ** More of JavaScript's strings *)

(** [s.startsWith(prefix)]. *)
Fixpoint startsWith (s prefix : string) : bool :=
  match prefix, s with
  | EmptyString, _ => true
  | String p ps, String c cs => Ascii.eqb p c && startsWith cs ps
  | String _ _, EmptyString => false
  end.

(** [s.includes(sub)]: [sub] starts at some position of [s]. *)
Fixpoint includes (s sub : string) : bool :=
  startsWith s sub ||
  match s with
  | EmptyString => false
  | String _ rest => includes rest sub
  end.

(** How many characters of [s] are [c]. *)
Fixpoint occurrences (c : Ascii.ascii) (s : string) : nat :=
  match s with
  | EmptyString => 0
  | String d rest => (if Ascii.eqb d c then 1 else 0) + occurrences c rest
  end.

(** ** [ChatInput]: the handlers of [ChatInput.jsx] *)

Module ChatInput.

(** [handleSubmit], with the props as parameters; [trim] stands for
    [String.prototype.trim], which is the language's and not this code's,
    and is left open.  The result is the new value of the input's [message]
    cell. *)
Definition handleSubmit (trim : string -> string)
    (onSendMessage : string -> Exec unit)
    (isProcessing : bool) (message : string) : Exec string :=
  if truthy (Some (trim message)) && negb isProcessing
  then onSendMessage (trim message) ;;; ret ""
  else ret message.

End ChatInput.

(** ** [ResultsModal]: what the modal computes from [results] *)

Module ResultsModal.

(** The error of calling [toLowerCase] on a medicine object. *)
Definition notAFunction : JsError :=
  {| message := "(m.name || m.corrected || m).toLowerCase is not a function" |}.

(** [(m.name || m.corrected || m).toLowerCase()]: a MedicineInfo has no
    [corrected], so without a name the object itself is left, which has no
    such method. *)
Definition lowerName (m : MedicineInfo.t) : Completion string :=
  if truthy (Some (MedicineInfo.name m))
  then Normal (toLowerCase (MedicineInfo.name m))
  else Thrown notAFunction.

(** [medicines.map(m => ...)], stopping at the first error. *)
Fixpoint lowerNames (ms : list MedicineInfo.t) : Completion (list string) :=
  match ms with
  | [] => Normal []
  | m :: rest =>
      match lowerName m with
      | Thrown e => Thrown e
      | Normal n =>
          match lowerNames rest with
          | Thrown e => Thrown e
          | Normal ns => Normal (n :: ns)
          end
      end
  end.

(** The chain of [if]s of [detectDisease]. *)
Definition classify (combinedText : string) : option string :=
  if includes combinedText "metformin" || includes combinedText "insulin"
     || includes combinedText "diabetes" || includes combinedText "glucose"
     || includes combinedText "glipizide" || includes combinedText "glyburide"
  then Some "Diabetes"
  else if includes combinedText "amlodipine" || includes combinedText "lisinopril"
     || includes combinedText "hypertension"
     || includes combinedText "blood pressure"
     || includes combinedText "atenolol" || includes combinedText "losartan"
  then Some "Hypertension"
  else if includes combinedText "ibuprofen" || includes combinedText "arthritis"
     || includes combinedText "joint" || includes combinedText "inflammation"
     || includes combinedText "naproxen" || includes combinedText "celecoxib"
  then Some "Arthritis"
  else if includes combinedText "asthma" || includes combinedText "inhaler"
     || includes combinedText "albuterol"
     || includes combinedText "bronchodilator"
  then Some "Asthma"
  else if includes combinedText "depression" || includes combinedText "anxiety"
     || includes combinedText "sertraline" || includes combinedText "fluoxetine"
  then Some "Mental Health"
  else None.

(** [`${allText} ${medicineNames}`]. *)
Definition combinedText (allText : string) (names : list string) : string :=
  allText +:+ " " +:+ join " " names.

Definition detectDisease (results : ModalResults.t)
    : Completion (option string) :=
  let allText := toLowerCase (ModalResults.extractedText results) in
  match lowerNames (ModalResults.medicines results) with
  | Thrown e => Thrown e
  | Normal names => Normal (classify (combinedText allText names))
  end.

(** The number under "Words Extracted". *)
Definition wordsExtracted (results : ModalResults.t) : nat :=
  if truthy (Some (ModalResults.extractedText results))
  then length (split SPACE (ModalResults.extractedText results))
  else 0.

(** [if (!isOpen || !results) return null]. *)
Definition rendered (a : AppState) : bool :=
  showResultsModal a && bool_decide (is_Some (modalResults a)).


End ResultsModal.

(** The number in the chat message "Found ... words". *)
Definition wordsFound (extractedText : string) : nat :=
  length (split SPACE extractedText).

(** ** [HealthChart]: the plan shown inside the modal *)

Module HealthChart.

Record Plan := {
  dietary : list string;
  exercise : list string;
  tips : list string
}.

Definition diabetes : Plan :=
  {| dietary :=
       [ "Low glycemic index foods (quinoa, oats, legumes)";
         "Portion-controlled meals every 3-4 hours";
         "High fiber vegetables and lean proteins";
         "Limit refined sugars and processed foods";
         "Stay hydrated with 8-10 glasses of water";
         "Include cinnamon and turmeric in meals";
         "Choose whole grains over refined carbs" ];
     exercise :=
       [ "30-minute brisk walk after meals";
         "Resistance training 2-3 times per week";
         "Yoga or stretching for 15 minutes";
         "Swimming or low-impact cardio";
         "Monitor blood sugar before/after exercise";
         "Strength training with light weights";
         "Balance exercises to prevent falls" ];
     tips :=
       [ "Check blood glucose levels regularly";
         "Take medications as prescribed";
         "Maintain consistent meal timing";
         "Keep emergency glucose tablets handy" ] |}.

Definition hypertension : Plan :=
  {| dietary :=
       [ "DASH diet with low sodium (< 2300mg/day)";
         "Potassium-rich foods (bananas, spinach)";
         "Limit processed and packaged foods";
         "Increase fruits and vegetables intake";
         "Choose lean proteins and fish";
         "Reduce caffeine and alcohol consumption";
         "Include garlic and beetroot in diet" ];
     exercise :=
       [ "Moderate aerobic exercise 150 min/week";
         "Walking, cycling, or swimming";
         "Avoid heavy weightlifting initially";
         "Deep breathing exercises daily";
         "Tai Chi or gentle yoga";
         "Gradual increase in activity intensity";
         "Monitor heart rate during exercise" ];
     tips :=
       [ "Monitor blood pressure daily";
         "Manage stress through meditation";
         "Maintain healthy weight";
         "Limit salt intake strictly" ] |}.

Definition arthritis : Plan :=
  {| dietary :=
       [ "Anti-inflammatory foods (fatty fish, berries)";
         "Omega-3 rich foods (salmon, walnuts)";
         "Colorful fruits and vegetables";
         "Limit red meat and processed foods";
         "Include turmeric and ginger";
         "Stay hydrated for joint lubrication";
         "Maintain healthy weight to reduce joint stress" ];
     exercise :=
       [ "Low-impact exercises (swimming, cycling)";
         "Range of motion exercises daily";
         "Strength training with light resistance";
         "Water aerobics for joint relief";
         "Gentle stretching and flexibility work";
         "Avoid high-impact activities";
         "Heat/cold therapy as needed" ];
     tips :=
       [ "Take medications with food if needed";
         "Use joint protection techniques";
         "Apply heat before exercise, cold after";
         "Listen to your body and rest when needed" ] |}.

Definition default_plan : Plan :=
  {| dietary :=
       [ "Balanced diet with variety of nutrients";
         "5-7 servings of fruits and vegetables";
         "Adequate protein from various sources";
         "Whole grains and healthy fats";
         "Stay well hydrated throughout day";
         "Limit processed and sugary foods";
         "Eat regular, portion-controlled meals" ];
     exercise :=
       [ "150 minutes moderate exercise per week";
         "Mix of cardio and strength training";
         "Daily stretching or flexibility work";
         "Find activities you enjoy";
         "Start slowly and progress gradually";
         "Include rest and recovery days";
         "Stay consistent with routine" ];
     tips :=
       [ "Take medications as prescribed";
         "Get adequate sleep (7-9 hours)";
         "Manage stress effectively";
         "Regular medical check-ups" ] |}.

(** [disease?.includes(key)] with [disease = diseaseName?.toLowerCase()]. *)
Definition mentions (diseaseName : option string) (key : string) : bool :=
  match diseaseName with
  | Some d => includes (toLowerCase d) key
  | None => false
  end.

Definition getRecommendations (diseaseName : option string) : Plan :=
  if mentions diseaseName "diabetes" || mentions diseaseName "metformin"
  then diabetes
  else if mentions diseaseName "hypertension"
          || mentions diseaseName "blood pressure"
          || mentions diseaseName "amlodipine"
  then hypertension
  else if mentions diseaseName "arthritis" || mentions diseaseName "joint"
          || mentions diseaseName "inflammation"
  then arthritis
  else default_plan.

(** [toggleTask] on the set in [completedTasks]. *)
Definition toggleTask (taskId : string) (completedTasks : gset string)
    : gset string :=
  if bool_decide (taskId ∈ completedTasks)
  then completedTasks ∖ {[ taskId ]}
  else completedTasks ∪ {[ taskId ]}.

(** [Math.round((a / b) * 100)] for natural [a] and positive [b]: the
    nearest integer, a half rounding up.  With [b = 98], the only value the
    four plans give, [100 * a / 98] is never nearer than 1/98 to a half, so
    the rounding of the floating-point quotient is that of the exact one. *)
Definition roundPercent (a b : nat) : nat := (200 * a + b) / (2 * b).

Definition totalTasks (recommendations : Plan) : nat :=
  7 * (length (dietary recommendations) + length (exercise recommendations)).

Definition getProgressPercentage (recommendations : Plan)
    (completedTasks : gset string) : nat :=
  roundPercent (size completedTasks) (totalTasks recommendations).

(** The id of a task: [`${currentWeek}-${dayIndex}-diet-${i}`]. *)
Definition taskId (currentWeek : Z) (dayIndex : nat) (type : string)
    (i : nat) : string :=
  pretty currentWeek +:+ "-" +:+ pretty dayIndex +:+ "-" +:+ type
    +:+ "-" +:+ pretty i.

Record Task := { task : string; id : string; type : string }.

(** The tasks listed under one day. *)
Definition dayTasks (recommendations : Plan) (currentWeek : Z)
    (dayIndex : nat) : list Task :=
  imap (fun i t => {| task := t; id := taskId currentWeek dayIndex "diet" i;
                      type := "diet" |})
       (take 2 (dietary recommendations))
  ++ imap (fun i t => {| task := t;
                         id := taskId currentWeek dayIndex "exercise" i;
                         type := "exercise" |})
          (take 2 (exercise recommendations)).

(** [daysOfWeek.map((day, dayIndex) => ...)]: the tasks of the week shown. *)
Definition weekTasks (recommendations : Plan) (currentWeek : Z) : list Task :=
  mjoin ((fun dayIndex => dayTasks recommendations currentWeek dayIndex)
           <$> seq 0 7).

(** The two week buttons. *)
Definition previousWeek (currentWeek : Z) : Z := Z.max 0 (currentWeek - 1).
Definition nextWeek (currentWeek : Z) : Z := (currentWeek + 1)%Z.

End HealthChart.

(** ** [MedicineCard]: the colour of a category *)

Module MedicineCard.

Definition default_color : string := "from-gray-500 to-gray-600".

(** The own properties of the [colors] object. *)
Definition colors : gmap string string :=
  list_to_map
    [ ("antibiotic", "from-blue-500 to-blue-600");
      ("pain reliever", "from-red-500 to-red-600");
      ("anti-inflammatory", "from-orange-500 to-orange-600");
      ("antihistamine", "from-purple-500 to-purple-600");
      ("antacid", "from-green-500 to-green-600");
      ("vitamin", "from-yellow-500 to-yellow-600");
      ("supplement", "from-indigo-500 to-indigo-600");
      ("general medication", "from-gray-500 to-gray-600") ].

(** The names every object answers to through [Object.prototype]. *)
Definition inherited : list string :=
  [ "constructor"; "__defineGetter__"; "__defineSetter__"; "hasOwnProperty";
    "__lookupGetter__"; "__lookupSetter__"; "isPrototypeOf";
    "propertyIsEnumerable"; "toString"; "valueOf"; "__proto__";
    "toLocaleString" ].

(** [colors[category?.toLowerCase()] || default]; [None] stands for the
    function or object an inherited name yields, which is not a colour. *)
Definition getCategoryColor (category : option string) : option string :=
  let key := default "undefined" (toLowerCase <$> category) in
  match colors !! key with
  | Some color => Some color
  | None => if bool_decide (key ∈ inherited) then None else Some default_color
  end.

End MedicineCard.

(** ** Vocabulary of the statements about whole runs *)

(** How many requests a run may still post, the awaited one included. *)
Definition rank (k : Cont) : nat :=
  match k with
  | AwaitOcr _ => 3
  | AwaitMeds _ _ => 2
  | AwaitInfo _ _ _ => 1
  | AwaitChat => 1
  end.

(** The request a continuation of the pipeline waits for. *)
Definition expects (k : Cont) (req : Request) : bool :=
  match k, req with
  | AwaitOcr _, PostOcr _ | AwaitMeds _ _, PostExtractMeds _
  | AwaitInfo _ _ _, PostMedInfo _ => true
  | _, _ => false
  end.

(** What a run has on display: the four artifacts, the modal flag and the
    file the Analysis button works on. *)
Definition displayed (a : AppState) :=
  (extractedText a, medicineCorrections a, medicines a, modalResults a,
   showResultsModal a, currentFile a).

(** The separator inside a task id. *)
Definition DASH : Ascii.ascii := Ascii.ascii_of_nat 45.

(** The week the chart shows after a sequence of clicks on its two week
    buttons ([true] for the next week, [false] for the previous one). *)
Definition weekAfter (clicks : list bool) : Z :=
  fold_left (fun (week : Z) (next : bool) =>
               if next then HealthChart.nextWeek week
               else HealthChart.previousWeek week) clicks 0%Z.

(** ** Vocabulary of the invariants of the page *)

(** The request a continuation was suspended on, with the data they share. *)
Definition answers_to (k : Cont) (req : Request) : Prop :=
  match k, req with
  | AwaitOcr file, PostOcr posted => posted = file
  | AwaitMeds _ extractedText, PostExtractMeds prescription_text =>
      prescription_text = extractedText
  | AwaitInfo _ _ medicineData, PostMedInfo names =>
      names = medicineNames medicineData
  | AwaitChat, PostChat _ _ => True
  | _, _ => False
  end.

(** Every pending continuation waits for a request that was posted, and
    for the one it was suspended on. *)
Definition well_paired (w : World) : Prop :=
  forall id k,
    inflight w !! id = Some k ->
    exists req, requests w !! id = Some req /\ answers_to k req.

(** The transcript is in the order of its time stamps, none in the future. *)
Definition in_time_order (w : World) : Prop :=
  (forall i j earlier later,
     i <= j ->
     messages (appContent w) !! i = Some earlier ->
     messages (appContent w) !! j = Some later ->
     timestamp earlier <= timestamp later)
  /\ Forall (fun m => timestamp m <= clock w) (messages (appContent w)).

(** * Properties *)

(** ** Strings *)

Lemma length_append (a b : string) :
  String.length (a +:+ b) = String.length a + String.length b.
Proof.
  induction a as [|c a IH]; simpl; [reflexivity | now rewrite IH].
Qed.

Lemma append_nonempty_neq (a b : string) :
  0 < String.length b -> a <> a +:+ b.
Proof.
  intros Hb Heq. apply (f_equal String.length) in Heq.
  rewrite length_append in Heq. lia.
Qed.

Example split_keeps_empty_parts :
  split SPACE "twice  daily" = ["twice"; ""; "daily"]
  /\ split SPACE "" = [""].
Proof. split; reflexivity. Qed.

Example join_of_names :
  join ", " ["Paracetamol"; "Ibuprofen"] = "Paracetamol, Ibuprofen"
  /\ join ", " [] = "".
Proof. split; reflexivity. Qed.

Example pdf_is_shown_as_glyph :
  dropZoneView {| preview := Some (dataURL rx2); fileName := File.name rx2 |}
    = PdfGlyph
  /\ dropZoneView {| preview := Some (dataURL rx1); fileName := File.name rx1 |}
     = PreviewImage "data:image/jpeg;base64,/9j/4AAQ".
Proof. split; reflexivity. Qed.

Lemma truthy_Some (s : string) : truthy (Some s) = true <-> s <> "".
Proof.
  unfold truthy. rewrite negb_true_iff. apply String.eqb_neq.
Qed.

Lemma shows_summary_Some (s : string) :
  shows_summary (Some s) = true <-> s <> "" /\ s <> sentinel.
Proof.
  unfold shows_summary.
  rewrite andb_true_iff, truthy_Some, negb_true_iff, bool_decide_eq_false.
  split; intros [H1 H2]; split; try assumption; congruence.
Qed.

(** ** Evaluating handlers *)

(** Runs a handler on a symbolic world: the handlers, the setters and the
    projections are unfolded, by value, so that every intermediate world is
    reduced to a record before it is used again. *)
Ltac crunch :=
  cbv beta iota zeta delta
    [spawn dispatch try_catch_finally bind ret throw modify react settle
     axios_post addMessage console_error console_log toast
     processPrescription_try processPrescription_ocr processPrescription_meds
     processPrescription_info processPrescription_catch
     processPrescription_finally processPrescription handleFileUpload
     clearResults handleAnalyze toggleDarkMode
     handleChatMessage_try handleChatMessage_chat handleChatMessage_catch
     handleChatMessage_finally handleChatMessage
     readAsDataURL reader_onload onDrop clearFile analysis_onClick
     withApp withCard withRequests withInflight withReaders withToasts
     withConsole withUnhandled withClock
     setIsDarkMode setMessages setIsTyping setIsProcessing setMedicines
     setMedicineCorrections setExtractedText setIsChatProcessing
     setCurrentFile setShowResultsModal setModalResults setPreview setFileName
     appContent uploadCard requests inflight readers toasts console
     unhandled clock isDarkMode messages isTyping isProcessing medicines
     medicineCorrections extractedText isChatProcessing currentFile
     showResultsModal modalResults preview fileName negb
     OcrData.success OcrData.text OcrData.message
     MedsData.success MedsData.medicines MedsData.correction_summary
     InfoData.success InfoData.medicines_info
     ChatData.success ChatData.response fst snd].

Ltac facts := crunch; repeat split; try reflexivity.

(** Settling a pending promise runs the code that awaits it. *)
Lemma step_settle (w : World) (id : nat) (k : Cont) (s : Settlement)
    (piece : Exec Suspend) :
  inflight w !! id = Some k ->
  resume k s = Some piece ->
  step (EvSettle id s) w = Some (spawn piece (withInflight (delete id) w)).
Proof.
  intros Hk Hp. unfold step. rewrite Hk. simpl. rewrite Hp. reflexivity.
Qed.

(** ** The steps of a run, one by one *)

(** The selection of a file runs the pipeline up to its first await. *)
Lemma upload_spec (file : File.t) (w : World) :
  let w1 := dispatch (handleFileUpload file) w in
  requests w1 = requests w ++ [PostOcr file]
  /\ inflight w1 = <[length (requests w) := AwaitOcr file]> (inflight w)
  /\ messages (appContent w1) = messages (appContent w) ++
       [{| sender := user;
           content := "Uploaded prescription: " +:+ File.name file;
           timestamp := clock w |}]
  /\ currentFile (appContent w1) = Some file
  /\ isProcessing (appContent w1) = true
  /\ isTyping (appContent w1) = true
  /\ uploadCard w1 = uploadCard w
  /\ unhandled w1 = unhandled w.
Proof. facts. Qed.

(** A step that fails: one message, flags down, nothing posted, run over. *)
Lemma failure_step (w : World) (id : nat) (k : Cont) (s : Settlement)
    (e : JsError) :
  inflight w !! id = Some k ->
  pipeline_cont k = true ->
  awaits k s = true ->
  failure s = Some e ->
  exists w1,
    step (EvSettle id s) w = Some w1
    /\ messages (appContent w1) = messages (appContent w) ++
         [{| sender := ai; content := failure_text e; timestamp := clock w |}]
    /\ isTyping (appContent w1) = false
    /\ isProcessing (appContent w1) = false
    /\ requests w1 = requests w
    /\ inflight w1 = delete id (inflight w)
    /\ unhandled w1 = unhandled w.
Proof.
  intros Hk Hp Ha Hf.
  destruct k, s as [o|o|o|o]; try discriminate;
    destruct o as [d|err]; simpl in Hf.
  all: try (destruct d as [succ]; simpl in Hf; destruct succ; try discriminate).
  all: injection Hf as <-.
  all: eexists; split; [ eapply step_settle; [eassumption | reflexivity] | ].
  all: facts.
Qed.

(** The OCR step on a successful response. *)
Lemma ocr_step (w : World) (id : nat) (file : File.t) (d : OcrData.t) :
  inflight w !! id = Some (AwaitOcr file) ->
  OcrData.success d = true ->
  exists w1,
    step (EvSettle id (SOcr (Resolved d))) w = Some w1
    /\ requests w1 = requests w ++ [PostExtractMeds (OcrData.text d)]
    /\ inflight w1 =
         <[length (requests w) := AwaitMeds file (OcrData.text d)]>
           (delete id (inflight w))
    /\ extractedText (appContent w1) = OcrData.text d
    /\ messages (appContent w1) = messages (appContent w) ++
         [{| sender := ai;
             content :=
               "I've extracted the text from your prescription. Found "
                 +:+ pretty (length (split SPACE (OcrData.text d)))
                 +:+ " words.";
             timestamp := clock w |}]
    /\ toasts w1 = toasts w
    /\ unhandled w1 = unhandled w.
Proof.
  intros Hk Hs. destruct d as [succ text msg]. simpl in Hs. subst succ.
  eexists; split; [ eapply step_settle; [eassumption | reflexivity] | ].
  facts.
Qed.

(** The extraction step on a successful response. *)
Lemma meds_step (w : World) (id : nat) (file : File.t) (text : string)
    (d : MedsData.t) :
  inflight w !! id = Some (AwaitMeds file text) ->
  MedsData.success d = true ->
  exists w1,
    step (EvSettle id (SMeds (Resolved d))) w = Some w1
    /\ requests w1 =
         requests w ++ [PostMedInfo (medicineNames (MedsData.medicines d))]
    /\ inflight w1 =
         <[length (requests w) := AwaitInfo file text (MedsData.medicines d)]>
           (delete id (inflight w))
    /\ medicineCorrections (appContent w1) = MedsData.medicines d
    /\ extractedText (appContent w1) = extractedText (appContent w)
    /\ messages (appContent w1) = messages (appContent w) ++
         [{| sender := ai; content := medicineMessage d; timestamp := clock w |}]
    /\ toasts w1 = toasts w
    /\ isProcessing (appContent w1) = isProcessing (appContent w)
    /\ unhandled w1 = unhandled w.
Proof.
  intros Hk Hs. destruct d as [succ data summary]. simpl in Hs. subst succ.
  eexists; split; [ eapply step_settle; [eassumption | reflexivity] | ].
  facts.
Qed.

(** The information step on a successful response. *)
Lemma info_step (w : World) (id : nat) (file : File.t) (text : string)
    (data : list MedicineCorrection.t) (d : InfoData.t) :
  inflight w !! id = Some (AwaitInfo file text data) ->
  InfoData.success d = true ->
  exists w1,
    step (EvSettle id (SInfo (Resolved d))) w = Some w1
    /\ requests w1 = requests w
    /\ inflight w1 = delete id (inflight w)
    /\ medicines (appContent w1) = InfoData.medicines_info d
    /\ medicineCorrections (appContent w1) = medicineCorrections (appContent w)
    /\ extractedText (appContent w1) = extractedText (appContent w)
    /\ modalResults (appContent w1) =
         Some {| ModalResults.extractedText := text;
                 ModalResults.medicines := InfoData.medicines_info d;
                 ModalResults.medicineCorrections := data;
                 ModalResults.fileName := File.name file |}
    /\ showResultsModal (appContent w1) = true
    /\ isTyping (appContent w1) = false
    /\ isProcessing (appContent w1) = false
    /\ messages (appContent w1) = messages (appContent w) ++
         [{| sender := ai;
             content := "I've analyzed your prescription and prepared detailed information for each medicine. You can view the details below.";
             timestamp := clock w |}]
    /\ toasts w1 =
         toasts w ++ [toast_success "Prescription processed successfully!"]
    /\ unhandled w1 = unhandled w.
Proof.
  intros Hk Hs. destruct d as [succ infos]. simpl in Hs. subst succ.
  eexists; split; [ eapply step_settle; [eassumption | reflexivity] | ].
  facts.
Qed.

(** ** Failures of a run *)

(** C5: whenever a step of a pipeline run fails - the request throws, or the
    response carries [success: false] - at OCR, extraction or information,
    exactly one AI message is appended to the transcript, which reads
    "Sorry, I encountered an error while processing your prescription: ",
    the message of the error, ". Please try again with a clearer image.";
    [isTyping] and [isProcessing] are reset, and no error leaves
    [processPrescription] uncaught.  The error is the rejection itself when
    the request throws; on [success: false] its message is the response's
    [message] at OCR, "Could not identify medicines in the prescription" at
    extraction and "Could not retrieve medicine information" at
    information. *)
Theorem pipeline_failure_reported_once (w : World) (id : nat) (k : Cont)
    (s : Settlement) (e : JsError) :
  inflight w !! id = Some k ->
  pipeline_cont k = true ->
  awaits k s = true ->
  failure s = Some e ->
  (exists w1,
     step (EvSettle id s) w = Some w1
     /\ messages (appContent w1) = messages (appContent w) ++
          [{| sender := ai;
              content :=
                "Sorry, I encountered an error while processing your prescription: "
                  +:+ message e +:+ ". Please try again with a clearer image.";
              timestamp := clock w |}]
     /\ isTyping (appContent w1) = false
     /\ isProcessing (appContent w1) = false
     /\ unhandled w1 = unhandled w)
  /\ match s with
     | SOcr (Rejected err) | SMeds (Rejected err) | SInfo (Rejected err) =>
         e = err
     | SOcr (Resolved d) =>
         message e = match OcrData.message d with
                     | Str m => m
                     | Null => "null"
                     | Undefined => ""
                     end
     | SMeds (Resolved _) =>
         message e = "Could not identify medicines in the prescription"
     | SInfo (Resolved _) =>
         message e = "Could not retrieve medicine information"
     | SChat _ => True
     end.
Proof.
  intros Hk Hp Ha Hf. split.
  - destruct (failure_step w id k s e Hk Hp Ha Hf)
      as (w1 & Hstep & Hmsg & Hty & Hpr & _ & _ & Hun).
    exists w1.
    split; [exact Hstep | split; [exact Hmsg | split; [exact Hty |]]].
    split; [exact Hpr | exact Hun].
  - destruct s as [o|o|o|o]; destruct o as [d|err]; simpl in Hf;
      try exact I; try (injection Hf as <-; reflexivity).
    + destruct (OcrData.success d); [discriminate |].
      injection Hf as <-. destruct (OcrData.message d); reflexivity.
    + destruct (MedsData.success d); [discriminate |].
      injection Hf as <-. reflexivity.
    + destruct (InfoData.success d); [discriminate |].
      injection Hf as <-. reflexivity.
Qed.

Lemma pipeline_failure_reported_once_witness :
  inflight uploaded_world !! 0 = Some (AwaitOcr rx1)
  /\ pipeline_cont (AwaitOcr rx1) = true
  /\ awaits (AwaitOcr rx1)
       (SOcr (Resolved {| OcrData.success := false; OcrData.text := "";
                          OcrData.message := Str "No text found in image" |}))
     = true
  /\ failure
       (SOcr (Resolved {| OcrData.success := false; OcrData.text := "";
                          OcrData.message := Str "No text found in image" |}))
     = Some {| message := "No text found in image" |}
  /\ exists w1,
       step (EvSettle 0
               (SOcr (Resolved {| OcrData.success := false; OcrData.text := "";
                                  OcrData.message :=
                                    Str "No text found in image" |})))
         uploaded_world = Some w1
       /\ messages (appContent w1) = messages (appContent uploaded_world) ++
            [{| sender := ai;
                content :=
                  "Sorry, I encountered an error while processing your prescription: No text found in image. Please try again with a clearer image.";
                timestamp := clock uploaded_world |}]
       /\ isTyping (appContent w1) = false
       /\ isProcessing (appContent w1) = false
       /\ unhandled w1 = unhandled uploaded_world.
Proof.
  assert (H1 : inflight uploaded_world !! 0 = Some (AwaitOcr rx1))
    by (vm_compute; reflexivity).
  assert (H2 : pipeline_cont (AwaitOcr rx1) = true) by reflexivity.
  assert (H3 : awaits (AwaitOcr rx1)
                 (SOcr (Resolved
                    {| OcrData.success := false; OcrData.text := "";
                       OcrData.message := Str "No text found in image" |}))
               = true) by reflexivity.
  assert (H4 : failure
                 (SOcr (Resolved
                    {| OcrData.success := false; OcrData.text := "";
                       OcrData.message := Str "No text found in image" |}))
               = Some {| message := "No text found in image" |})
    by reflexivity.
  split; [exact H1 | split; [exact H2 | split; [exact H3 | split; [exact H4 |]]]].
  exact (proj1 (pipeline_failure_reported_once uploaded_world 0 (AwaitOcr rx1)
                  _ _ H1 H2 H3 H4)).
Defined.

(** ** The medicines-found message *)

Lemma medicineMessage_plain (d : MedsData.t) :
  shows_summary (MedsData.correction_summary d) = false ->
  medicineMessage d
    = medicineMessage_base (medicineNames (MedsData.medicines d)).
Proof. intros H. unfold medicineMessage. now rewrite H. Qed.

Lemma medicineMessage_with_summary (d : MedsData.t) (s : string) :
  MedsData.correction_summary d = Some s ->
  shows_summary (Some s) = true ->
  medicineMessage d
    = medicineMessage_base (medicineNames (MedsData.medicines d))
        +:+ LF +:+ LF +:+ s.
Proof. intros Hs H. unfold medicineMessage. rewrite Hs, H. reflexivity. Qed.

(** C3: on an extraction response with [success: true] the medicines-found
    message is "I found ", the number of medicines, " medicine(s) in your
    prescription: " and the corrected names separated by ", "; it is followed
    by two line feeds and [correction_summary] if and only if that summary is
    a non-empty string other than "All medicine names were accurate."; with
    that sentence, an empty or an absent summary the message is the count and
    the names alone. *)
Theorem summary_shown_iff_not_sentinel (w : World) (id : nat) (file : File.t)
    (text : string) (d : MedsData.t) :
  inflight w !! id = Some (AwaitMeds file text) ->
  MedsData.success d = true ->
  let names := MedicineCorrection.corrected <$> MedsData.medicines d in
  let base :=
    "I found " +:+ pretty (length names)
      +:+ " medicine(s) in your prescription: " +:+ join ", " names in
  let after_blank_line (s : string) :=
    String (Ascii.ascii_of_nat 10) (String (Ascii.ascii_of_nat 10) s) in
  exists w1 shown,
    step (EvSettle id (SMeds (Resolved d))) w = Some w1
    /\ messages (appContent w1) = messages (appContent w) ++
         [{| sender := ai; content := shown; timestamp := clock w |}]
    /\ (forall s, MedsData.correction_summary d = Some s ->
          (shown = base +:+ after_blank_line s
           <-> s <> "" /\ s <> "All medicine names were accurate."))
    /\ (MedsData.correction_summary d = Some "All medicine names were accurate."
        -> shown = base)
    /\ (MedsData.correction_summary d = Some "" -> shown = base)
    /\ (MedsData.correction_summary d = None -> shown = base).
Proof.
  intros Hk Hs names base after_blank_line.
  destruct (meds_step w id file text d Hk Hs)
    as (w1 & Hstep & _ & _ & _ & _ & Hmsg & _).
  exists w1, (medicineMessage d).
  split; [exact Hstep | split; [exact Hmsg |]].
  split; [| split; [| split]].
  - intros s Hsum. split.
    + intros Heq. apply shows_summary_Some.
      destruct (shows_summary (Some s)) eqn:Hshow; [reflexivity |].
      exfalso. rewrite medicineMessage_plain in Heq by now rewrite Hsum.
      revert Heq. apply append_nonempty_neq. simpl. lia.
    + intros Hshow. apply shows_summary_Some in Hshow.
      exact (medicineMessage_with_summary d s Hsum Hshow).
  - intros Hsum. apply medicineMessage_plain. rewrite Hsum. reflexivity.
  - intros Hsum. apply medicineMessage_plain. rewrite Hsum. reflexivity.
  - intros Hsum. apply medicineMessage_plain. rewrite Hsum. reflexivity.
Qed.

Lemma summary_shown_iff_not_sentinel_witness :
  inflight ocr_done_world !! 1 = Some (AwaitMeds rx1 paracetamol_text)
  /\ (exists w1,
        step (EvSettle 1 (SMeds (Resolved
               {| MedsData.success := true;
                  MedsData.medicines := [correction "Paracetmol" "Paracetamol"];
                  MedsData.correction_summary :=
                    Some "1 medicine name was corrected." |})))
          ocr_done_world = Some w1
        /\ messages (appContent w1) = messages (appContent ocr_done_world) ++
             [{| sender := ai;
                 content :=
                   "I found 1 medicine(s) in your prescription: Paracetamol"
                     +:+ String (Ascii.ascii_of_nat 10)
                           (String (Ascii.ascii_of_nat 10)
                              "1 medicine name was corrected.");
                 timestamp := clock ocr_done_world |}])
  /\ (exists w1,
        step (EvSettle 1 (SMeds (Resolved
               {| MedsData.success := true;
                  MedsData.medicines := [correction "Paracetmol" "Paracetamol";
                                         correction "Ibuprofin" "Ibuprofen"];
                  MedsData.correction_summary :=
                    Some "All medicine names were accurate." |})))
          ocr_done_world = Some w1
        /\ messages (appContent w1) = messages (appContent ocr_done_world) ++
             [{| sender := ai;
                 content :=
                   "I found 2 medicine(s) in your prescription: Paracetamol, Ibuprofen";
                 timestamp := clock ocr_done_world |}]).
Proof.
  assert (H1 : inflight ocr_done_world !! 1
               = Some (AwaitMeds rx1 paracetamol_text))
    by (vm_compute; reflexivity).
  split; [exact H1 | split].
  - destruct (summary_shown_iff_not_sentinel ocr_done_world 1 rx1
                paracetamol_text
                {| MedsData.success := true;
                   MedsData.medicines := [correction "Paracetmol" "Paracetamol"];
                   MedsData.correction_summary :=
                     Some "1 medicine name was corrected." |} H1 eq_refl)
      as (w1 & shown & Hstep & Hmsg & Hiff & _).
    exists w1. split; [exact Hstep |].
    pose proof (proj2 (Hiff "1 medicine name was corrected." eq_refl)) as Hshown.
    assert (Htext : shown
                    = "I found 1 medicine(s) in your prescription: Paracetamol"
                        +:+ String (Ascii.ascii_of_nat 10)
                              (String (Ascii.ascii_of_nat 10)
                                 "1 medicine name was corrected.")).
    { rewrite Hshown; [vm_compute; reflexivity | split; discriminate]. }
    rewrite Hmsg, Htext. reflexivity.
  - destruct (summary_shown_iff_not_sentinel ocr_done_world 1 rx1
                paracetamol_text
                {| MedsData.success := true;
                   MedsData.medicines := [correction "Paracetmol" "Paracetamol";
                                          correction "Ibuprofin" "Ibuprofen"];
                   MedsData.correction_summary :=
                     Some "All medicine names were accurate." |} H1 eq_refl)
      as (w1 & shown & Hstep & Hmsg & _ & Hsentinel & _).
    exists w1. split; [exact Hstep |].
    assert (Htext : shown
                    = "I found 2 medicine(s) in your prescription: Paracetamol, Ibuprofen").
    { rewrite (Hsentinel eq_refl). vm_compute. reflexivity. }
    rewrite Hmsg, Htext. reflexivity.
Defined.

(** ** A prescription without medicines *)





(** ** The chat handler *)

Lemma chat_step (w : World) (id : nat) (o : Outcome ChatData.t) :
  inflight w !! id = Some AwaitChat ->
  exists w1,
    step (EvSettle id (SChat o)) w = Some w1
    /\ messages (appContent w1) = messages (appContent w) ++
         [{| sender := ai; content := chat_reply_text o; timestamp := clock w |}]
    /\ isTyping (appContent w1) = false
    /\ isChatProcessing (appContent w1) = false
    /\ inflight w1 = delete id (inflight w)
    /\ requests w1 = requests w
    /\ unhandled w1 = unhandled w.
Proof.
  intros Hk.
  eexists; split; [ eapply step_settle; [eassumption | reflexivity] | ].
  destruct o as [[succ response]|err]; [destruct succ|]; facts.
Qed.

Lemma chat_start (w : World) (message : string) :
  let w1 := dispatch (handleChatMessage message) w in
  messages (appContent w1) = messages (appContent w) ++
    [{| sender := user; content := message; timestamp := clock w |}]
  /\ requests w1 = requests w ++
       [PostChat message (chat_context (medicines (appContent w)))]
  /\ inflight w1 = <[length (requests w) := AwaitChat]> (inflight w)
  /\ isTyping (appContent w1) = true
  /\ isChatProcessing (appContent w1) = true
  /\ clock w1 = clock w
  /\ unhandled w1 = unhandled w.
Proof. facts. Qed.

(** C10: every call of [handleChatMessage] appends the user's message at
    once and posts one chat request; whenever that request settles - with a
    reply, with [success: false] or with a thrown error - exactly one AI
    message is appended and [isTyping] and [isChatProcessing] are reset; so
    a call whose request settles next leaves the transcript longer by
    exactly the user message followed by one AI message. *)
Theorem chat_appends_user_then_one_ai (w : World) (message : string)
    (o : Outcome ChatData.t) :
  let w1 := dispatch (handleChatMessage message) w in
  (messages (appContent w1) = messages (appContent w) ++
     [{| sender := user; content := message; timestamp := clock w |}]
   /\ requests w1 = requests w ++
        [PostChat message (chat_context (medicines (appContent w)))]
   /\ inflight w1 !! length (requests w) = Some AwaitChat
   /\ unhandled w1 = unhandled w)
  /\ (forall w2 id,
        inflight w2 !! id = Some AwaitChat ->
        exists w3,
          step (EvSettle id (SChat o)) w2 = Some w3
          /\ messages (appContent w3) = messages (appContent w2) ++
               [{| sender := ai; content := chat_reply_text o;
                   timestamp := clock w2 |}]
          /\ isTyping (appContent w3) = false
          /\ isChatProcessing (appContent w3) = false
          /\ unhandled w3 = unhandled w2)
  /\ exists w3,
       step (EvSettle (length (requests w)) (SChat o)) w1 = Some w3
       /\ messages (appContent w3) = messages (appContent w) ++
            [{| sender := user; content := message; timestamp := clock w |};
             {| sender := ai; content := chat_reply_text o;
                timestamp := clock w |}]
       /\ isTyping (appContent w3) = false
       /\ isChatProcessing (appContent w3) = false
       /\ unhandled w3 = unhandled w.
Proof.
  intros w1.
  destruct (chat_start w message) as (Hmsg & Hreq & Hin & _ & _ & Hclk & Hun).
  fold w1 in Hmsg, Hreq, Hin, Hclk, Hun.
  assert (Hk : inflight w1 !! length (requests w) = Some AwaitChat).
  { rewrite Hin. apply lookup_insert_eq. }
  split; [| split].
  - repeat split; assumption.
  - intros w2 id Hk2.
    destruct (chat_step w2 id o Hk2) as (w3 & Hs & Hm & Ht & Hc & _ & _ & Hu).
    exists w3. repeat split; assumption.
  - destruct (chat_step w1 _ o Hk) as (w3 & Hs & Hm & Ht & Hc & _ & _ & Hu).
    exists w3.
    split; [exact Hs | split; [| split; [exact Ht | split; [exact Hc |]]]].
    + rewrite Hm, Hmsg, Hclk, <- app_assoc. reflexivity.
    + rewrite Hu. exact Hun.
Qed.

Lemma chat_appends_user_then_one_ai_witness :
  inflight (dispatch (handleChatMessage "Can I take this with food?")
              meds_done_world) !! 3 = Some AwaitChat
  /\ exists w3,
       step (EvSettle 3 (SChat (Rejected network_error)))
         (dispatch (handleChatMessage "Can I take this with food?")
            meds_done_world) = Some w3
       /\ isTyping (appContent w3) = false
       /\ isChatProcessing (appContent w3) = false.
Proof.
  destruct (chat_appends_user_then_one_ai meds_done_world
              "Can I take this with food?" (Rejected network_error))
    as ((_ & _ & Hk & _) & Hany & _).
  split; [exact Hk |].
  destruct (Hany _ 3 Hk) as (w3 & Hs & _ & Ht & Hc & _).
  exists w3. split; [exact Hs | split; [exact Ht | exact Hc]].
Defined.

(** ** A whole run against a backend *)

Lemma oldest_pending_sole (w : World) (id : nat) (k : Cont) (req : Request) :
  inflight w = {[ id := k ]} ->
  requests w !! id = Some req ->
  oldest_pending w = Some id.
Proof.
  intros Hin Hreq. unfold oldest_pending.
  assert (Hlt : id < length (requests w)) by (eapply lookup_lt_Some; eauto).
  assert (Hfind : list_find (fun i => is_Some (inflight w !! i))
                    (seq 0 (length (requests w))) = Some (id, id)).
  { apply list_find_Some. split; [| split].
    - now rewrite lookup_seq_lt.
    - rewrite Hin, lookup_singleton_eq. eauto.
    - intros j y Hj Hji. apply lookup_seq in Hj as [-> _]. simpl.
      rewrite Hin, lookup_singleton_ne by lia. now intros [? ?]. }
  rewrite Hfind. reflexivity.
Qed.

Lemma oldest_pending_quiet (w : World) :
  inflight w = ∅ -> oldest_pending w = None.
Proof.
  intros Hin. unfold oldest_pending.
  assert (Hfind : list_find (fun i => is_Some (inflight w !! i))
                    (seq 0 (length (requests w))) = None).
  { apply list_find_None, Forall_forall. intros i _.
    rewrite Hin, lookup_empty. now intros [? ?]. }
  rewrite Hfind. reflexivity.
Qed.

Lemma serve_step (fuel : nat) (b : Backend) (w w1 : World) (id : nat)
    (k : Cont) (req : Request) :
  inflight w = {[ id := k ]} ->
  requests w !! id = Some req ->
  step (EvSettle id (reply b req)) w = Some w1 ->
  serve (S fuel) b w = serve fuel b w1.
Proof.
  intros Hin Hreq Hstep.
  assert (Ha : answer b w = Some w1).
  { unfold answer. rewrite (oldest_pending_sole w id k req Hin Hreq).
    cbn [mbind option_bind]. rewrite Hreq. exact Hstep. }
  cbn [serve]. rewrite Ha. reflexivity.
Qed.

Lemma serve_quiet (fuel : nat) (b : Backend) (w : World) :
  inflight w = ∅ -> serve fuel b w = w.
Proof.
  intros Hin. destruct fuel; [reflexivity|].
  assert (Ha : answer b w = None).
  { unfold answer. rewrite (oldest_pending_quiet w Hin). reflexivity. }
  cbn [serve]. rewrite Ha. reflexivity.
Qed.

Lemma lookup_snoc {A} (l : list A) (x : A) : (l ++ [x]) !! length l = Some x.
Proof. rewrite lookup_app_r by lia. now rewrite Nat.sub_diag. Qed.

(** The state a run is in while its request number [id] is the only one
    pending. *)
Lemma run_after_upload (file : File.t) (w : World) :
  inflight w = ∅ ->
  let w0 := dispatch (handleFileUpload file) w in
  inflight w0 = {[ length (requests w) := AwaitOcr file ]}
  /\ requests w0 = requests w ++ [PostOcr file]
  /\ requests w0 !! length (requests w) = Some (PostOcr file).
Proof.
  intros Hin w0.
  destruct (upload_spec file w) as (Hreq & Hinf & _). fold w0 in Hreq, Hinf.
  rewrite Hin, insert_empty in Hinf.
  repeat split; try assumption. rewrite Hreq. apply lookup_snoc.
Qed.

(** A run whose OCR step fails posts the OCR request and nothing else. *)
Lemma run_ocr_fails (b : Backend) (file : File.t) (w : World) (e : JsError) :
  inflight w = ∅ ->
  failure (SOcr (ocr b file)) = Some e ->
  requests (run_pipeline b file w) = requests w ++ [PostOcr file]
  /\ inflight (run_pipeline b file w) = ∅.
Proof.
  intros Hin Hf. unfold run_pipeline.
  destruct (run_after_upload file w Hin) as (Hin0 & Hreq0 & Hlook0).
  set (w0 := dispatch (handleFileUpload file) w) in *.
  assert (Hk : inflight w0 !! length (requests w) = Some (AwaitOcr file))
    by (rewrite Hin0; apply lookup_singleton_eq).
  destruct (failure_step w0 _ _ (SOcr (ocr b file)) e Hk eq_refl eq_refl Hf)
    as (w1 & Hstep & _ & _ & _ & Hreq1 & Hin1 & _).
  rewrite (serve_step 2 b w0 w1 _ _ _ Hin0 Hlook0 Hstep).
  rewrite Hin0, delete_singleton_eq in Hin1.
  rewrite serve_quiet by assumption.
  split; [congruence | assumption].
Qed.

(** A run whose OCR step succeeds reaches the extraction step. *)
Lemma run_ocr_ok (b : Backend) (file : File.t) (w : World) (dO : OcrData.t) :
  inflight w = ∅ ->
  ocr b file = Resolved dO ->
  OcrData.success dO = true ->
  exists w1,
    run_pipeline b file w = serve 2 b w1
    /\ inflight w1 =
         {[ S (length (requests w)) := AwaitMeds file (OcrData.text dO) ]}
    /\ requests w1 =
         requests w ++ [PostOcr file; PostExtractMeds (OcrData.text dO)]
    /\ extractedText (appContent w1) = OcrData.text dO.
Proof.
  intros Hin Ho Hs. unfold run_pipeline.
  destruct (run_after_upload file w Hin) as (Hin0 & Hreq0 & Hlook0).
  set (w0 := dispatch (handleFileUpload file) w) in *.
  assert (Hk : inflight w0 !! length (requests w) = Some (AwaitOcr file))
    by (rewrite Hin0; apply lookup_singleton_eq).
  destruct (ocr_step w0 _ file dO Hk Hs)
    as (w1 & Hstep & Hreq1 & Hin1 & Htext & _).
  exists w1. split; [| split; [| split]].
  - apply (serve_step 2 b w0 w1 _ _ _ Hin0 Hlook0).
    simpl. rewrite Ho. exact Hstep.
  - rewrite Hin1, Hin0, delete_singleton_eq, insert_empty, Hreq0.
    rewrite length_app. simpl. now rewrite Nat.add_1_r.
  - rewrite Hreq1, Hreq0, <- app_assoc. reflexivity.
  - exact Htext.
Qed.

Lemma lookup_snoc2 {A} (l : list A) (x y : A) :
  (l ++ [x; y]) !! S (length l) = Some y.
Proof.
  rewrite lookup_app_r by lia.
  replace (S (length l) - length l) with 1 by lia. reflexivity.
Qed.

(** A run whose extraction step fails posts two requests and no more. *)
Lemma run_meds_fails (b : Backend) (file : File.t) (w : World)
    (dO : OcrData.t) (e : JsError) :
  inflight w = ∅ ->
  ocr b file = Resolved dO ->
  OcrData.success dO = true ->
  failure (SMeds (extract_meds b (OcrData.text dO))) = Some e ->
  requests (run_pipeline b file w)
    = requests w ++ [PostOcr file; PostExtractMeds (OcrData.text dO)]
  /\ inflight (run_pipeline b file w) = ∅.
Proof.
  intros Hin Ho Hs Hf.
  destruct (run_ocr_ok b file w dO Hin Ho Hs) as (w1 & -> & Hin1 & Hreq1 & _).
  assert (Hk : inflight w1 !! S (length (requests w))
               = Some (AwaitMeds file (OcrData.text dO)))
    by (rewrite Hin1; apply lookup_singleton_eq).
  assert (Hlook : requests w1 !! S (length (requests w))
                  = Some (PostExtractMeds (OcrData.text dO)))
    by (rewrite Hreq1; apply lookup_snoc2).
  destruct (failure_step w1 _ _ (SMeds (extract_meds b (OcrData.text dO))) e
              Hk eq_refl eq_refl Hf)
    as (w2 & Hstep & _ & _ & _ & Hreq2 & Hin2 & _).
  rewrite (serve_step 1 b w1 w2 _ _ _ Hin1 Hlook Hstep).
  rewrite Hin1, delete_singleton_eq in Hin2.
  rewrite serve_quiet by assumption.
  split; [congruence | assumption].
Qed.

(** A run whose first two steps succeed reaches the information step. *)
Lemma run_meds_ok (b : Backend) (file : File.t) (w : World)
    (dO : OcrData.t) (dM : MedsData.t) :
  inflight w = ∅ ->
  ocr b file = Resolved dO ->
  OcrData.success dO = true ->
  extract_meds b (OcrData.text dO) = Resolved dM ->
  MedsData.success dM = true ->
  exists w2,
    run_pipeline b file w = serve 1 b w2
    /\ inflight w2 =
         {[ S (S (length (requests w))) :=
              AwaitInfo file (OcrData.text dO) (MedsData.medicines dM) ]}
    /\ requests w2 =
         requests w ++ [PostOcr file; PostExtractMeds (OcrData.text dO);
                        PostMedInfo (medicineNames (MedsData.medicines dM))]
    /\ extractedText (appContent w2) = OcrData.text dO
    /\ medicineCorrections (appContent w2) = MedsData.medicines dM.
Proof.
  intros Hin Ho Hs Hm HsM.
  destruct (run_ocr_ok b file w dO Hin Ho Hs)
    as (w1 & -> & Hin1 & Hreq1 & Htext1).
  assert (Hk : inflight w1 !! S (length (requests w))
               = Some (AwaitMeds file (OcrData.text dO)))
    by (rewrite Hin1; apply lookup_singleton_eq).
  assert (Hlook : requests w1 !! S (length (requests w))
                  = Some (PostExtractMeds (OcrData.text dO)))
    by (rewrite Hreq1; apply lookup_snoc2).
  destruct (meds_step w1 _ file _ dM Hk HsM)
    as (w2 & Hstep & Hreq2 & Hin2 & Hcorr & Htext2 & _).
  exists w2. split; [| split; [| split; [| split]]].
  - apply (serve_step 1 b w1 w2 _ _ _ Hin1 Hlook).
    simpl. rewrite Hm. exact Hstep.
  - rewrite Hin2, Hin1, delete_singleton_eq, insert_empty, Hreq1.
    rewrite length_app. simpl.
    replace (length (requests w) + 2) with (S (S (length (requests w)))) by lia.
    reflexivity.
  - rewrite Hreq2, Hreq1, <- app_assoc. reflexivity.
  - congruence.
  - exact Hcorr.
Qed.

Lemma lookup_snoc3 {A} (l : list A) (x y z : A) :
  (l ++ [x; y; z]) !! S (S (length l)) = Some z.
Proof.
  rewrite lookup_app_r by lia.
  replace (S (S (length l)) - length l) with 2 by lia. reflexivity.
Qed.

(** A run whose information step fails has posted its three requests. *)
Lemma run_info_fails (b : Backend) (file : File.t) (w : World)
    (dO : OcrData.t) (dM : MedsData.t) (e : JsError) :
  inflight w = ∅ ->
  ocr b file = Resolved dO ->
  OcrData.success dO = true ->
  extract_meds b (OcrData.text dO) = Resolved dM ->
  MedsData.success dM = true ->
  failure (SInfo (med_info b (medicineNames (MedsData.medicines dM)))) = Some e ->
  requests (run_pipeline b file w)
    = requests w ++ [PostOcr file; PostExtractMeds (OcrData.text dO);
                     PostMedInfo (medicineNames (MedsData.medicines dM))]
  /\ inflight (run_pipeline b file w) = ∅.
Proof.
  intros Hin Ho Hs Hm HsM Hf.
  destruct (run_meds_ok b file w dO dM Hin Ho Hs Hm HsM)
    as (w2 & -> & Hin2 & Hreq2 & _).
  assert (Hk : inflight w2 !! S (S (length (requests w)))
               = Some (AwaitInfo file (OcrData.text dO) (MedsData.medicines dM)))
    by (rewrite Hin2; apply lookup_singleton_eq).
  assert (Hlook : requests w2 !! S (S (length (requests w)))
                  = Some (PostMedInfo (medicineNames (MedsData.medicines dM))))
    by (rewrite Hreq2; apply lookup_snoc3).
  destruct (failure_step w2 _ _
              (SInfo (med_info b (medicineNames (MedsData.medicines dM)))) e
              Hk eq_refl eq_refl Hf)
    as (w3 & Hstep & _ & _ & _ & Hreq3 & Hin3 & _).
  rewrite (serve_step 0 b w2 w3 _ _ _ Hin2 Hlook Hstep).
  rewrite Hin2, delete_singleton_eq in Hin3.
  simpl. split; [congruence | assumption].
Qed.

(** A run whose three steps succeed. *)
Lemma run_complete (b : Backend) (file : File.t) (w : World)
    (dO : OcrData.t) (dM : MedsData.t) (dI : InfoData.t) :
  inflight w = ∅ ->
  ocr b file = Resolved dO ->
  OcrData.success dO = true ->
  extract_meds b (OcrData.text dO) = Resolved dM ->
  MedsData.success dM = true ->
  med_info b (medicineNames (MedsData.medicines dM)) = Resolved dI ->
  InfoData.success dI = true ->
  requests (run_pipeline b file w)
    = requests w ++ [PostOcr file; PostExtractMeds (OcrData.text dO);
                     PostMedInfo (medicineNames (MedsData.medicines dM))]
  /\ inflight (run_pipeline b file w) = ∅
  /\ reflects_only (run_pipeline b file w) file (OcrData.text dO)
       (MedsData.medicines dM) (InfoData.medicines_info dI).
Proof.
  intros Hin Ho Hs Hm HsM Hi HsI.
  destruct (run_meds_ok b file w dO dM Hin Ho Hs Hm HsM)
    as (w2 & -> & Hin2 & Hreq2 & Htext2 & Hcorr2).
  assert (Hk : inflight w2 !! S (S (length (requests w)))
               = Some (AwaitInfo file (OcrData.text dO) (MedsData.medicines dM)))
    by (rewrite Hin2; apply lookup_singleton_eq).
  assert (Hlook : requests w2 !! S (S (length (requests w)))
                  = Some (PostMedInfo (medicineNames (MedsData.medicines dM))))
    by (rewrite Hreq2; apply lookup_snoc3).
  destruct (info_step w2 _ file _ _ dI Hk HsI)
    as (w3 & Hstep & Hreq3 & Hin3 & Hmed & Hcorr3 & Htext3 & Hmodal & _).
  assert (Hserve : serve 1 b w2 = w3).
  { rewrite (serve_step 0 b w2 w3 _ _ _ Hin2 Hlook); [reflexivity|].
    simpl. rewrite Hi. exact Hstep. }
  rewrite Hserve. rewrite Hin2, delete_singleton_eq in Hin3.
  split; [congruence | split; [assumption |]].
  unfold reflects_only. repeat split; congruence.
Qed.

Lemma issued_since_app (w w1 : World) (reqs : list Request) :
  requests w1 = requests w ++ reqs -> issued_since w w1 = reqs.
Proof. intros H. unfold issued_since. rewrite H. apply drop_app_length. Qed.

(** C2: a failing response stops the run that awaits it.  In any state and
    under any interleaving, settling a pending step of a run with a failure
    posts no request and leaves the run without a continuation, so it can
    never post again.  Counted over a whole run against a backend: an OCR
    failure leaves zero extract-meds and zero med-info calls, an extraction
    failure leaves zero med-info calls, and an information failure leaves
    the three calls made and nothing pending. *)
Theorem failed_step_stops_pipeline :
  (forall (w : World) (id : nat) (k : Cont) (s : Settlement) (e : JsError),
     inflight w !! id = Some k ->
     pipeline_cont k = true ->
     awaits k s = true ->
     failure s = Some e ->
     exists w1,
       step (EvSettle id s) w = Some w1
       /\ requests w1 = requests w
       /\ inflight w1 = delete id (inflight w))
  /\ (forall (b : Backend) (file : File.t) (w : World),
        inflight w = ∅ ->
        let w1 := run_pipeline b file w in
        let issued := issued_since w w1 in
        (forall e, failure (SOcr (ocr b file)) = Some e ->
           calls ep_ocr issued = 1
           /\ calls ep_extract_meds issued = 0
           /\ calls ep_med_info issued = 0
           /\ inflight w1 = ∅)
        /\ (forall dO e,
              ocr b file = Resolved dO ->
              OcrData.success dO = true ->
              failure (SMeds (extract_meds b (OcrData.text dO))) = Some e ->
              calls ep_ocr issued = 1
              /\ calls ep_extract_meds issued = 1
              /\ calls ep_med_info issued = 0
              /\ inflight w1 = ∅)
        /\ (forall dO dM e,
              ocr b file = Resolved dO ->
              OcrData.success dO = true ->
              extract_meds b (OcrData.text dO) = Resolved dM ->
              MedsData.success dM = true ->
              failure (SInfo (med_info b (medicineNames (MedsData.medicines dM))))
                = Some e ->
              calls ep_ocr issued = 1
              /\ calls ep_extract_meds issued = 1
              /\ calls ep_med_info issued = 1
              /\ length issued = 3
              /\ inflight w1 = ∅)).
Proof.
  split.
  - intros w id k s e Hk Hp Ha Hf.
    destruct (failure_step w id k s e Hk Hp Ha Hf)
      as (w1 & Hstep & _ & _ & _ & Hreq & Hin & _).
    exists w1. repeat split; assumption.
  - intros b file w Hin w1 issued. split; [| split].
    + intros e Hf.
      destruct (run_ocr_fails b file w e Hin Hf) as (Hreq & Hq).
      unfold issued. rewrite (issued_since_app w w1 _ Hreq).
      repeat split; try reflexivity. exact Hq.
    + intros dO e Ho Hs Hf.
      destruct (run_meds_fails b file w dO e Hin Ho Hs Hf) as (Hreq & Hq).
      unfold issued. rewrite (issued_since_app w w1 _ Hreq).
      repeat split; try reflexivity. exact Hq.
    + intros dO dM e Ho Hs Hm HsM Hf.
      destruct (run_info_fails b file w dO dM e Hin Ho Hs Hm HsM Hf)
        as (Hreq & Hq).
      unfold issued. rewrite (issued_since_app w w1 _ Hreq).
      repeat split; try reflexivity. exact Hq.
Qed.

Lemma failed_step_stops_pipeline_witness :
  (inflight uploaded_world !! 0 = Some (AwaitOcr rx1)
   /\ failure (SOcr (Rejected network_error)) = Some network_error
   /\ exists w1,
        step (EvSettle 0 (SOcr (Rejected network_error))) uploaded_world
          = Some w1
        /\ requests w1 = requests uploaded_world
        /\ inflight w1 = delete 0 (inflight uploaded_world))
  /\ (inflight initialWorld = ∅
      /\ failure (SOcr (ocr offline_backend rx1)) = Some network_error
      /\ calls ep_extract_meds
           (issued_since initialWorld
              (run_pipeline offline_backend rx1 initialWorld)) = 0
      /\ calls ep_med_info
           (issued_since initialWorld
              (run_pipeline offline_backend rx1 initialWorld)) = 0)
  /\ (ocr no_extraction_backend rx1 = Resolved (ocr_ok "illegible scrawl")
      /\ failure (SMeds (extract_meds no_extraction_backend "illegible scrawl"))
         = Some (Error (Str "Could not identify medicines in the prescription"))
      /\ calls ep_med_info
           (issued_since initialWorld
              (run_pipeline no_extraction_backend rx1 initialWorld)) = 0).
Proof.
  destruct failed_step_stops_pipeline as [Hstep Hrun].
  assert (H1 : inflight uploaded_world !! 0 = Some (AwaitOcr rx1))
    by (vm_compute; reflexivity).
  split; [| split].
  - split; [exact H1 | split; [reflexivity |]].
    exact (Hstep uploaded_world 0 (AwaitOcr rx1) (SOcr (Rejected network_error))
             network_error H1 eq_refl eq_refl eq_refl).
  - destruct (Hrun offline_backend rx1 initialWorld eq_refl) as (Hocr & _).
    destruct (Hocr network_error eq_refl) as (_ & Hm & Hi & _).
    split; [reflexivity | split; [reflexivity | split; [exact Hm | exact Hi]]].
  - destruct (Hrun no_extraction_backend rx1 initialWorld eq_refl)
      as (_ & Hmeds & _).
    destruct (Hmeds (ocr_ok "illegible scrawl") _ eq_refl eq_refl eq_refl)
      as (_ & _ & Hi & _).
    split; [reflexivity | split; [reflexivity | exact Hi]].
Defined.

(** ** What the information step stores *)




(** ** Two runs at once *)

(** C1, as stated, fails: run A (rx1.jpg, request 0) is pending when run B
    (rx2.PDF, request 1) starts; B's OCR and extraction responses arrive,
    then A's OCR response, then B's information response.  B has completed
    and its modal is shown, yet the displayed extracted text is A's. *)
Lemma late_response_is_applied :
  exists w,
    exec [EvDrop [rx1];
          EvDrop [rx2];
          EvSettle 1 (SOcr (Resolved (ocr_ok ibuprofen_text)));
          EvSettle 2 (SMeds (Resolved
            (meds_ok [correction "Ibuprofen" "Ibuprofen"] (Some sentinel))));
          EvSettle 0 (SOcr (Resolved (ocr_ok paracetamol_text)));
          EvSettle 3 (SInfo (Resolved (info_ok [info "Ibuprofen"])))]
      initialWorld = Some w
    /\ modalResults (appContent w) =
         Some {| ModalResults.extractedText := ibuprofen_text;
                 ModalResults.medicines := [info "Ibuprofen"];
                 ModalResults.medicineCorrections :=
                   [correction "Ibuprofen" "Ibuprofen"];
                 ModalResults.fileName := "rx2.PDF" |}
    /\ extractedText (appContent w) = paracetamol_text
    /\ ~ reflects_only w rx2 ibuprofen_text
           [correction "Ibuprofen" "Ibuprofen"] [info "Ibuprofen"].
Proof.
  eexists. split; [vm_compute; reflexivity |].
  split; [reflexivity | split; [reflexivity |]].
  intros (Htext & _). vm_compute in Htext. discriminate Htext.
Qed.

Lemma length_snoc {A} (l : list A) (x : A) : length (l ++ [x]) = S (length l).
Proof. rewrite length_app. simpl. lia. Qed.

(** C1, amended: no response is discarded - each is applied when it arrives,
    whichever run it belongs to.  When run B completes, the medicine list
    and the modal results are B's under every interleaving, and the
    extracted text and the corrections are whatever was written last.  So
    the displayed state reflects only B whenever B's three responses are
    applied with no other event in between: in every state in which B's OCR
    request is pending, whatever an earlier run left displayed or still has
    pending. *)
Theorem uninterrupted_run_is_displayed :
  (forall (w : World) (id : nat) (file : File.t) (text : string)
          (data : list MedicineCorrection.t) (dI : InfoData.t),
     inflight w !! id = Some (AwaitInfo file text data) ->
     InfoData.success dI = true ->
     exists w1,
       step (EvSettle id (SInfo (Resolved dI))) w = Some w1
       /\ medicines (appContent w1) = InfoData.medicines_info dI
       /\ modalResults (appContent w1) =
            Some {| ModalResults.extractedText := text;
                    ModalResults.medicines := InfoData.medicines_info dI;
                    ModalResults.medicineCorrections := data;
                    ModalResults.fileName := File.name file |}
       /\ extractedText (appContent w1) = extractedText (appContent w)
       /\ medicineCorrections (appContent w1)
            = medicineCorrections (appContent w))
  /\ (forall (w : World) (id : nat) (file : File.t)
             (dO : OcrData.t) (dM : MedsData.t) (dI : InfoData.t),
        inflight w !! id = Some (AwaitOcr file) ->
        OcrData.success dO = true ->
        MedsData.success dM = true ->
        InfoData.success dI = true ->
        exists w3,
          exec [EvSettle id (SOcr (Resolved dO));
                EvSettle (length (requests w)) (SMeds (Resolved dM));
                EvSettle (S (length (requests w))) (SInfo (Resolved dI))] w
            = Some w3
          /\ reflects_only w3 file (OcrData.text dO) (MedsData.medicines dM)
               (InfoData.medicines_info dI)).
Proof.
  split.
  - intros w id file text data dI Hk HsI.
    destruct (info_step w id file text data dI Hk HsI)
      as (w1 & Hstep & _ & _ & Hmed & Hcorr & Htext & Hmodal & _).
    exists w1.
    split; [exact Hstep | split; [exact Hmed | split; [exact Hmodal |]]].
    split; [exact Htext | exact Hcorr].
  - intros w id file dO dM dI Hk HsO HsM HsI.
    destruct (ocr_step w id file dO Hk HsO)
      as (w1 & Hstep1 & Hreq1 & Hin1 & Htext1 & _).
    assert (Hk1 : inflight w1 !! length (requests w)
                  = Some (AwaitMeds file (OcrData.text dO)))
      by (rewrite Hin1; apply lookup_insert_eq).
    destruct (meds_step w1 _ file _ dM Hk1 HsM)
      as (w2 & Hstep2 & Hreq2 & Hin2 & Hcorr2 & Htext2 & _).
    assert (Hlen1 : length (requests w1) = S (length (requests w)))
      by (rewrite Hreq1; apply length_snoc).
    assert (Hk2 : inflight w2 !! S (length (requests w))
                  = Some (AwaitInfo file (OcrData.text dO)
                            (MedsData.medicines dM)))
      by (rewrite Hin2, Hlen1; apply lookup_insert_eq).
    destruct (info_step w2 _ file _ _ dI Hk2 HsI)
      as (w3 & Hstep3 & _ & _ & Hmed3 & Hcorr3 & Htext3 & Hmodal3 & _).
    exists w3. split.
    + cbn [exec]. rewrite Hstep1. cbn [mbind option_bind].
      rewrite Hstep2. cbn [mbind option_bind]. rewrite Hstep3. reflexivity.
    + unfold reflects_only.
      split; [congruence | split; [congruence | split; [exact Hmed3 |]]].
      exact Hmodal3.
Qed.

Lemma uninterrupted_run_is_displayed_witness :
  inflight two_uploads_world !! 1 = Some (AwaitOcr rx2)
  /\ inflight two_uploads_world !! 0 = Some (AwaitOcr rx1)
  /\ exists w3,
       exec [EvSettle 1 (SOcr (Resolved (ocr_ok ibuprofen_text)));
             EvSettle 2 (SMeds (Resolved
               (meds_ok [correction "Ibuprofen" "Ibuprofen"] (Some sentinel))));
             EvSettle 3 (SInfo (Resolved (info_ok [info "Ibuprofen"])))]
         two_uploads_world = Some w3
       /\ reflects_only w3 rx2 ibuprofen_text
            [correction "Ibuprofen" "Ibuprofen"] [info "Ibuprofen"].
Proof.
  assert (H1 : inflight two_uploads_world !! 1 = Some (AwaitOcr rx2))
    by (vm_compute; reflexivity).
  assert (H0 : inflight two_uploads_world !! 0 = Some (AwaitOcr rx1))
    by (vm_compute; reflexivity).
  split; [exact H1 | split; [exact H0 |]].
  exact (proj2 uninterrupted_run_is_displayed two_uploads_world 1 rx2
           (ocr_ok ibuprofen_text)
           (meds_ok [correction "Ibuprofen" "Ibuprofen"] (Some sentinel))
           (info_ok [info "Ibuprofen"]) H1 eq_refl eq_refl eq_refl).
Defined.

(** ** The upload collector *)

(** C7, as stated, fails: a drop of two files on the fresh page posts the
    OCR request for the first one within the selection itself, and no
    preview exists yet when the handler returns. *)
Lemma selection_posts_ocr_request :
  exists w,
    step (EvDrop [rx1; rx2]) initialWorld = Some w
    /\ requests w = [PostOcr rx1]
    /\ requests w <> requests initialWorld
    /\ preview (uploadCard w) = None.
Proof.
  eexists. split; [vm_compute; reflexivity |].
  split; [reflexivity | split; [discriminate | reflexivity]].
Qed.

Lemma dataURL_truthy (file : File.t) : truthy (Some (dataURL file)) = true.
Proof. reflexivity. Qed.

(** C7, amended: a selection takes the first accepted file only and none
    when there is none; it stores the file's name, starts one local read of
    the preview and hands the file to the orchestrator, which posts the OCR
    request in the same synchronous step - exactly one request per
    selection.  The preview appears when the reader's load event fires,
    without a further request: the file's data URL, shown as an image unless
    the file name ends in .pdf, in which case the placeholder glyph is
    shown. *)
Theorem selection_takes_first_file (file : File.t) (others : list File.t)
    (w : World) :
  step (EvDrop []) w = Some w
  /\ exists w1,
       step (EvDrop (file :: others)) w = Some w1
       /\ fileName (uploadCard w1) = File.name file
       /\ preview (uploadCard w1) = preview (uploadCard w)
       /\ readers w1 = readers w ++ [file]
       /\ currentFile (appContent w1) = Some file
       /\ requests w1 = requests w ++ [PostOcr file]
       /\ inflight w1 = <[length (requests w) := AwaitOcr file]> (inflight w)
       /\ exists w2,
            step (EvReaderLoad (length (readers w))) w1 = Some w2
            /\ preview (uploadCard w2) = Some (dataURL file)
            /\ requests w2 = requests w1
            /\ dropZoneView (uploadCard w2) =
                 if endsWith (toLowerCase (File.name file)) ".pdf"
                 then PdfGlyph else PreviewImage (dataURL file).
Proof.
  split; [reflexivity |].
  eexists. split; [reflexivity |].
  split; [facts | split; [facts | split; [facts | split; [facts |]]]].
  split; [facts | split; [facts |]].
  eexists. split.
  - unfold step at 1.
    assert (Hr : readers (dispatch (onDrop handleFileUpload (file :: others)) w)
                   !! length (readers w) = Some file)
      by (facts; apply lookup_snoc).
    rewrite Hr. reflexivity.
  - split; [facts | split; [facts |]].
    unfold dropZoneView. crunch. rewrite dataURL_truthy. reflexivity.
Qed.

(** C8, as stated, fails: after selecting rx1.jpg and clearing it with the X
    the collector is empty, yet [currentFile] still holds the file, the
    Analysis button is enabled and a click on it posts rx1.jpg again. *)
Lemma cleared_file_is_still_analyzed :
  exists w w1,
    exec [EvDrop [rx1]; EvReaderLoad 0;
          EvSettle 0 (SOcr (Rejected network_error)); EvClearFile]
      initialWorld = Some w
    /\ uploadCard w = initialCard
    /\ currentFile (appContent w) = Some rx1
    /\ hasFile (appContent w) = true
    /\ step EvAnalysisClick w = Some w1
    /\ requests w1 = requests w ++ [PostOcr rx1].
Proof.
  eexists. eexists. split; [vm_compute; reflexivity |].
  split; [reflexivity | split; [reflexivity | split; [reflexivity |]]].
  split; [vm_compute; reflexivity | reflexivity].
Qed.

(** C8, amended: clearing the selected file removes the collector's preview
    and its stored file name, returning the collector to its empty state:
    the upload prompt is shown again and the collector holds no selection.
    Clearing posts no request and starts nothing. *)
Theorem clearFile_resets_collector_only (w : World) :
  let w1 := dispatch clearFile w in
  preview (uploadCard w1) = None
  /\ fileName (uploadCard w1) = ""
  /\ uploadCard w1 = initialCard
  /\ dropZoneView (uploadCard w1) = UploadPrompt
  /\ requests w1 = requests w
  /\ inflight w1 = inflight w
  /\ (truthy (preview (uploadCard w)) = true -> step EvClearFile w = Some w1).
Proof.
  repeat split; try (facts; fail).
  intros Hp. simpl. rewrite Hp. reflexivity.
Qed.

Lemma clearFile_resets_collector_only_witness :
  truthy (preview (uploadCard (world_after [EvDrop [rx1]; EvReaderLoad 0])))
    = true
  /\ step EvClearFile (world_after [EvDrop [rx1]; EvReaderLoad 0])
     = Some (dispatch clearFile (world_after [EvDrop [rx1]; EvReaderLoad 0]))
  /\ uploadCard (dispatch clearFile (world_after [EvDrop [rx1]; EvReaderLoad 0]))
     = initialCard.
Proof.
  assert (H : truthy (preview (uploadCard
                (world_after [EvDrop [rx1]; EvReaderLoad 0]))) = true)
    by (vm_compute; reflexivity).
  destruct (clearFile_resets_collector_only
              (world_after [EvDrop [rx1]; EvReaderLoad 0]))
    as (_ & _ & Hcard & _ & _ & _ & Hstep).
  split; [exact H | split; [exact (Hstep H) | exact Hcard]].
Defined.

(** ** The transcript *)

Create HintDb transcript.

Lemma appends_ret {A} (a : A) : appends (ret a).
Proof. intros w. reflexivity. Qed.

Lemma appends_throw {A} (e : JsError) : appends (@throw A e).
Proof. intros w. reflexivity. Qed.

Lemma appends_bind {A B} (m : Exec A) (k : A -> Exec B) :
  appends m -> (forall a, appends (k a)) -> appends (bind m k).
Proof.
  intros Hm Hk w. unfold bind. specialize (Hm w).
  destruct (m w) as [[a|e] w1]; simpl in *; [| assumption].
  etransitivity; [exact Hm | apply Hk].
Qed.

Lemma appends_settle {A} (o : Outcome A) : appends (settle o).
Proof. destruct o; [apply appends_ret | apply appends_throw]. Qed.

Lemma appends_modify (f : World -> World) : grows f -> appends (modify f).
Proof. intros Hf w. apply Hf. Qed.

Lemma appends_react (f : AppState -> AppState) :
  (forall a, messages a `prefix_of` messages (f a)) -> appends (react f).
Proof. intros Hf w. apply Hf. Qed.

Lemma appends_addMessage (who : Sender) (what : string) :
  appends (addMessage who what).
Proof. intros w. apply prefix_app_r. reflexivity. Qed.

Lemma appends_try_catch_finally (body : Exec Suspend)
    (handler : JsError -> Exec unit) (fin : Exec unit) :
  appends body -> (forall e, appends (handler e)) -> appends fin ->
  appends (try_catch_finally body handler fin).
Proof.
  intros Hb Hh Hf w. unfold try_catch_finally. specialize (Hb w).
  destruct (body w) as [[[|p k]|e] w1]; simpl in *.
  - specialize (Hf w1). destruct (fin w1) as [[[]|e2] w2]; simpl in *;
      etransitivity; eassumption.
  - assumption.
  - specialize (Hh e w1). destruct (handler e w1) as [[[]|e1] w2]; simpl in *;
      specialize (Hf w2); destruct (fin w2) as [[[]|e2] w3]; simpl in *;
      (etransitivity; [exact Hb | etransitivity; eassumption]).
Qed.

Lemma grows_spawn (piece : Exec Suspend) : appends piece -> grows (spawn piece).
Proof.
  intros Hp w. unfold spawn. specialize (Hp w).
  destruct (piece w) as [[[|p k]|e] w1]; exact Hp.
Qed.

Lemma grows_dispatch (handler : Exec unit) :
  appends handler -> grows (dispatch handler).
Proof.
  intros Hh w. unfold dispatch. specialize (Hh w).
  destruct (handler w) as [[[]|e] w1]; exact Hh.
Qed.

#[local] Hint Resolve appends_ret appends_throw appends_settle
  appends_addMessage : transcript.

(** Breaks a handler into its statements; what is left are the setters and
    the changes of the world, none of which touches the transcript. *)
Ltac transcript :=
  repeat match goal with
    | |- appends (addMessage _ _) => apply appends_addMessage
    | |- appends (ret _) => apply appends_ret
    | |- appends (throw _) => apply appends_throw
    | |- appends (settle _) => apply appends_settle
    | |- appends (bind _ _) => apply appends_bind
    | |- appends (try_catch_finally _ _ _) => apply appends_try_catch_finally
    | |- appends (react _) =>
        apply appends_react; let a := fresh "a" in intros a; cbn; reflexivity
    | |- appends (modify _) => apply appends_modify
    | |- appends (if ?c then _ else _) => destruct c
    | |- appends _ => solve [auto with transcript]
    | |- grows (spawn _) => apply grows_spawn
    | |- grows _ => let w := fresh "w" in intros w; crunch; reflexivity
    | |- forall _, _ => intro
    end.

Lemma appends_catch (e : JsError) : appends (processPrescription_catch e).
Proof. unfold processPrescription_catch, console_error, toast. transcript. Qed.

Lemma appends_finally : appends processPrescription_finally.
Proof. unfold processPrescription_finally. transcript. Qed.

Lemma appends_chat_catch (e : JsError) : appends (handleChatMessage_catch e).
Proof. unfold handleChatMessage_catch, console_error. transcript. Qed.

Lemma appends_chat_finally : appends handleChatMessage_finally.
Proof. unfold handleChatMessage_finally. transcript. Qed.

#[local] Hint Resolve appends_catch appends_finally appends_chat_catch
  appends_chat_finally : transcript.

Lemma appends_axios_post (req : Request) : appends (axios_post req).
Proof. intros w. reflexivity. Qed.

#[local] Hint Resolve appends_axios_post : transcript.

Lemma appends_resume (k : Cont) (s : Settlement) (piece : Exec Suspend) :
  resume k s = Some piece -> appends piece.
Proof.
  intros Hr.
  destruct k, s as [o|o|o|o]; try discriminate; injection Hr as <-.
  - unfold processPrescription_ocr. transcript.
  - unfold processPrescription_meds. transcript.
  - unfold processPrescription_info, toast. transcript.
  - unfold handleChatMessage_chat. transcript.
Qed.

Lemma appends_processPrescription (file : File.t) :
  appends (processPrescription file).
Proof. unfold processPrescription, processPrescription_try. transcript. Qed.

#[local] Hint Resolve appends_processPrescription : transcript.

Lemma appends_handleFileUpload (file : File.t) :
  appends (handleFileUpload file).
Proof. unfold handleFileUpload. transcript. Qed.

Lemma appends_onDrop (acceptedFiles : list File.t) :
  appends (onDrop handleFileUpload acceptedFiles).
Proof.
  unfold onDrop. destruct (acceptedFiles !! 0); [| apply appends_ret].
  unfold readAsDataURL. transcript. apply appends_handleFileUpload.
Qed.

Lemma appends_handleAnalyze : appends handleAnalyze.
Proof.
  intros w. unfold handleAnalyze.
  destruct (currentFile (appContent w));
    [apply appends_processPrescription | reflexivity].
Qed.

Lemma appends_handleChatMessage (message : string) :
  appends (handleChatMessage message).
Proof.
  intros w. unfold handleChatMessage.
  assert (H : appends
    (react (setIsChatProcessing true);;;
     react (setIsTyping true);;;
     modify (spawn (try_catch_finally
                      (handleChatMessage_try (medicines (appContent w)) message)
                      handleChatMessage_catch handleChatMessage_finally)))).
  { unfold handleChatMessage_try. transcript. }
  apply H.
Qed.

Lemma grows_step (ev : Event) (w w1 : World) :
  step ev w = Some w1 ->
  ev <> EvClearResults ->
  messages (appContent w) `prefix_of` messages (appContent w1).
Proof.
  intros Hstep Hev. destruct ev; simpl in Hstep.
  - injection Hstep as <-. apply grows_dispatch, appends_onDrop.
  - destruct (readers w !! i) as [file|]; [| discriminate].
    simpl in Hstep. injection Hstep as <-. reflexivity.
  - destruct (truthy (preview (uploadCard w))); [| discriminate].
    injection Hstep as <-. reflexivity.
  - destruct (isProcessing (appContent w) || negb (hasFile (appContent w)));
      [discriminate |].
    injection Hstep as <-. apply grows_dispatch. unfold analysis_onClick.
    destruct (hasFile (appContent w)); [apply appends_handleAnalyze |].
    intros w0. reflexivity.
  - contradiction.
  - destruct (showResultsModal (appContent w) &&
              bool_decide (is_Some (modalResults (appContent w))));
      [| discriminate].
    injection Hstep as <-. reflexivity.
  - injection Hstep as <-. reflexivity.
  - destruct (isChatProcessing (appContent w)); [discriminate |].
    injection Hstep as <-. apply grows_dispatch, appends_handleChatMessage.
  - destruct (inflight w !! id) as [k|]; [| discriminate]. simpl in Hstep.
    destruct (resume k s) as [piece|] eqn:Hr; [| discriminate].
    simpl in Hstep. injection Hstep as <-.
    exact (grows_spawn piece (appends_resume k s piece Hr)
             (withInflight (delete id) w)).
  - injection Hstep as <-. reflexivity.
Qed.

Lemma grows_exec (evs : list Event) (w w1 : World) :
  exec evs w = Some w1 ->
  EvClearResults ∉ evs ->
  messages (appContent w) `prefix_of` messages (appContent w1).
Proof.
  revert w. induction evs as [|ev evs IH]; intros w Hexec Hnot; simpl in Hexec.
  - injection Hexec as <-. reflexivity.
  - destruct (step ev w) as [w0|] eqn:Hstep; [| discriminate].
    simpl in Hexec. etransitivity.
    + apply (grows_step ev w w0 Hstep). intros ->. apply Hnot. left.
    + apply (IH w0 Hexec). intros Hin. apply Hnot. now right.
Qed.

(** C9, as stated, fails: after an upload and its OCR response the
    transcript holds two messages; Clear Results is offered and removes
    them. *)
Lemma clear_results_empties_transcript :
  exists w w1,
    exec [EvDrop [rx1];
          EvSettle 0 (SOcr (Resolved (ocr_ok paracetamol_text)))]
      initialWorld = Some w
    /\ length (messages (appContent w)) = 2
    /\ step EvClearResults w = Some w1
    /\ messages (appContent w1) = []
    /\ ~ messages (appContent w) `prefix_of` messages (appContent w1).
Proof.
  eexists. eexists. split; [vm_compute; reflexivity |].
  split; [reflexivity | split; [vm_compute; reflexivity |]].
  split; [reflexivity |].
  intros [rest Hrest]. discriminate Hrest.
Qed.

(** C9, amended: the transcript is append-only up to Clear Results.  Every
    event other than Clear Results - a selection, a response or failure of
    a run, the start of a new run, a chat question or its answer, and the
    events that do not concern the transcript - leaves the earlier messages
    in place as a prefix of the new list, and so does every sequence of such
    events.  Clear Results empties the transcript. *)
Theorem transcript_grows_until_cleared :
  (forall ev w w1,
     step ev w = Some w1 ->
     ev <> EvClearResults ->
     messages (appContent w) `prefix_of` messages (appContent w1))
  /\ (forall evs w w1,
        exec evs w = Some w1 ->
        EvClearResults ∉ evs ->
        messages (appContent w) `prefix_of` messages (appContent w1))
  /\ (forall w w1,
        step EvClearResults w = Some w1 -> messages (appContent w1) = []).
Proof.
  split; [exact grows_step | split; [exact grows_exec |]].
  intros w w1 Hstep. unfold step in Hstep.
  destruct (bool_decide (0 < length (medicines (appContent w)))
            || truthy (Some (extractedText (appContent w)))); [| discriminate].
  injection Hstep as <-. reflexivity.
Qed.

Lemma transcript_grows_until_cleared_witness :
  exists w1,
    step (EvSettle 0 (SOcr (Rejected network_error))) uploaded_world = Some w1
    /\ EvSettle 0 (SOcr (Rejected network_error)) <> EvClearResults
    /\ messages (appContent uploaded_world)
         `prefix_of` messages (appContent w1).
Proof.
  eexists. split; [vm_compute; reflexivity |].
  split; [discriminate |].
  apply (proj1 transcript_grows_until_cleared
           (EvSettle 0 (SOcr (Rejected network_error))) uploaded_world).
  - vm_compute; reflexivity.
  - discriminate.
Defined.

(** ** The end-to-end scenarios *)

(** Scenario 1: one medicine, read, identified and described. *)
Example scenario_one_medicine :
  let w := run_pipeline paracetamol_backend rx1 initialWorld in
  medicines (appContent w) = [info "Paracetamol"]
  /\ showResultsModal (appContent w) = true
  /\ isProcessing (appContent w) = false
  /\ content <$> messages (appContent w) =
       ["Uploaded prescription: rx1.jpg";
        "I've extracted the text from your prescription. Found 4 words.";
        "I found 1 medicine(s) in your prescription: Paracetamol";
        completion_notice]
  /\ inflight w = ∅.
Proof. vm_compute. repeat split; reflexivity. Qed.

(** Scenario 2: the OCR request is rejected. *)
Example scenario_ocr_rejected :
  let w := run_pipeline offline_backend rx1 initialWorld in
  requests w = [PostOcr rx1]
  /\ messages (appContent w) =
       [{| sender := user; content := "Uploaded prescription: rx1.jpg";
           timestamp := 0 |};
        {| sender := ai; content := failure_text network_error;
           timestamp := 0 |}]
  /\ isProcessing (appContent w) = false
  /\ unhandled w = [].
Proof. vm_compute. repeat split; reflexivity. Qed.

(** * Further properties of the orchestrator *)

(** ** The shape of every pipeline step *)

(** Whatever the response, a pending step of the pipeline appends exactly
    one message and catches every error; it either ends the run (nothing
    posted, both flags reset) or posts the one request of the next step. *)
Lemma pipeline_step_shape (w : World) (id : nat) (k : Cont) (s : Settlement) :
  inflight w !! id = Some k ->
  pipeline_cont k = true ->
  awaits k s = true ->
  exists w1,
    step (EvSettle id s) w = Some w1
    /\ length (messages (appContent w1)) = S (length (messages (appContent w)))
    /\ unhandled w1 = unhandled w
    /\ currentFile (appContent w1) = currentFile (appContent w)
    /\ ((requests w1 = requests w
         /\ inflight w1 = delete id (inflight w)
         /\ isProcessing (appContent w1) = false
         /\ isTyping (appContent w1) = false)
        \/ (exists req k1,
              requests w1 = requests w ++ [req]
              /\ inflight w1 = <[length (requests w) := k1]> (delete id (inflight w))
              /\ expects k1 req = true
              /\ S (rank k1) = rank k
              /\ isProcessing (appContent w1) = isProcessing (appContent w)
              /\ isTyping (appContent w1) = isTyping (appContent w))).
Proof.
  intros Hk Hp Ha.
  destruct k, s as [o|o|o|o]; try discriminate;
    destruct o as [d|err]; try (destruct d as [succ]; destruct succ).
  all: eexists; split; [ eapply step_settle; [eassumption | reflexivity] | ].
  all: crunch.
  all: split; [rewrite length_app, Nat.add_1_r; reflexivity |].
  all: split; [reflexivity | split; [reflexivity |]].
  all: first [ left; repeat split; reflexivity
             | right; eexists; eexists; repeat split; reflexivity ].
Qed.



(** ** What a failure, a new run and Clear Results leave on display *)

(** X2: a step that fails discards nothing: the extracted text, the
    corrections, the medicine cards, the modal and the current file are what
    they were before the failure, in every state. *)
Theorem failure_keeps_display (w : World) (id : nat) (k : Cont)
    (s : Settlement) (e : JsError) :
  inflight w !! id = Some k ->
  pipeline_cont k = true ->
  awaits k s = true ->
  failure s = Some e ->
  exists w1,
    step (EvSettle id s) w = Some w1
    /\ displayed (appContent w1) = displayed (appContent w)
    /\ uploadCard w1 = uploadCard w.
Proof.
  intros Hk Hp Ha Hf.
  destruct k, s as [o|o|o|o]; try discriminate;
    destruct o as [d|err]; simpl in Hf.
  all: try (destruct d as [succ]; simpl in Hf; destruct succ; try discriminate).
  all: eexists; split; [ eapply step_settle; [eassumption | reflexivity] | ].
  all: unfold displayed; crunch; split; reflexivity.
Qed.

Lemma failure_keeps_display_witness :
  inflight meds_done_world !! 2
    = Some (AwaitInfo rx1 paracetamol_text
              [correction "Paracetamol" "Paracetamol"])
  /\ exists w1,
       step (EvSettle 2 (SInfo (Rejected network_error))) meds_done_world
         = Some w1
       /\ displayed (appContent w1) = displayed (appContent meds_done_world)
       /\ uploadCard w1 = uploadCard meds_done_world.
Proof.
  assert (H : inflight meds_done_world !! 2
              = Some (AwaitInfo rx1 paracetamol_text
                        [correction "Paracetamol" "Paracetamol"]))
    by (vm_compute; reflexivity).
  split; [exact H |].
  exact (failure_keeps_display meds_done_world 2 _
           (SInfo (Rejected network_error)) network_error
           H eq_refl eq_refl eq_refl).
Defined.

(** X3: a new run does not clear what the previous one displayed.  The
    selection changes only the current file; the text is replaced when the
    OCR response arrives, the corrections when the extraction response
    arrives, and the medicine cards and the modal stay those of the previous
    run until the information step of the new one succeeds. *)
Theorem new_run_keeps_old_results :
  (forall (file : File.t) (w : World),
     let w1 := dispatch (handleFileUpload file) w in
     extractedText (appContent w1) = extractedText (appContent w)
     /\ medicineCorrections (appContent w1) = medicineCorrections (appContent w)
     /\ medicines (appContent w1) = medicines (appContent w)
     /\ modalResults (appContent w1) = modalResults (appContent w)
     /\ showResultsModal (appContent w1) = showResultsModal (appContent w))
  /\ (forall (w : World) (id : nat) (file : File.t) (d : OcrData.t),
        inflight w !! id = Some (AwaitOcr file) ->
        exists w1,
          step (EvSettle id (SOcr (Resolved d))) w = Some w1
          /\ medicineCorrections (appContent w1)
               = medicineCorrections (appContent w)
          /\ medicines (appContent w1) = medicines (appContent w)
          /\ modalResults (appContent w1) = modalResults (appContent w)
          /\ showResultsModal (appContent w1) = showResultsModal (appContent w))
  /\ (forall (w : World) (id : nat) (file : File.t) (text : string)
             (d : MedsData.t),
        inflight w !! id = Some (AwaitMeds file text) ->
        exists w1,
          step (EvSettle id (SMeds (Resolved d))) w = Some w1
          /\ extractedText (appContent w1) = extractedText (appContent w)
          /\ medicines (appContent w1) = medicines (appContent w)
          /\ modalResults (appContent w1) = modalResults (appContent w)
          /\ showResultsModal (appContent w1) = showResultsModal (appContent w)).
Proof.
  split; [| split].
  - intros file w. facts.
  - intros w id file [succ text msg] Hk.
    eexists; split; [ eapply step_settle; [eassumption | reflexivity] | ].
    destruct succ; facts.
  - intros w id file text [succ data summary] Hk.
    eexists; split; [ eapply step_settle; [eassumption | reflexivity] | ].
    destruct succ; facts.
Qed.

Lemma new_run_keeps_old_results_witness :
  inflight uploaded_world !! 0 = Some (AwaitOcr rx1)
  /\ exists w1,
       step (EvSettle 0 (SOcr (Resolved (ocr_ok paracetamol_text))))
         uploaded_world = Some w1
       /\ medicines (appContent w1) = medicines (appContent uploaded_world).
Proof.
  assert (H : inflight uploaded_world !! 0 = Some (AwaitOcr rx1))
    by (vm_compute; reflexivity).
  split; [exact H |].
  destruct (proj1 (proj2 new_run_keeps_old_results) uploaded_world 0 rx1
              (ocr_ok paracetamol_text) H)
    as (w1 & Hs & _ & Hm & _).
  exists w1. split; [exact Hs | exact Hm].
Defined.

(** X4: Clear Results puts the results, the transcript, the current file
    and the modal back to their initial values and touches nothing else: not
    the flags, not the collector's preview, not the requests that are
    pending.  Afterwards neither the Analysis button nor Clear Results nor
    the modal's close button is offered. *)
Theorem clearResults_resets_display (w : World) :
  let w1 := dispatch clearResults w in
  appContent w1 =
    {| isDarkMode := isDarkMode (appContent w); messages := [];
       isTyping := isTyping (appContent w);
       isProcessing := isProcessing (appContent w);
       medicines := []; medicineCorrections := []; extractedText := "";
       isChatProcessing := isChatProcessing (appContent w);
       currentFile := None; showResultsModal := false; modalResults := None |}
  /\ uploadCard w1 = uploadCard w
  /\ requests w1 = requests w
  /\ inflight w1 = inflight w
  /\ step EvAnalysisClick w1 = None
  /\ step EvClearResults w1 = None
  /\ step EvCloseModal w1 = None.
Proof.
  split; [facts | split; [facts | split; [facts | split; [facts |]]]].
  split; [| split; reflexivity].
  unfold step. crunch. rewrite orb_true_r. reflexivity.
Qed.

(** X5: Clear Results cancels nothing.  When the OCR request of a run is
    pending and the results are cleared, the response still arrives and is
    applied: the extracted text is displayed again, the transcript holds the
    one message of that step, the extraction request is posted - and the
    current file stays cleared, so the Analysis button stays disabled. *)
Theorem clearResults_does_not_cancel (w : World) (id : nat) (file : File.t)
    (d : OcrData.t) :
  inflight w !! id = Some (AwaitOcr file) ->
  OcrData.success d = true ->
  exists w2,
    step (EvSettle id (SOcr (Resolved d))) (dispatch clearResults w) = Some w2
    /\ extractedText (appContent w2) = OcrData.text d
    /\ length (messages (appContent w2)) = 1
    /\ requests w2 = requests w ++ [PostExtractMeds (OcrData.text d)]
    /\ currentFile (appContent w2) = None
    /\ step EvAnalysisClick w2 = None.
Proof.
  intros Hk Hs.
  assert (Hk1 : inflight (dispatch clearResults w) !! id = Some (AwaitOcr file))
    by exact Hk.
  destruct (ocr_step (dispatch clearResults w) id file d Hk1 Hs)
    as (w2 & Hstep & Hreq & _ & Htext & Hmsg & _).
  assert (Hcf : currentFile (appContent w2) = None).
  { destruct (pipeline_step_shape (dispatch clearResults w) id _
                (SOcr (Resolved d)) Hk1 eq_refl eq_refl)
      as (w2' & Hstep' & _ & _ & Hcf & _).
    rewrite Hstep in Hstep'. injection Hstep' as <-. exact Hcf. }
  exists w2.
  split; [exact Hstep | split; [exact Htext | split; [| split; [exact Hreq |]]]].
  - rewrite Hmsg. reflexivity.
  - split; [exact Hcf |].
    unfold step, hasFile. rewrite Hcf. cbn [negb].
    rewrite orb_true_r. reflexivity.
Qed.

Lemma clearResults_does_not_cancel_witness :
  inflight uploaded_world !! 0 = Some (AwaitOcr rx1)
  /\ OcrData.success (ocr_ok paracetamol_text) = true
  /\ exists w2,
       step (EvSettle 0 (SOcr (Resolved (ocr_ok paracetamol_text))))
         (dispatch clearResults uploaded_world) = Some w2
       /\ extractedText (appContent w2) = paracetamol_text
       /\ currentFile (appContent w2) = None.
Proof.
  assert (H : inflight uploaded_world !! 0 = Some (AwaitOcr rx1))
    by (vm_compute; reflexivity).
  split; [exact H | split; [reflexivity |]].
  destruct (clearResults_does_not_cancel uploaded_world 0 rx1
              (ocr_ok paracetamol_text) H eq_refl)
    as (w2 & Hs & Ht & _ & _ & Hc & _).
  exists w2. split; [exact Hs | split; [exact Ht | exact Hc]].
Defined.

(** ** The Analysis button *)

(** X6: the Analysis button is offered exactly when no run is marked as
    processing and a current file exists.  A click posts one OCR request for
    the current file, announces it in the transcript, leaves the current
    file in place and marks the page as processing, so that a second click
    is not offered before a run ends. *)
Theorem analysis_click_runs_current_file (w : World) :
  (is_Some (step EvAnalysisClick w)
   <-> isProcessing (appContent w) = false
       /\ is_Some (currentFile (appContent w)))
  /\ forall w1,
       step EvAnalysisClick w = Some w1 ->
       exists file,
         currentFile (appContent w) = Some file
         /\ requests w1 = requests w ++ [PostOcr file]
         /\ inflight w1 = <[length (requests w) := AwaitOcr file]> (inflight w)
         /\ messages (appContent w1) = messages (appContent w) ++
              [{| sender := user;
                  content := "Uploaded prescription: " +:+ File.name file;
                  timestamp := clock w |}]
         /\ currentFile (appContent w1) = Some file
         /\ isProcessing (appContent w1) = true
         /\ step EvAnalysisClick w1 = None.
Proof.
  destruct w as [[dm ms ty pr md mc et cp cf sm mr] uc rq inf rd ts co un ck].
  unfold step at 1 2, hasFile. cbn [appContent isProcessing currentFile].
  destruct pr, cf as [file|]; cbn [orb negb].
  - split; [| discriminate].
    split; [intros [? H]; discriminate H | intros [H _]; discriminate H].
  - split; [| discriminate].
    split; [intros [? H]; discriminate H | intros [H _]; discriminate H].
  - split; [split; [intros _; split; [reflexivity | eauto] | eauto] |].
    intros w1 Hw1. injection Hw1 as <-. exists file.
    split; [reflexivity |].
    split; [facts | split; [facts | split; [facts | split; [facts |]]]].
    split; [facts |]. unfold step. crunch. reflexivity.
  - split; [| discriminate].
    split; [intros [? H]; discriminate H | intros [_ [? H]]; discriminate H].
Qed.

Lemma analysis_click_runs_current_file_witness :
  is_Some (step EvAnalysisClick
             (world_after [EvDrop [rx1];
                           EvSettle 0 (SOcr (Rejected network_error))]))
  /\ exists w1,
       step EvAnalysisClick
         (world_after [EvDrop [rx1];
                       EvSettle 0 (SOcr (Rejected network_error))]) = Some w1
       /\ requests w1 = [PostOcr rx1; PostOcr rx1]
       /\ step EvAnalysisClick w1 = None.
Proof.
  assert (Hs : is_Some (step EvAnalysisClick
             (world_after [EvDrop [rx1];
                           EvSettle 0 (SOcr (Rejected network_error))]))).
  { apply (proj1 (analysis_click_runs_current_file _)).
    split; [vm_compute; reflexivity | eexists; vm_compute; reflexivity]. }
  split; [exact Hs |].
  destruct Hs as [w1 Hs].
  destruct (proj2 (analysis_click_runs_current_file _) w1 Hs)
    as (file & Hc & Hr & _ & _ & _ & _ & Hn).
  vm_compute in Hc. injection Hc as <-.
  exists w1. split; [exact Hs | split; [exact Hr | exact Hn]].
Defined.

(** ** The typing indicator is shared *)

(** X7: the chat and the pipeline share [isTyping].  A chat reply that
    arrives while a run is pending hides the typing indicator although the
    run is still processing and still pending; and a run that ends - by a
    failure or by its information response - hides it although a chat
    question is still unanswered. *)
Theorem typing_indicator_is_shared :
  (forall (w : World) (idc idp : nat) (k : Cont) (o : Outcome ChatData.t),
     idc <> idp ->
     inflight w !! idc = Some AwaitChat ->
     inflight w !! idp = Some k ->
     exists w1,
       step (EvSettle idc (SChat o)) w = Some w1
       /\ isTyping (appContent w1) = false
       /\ isProcessing (appContent w1) = isProcessing (appContent w)
       /\ inflight w1 !! idp = Some k)
  /\ (forall (w : World) (idc idp : nat) (k : Cont) (s : Settlement),
        idc <> idp ->
        inflight w !! idc = Some AwaitChat ->
        inflight w !! idp = Some k ->
        pipeline_cont k = true ->
        awaits k s = true ->
        is_Some (failure s) \/ (exists d, s = SInfo (Resolved d)) ->
        exists w1,
          step (EvSettle idp s) w = Some w1
          /\ isTyping (appContent w1) = false
          /\ isChatProcessing (appContent w1) = isChatProcessing (appContent w)
          /\ inflight w1 !! idc = Some AwaitChat).
Proof.
  split.
  - intros w idc idp k o Hne Hc Hp.
    eexists; split; [ eapply step_settle; [eassumption | reflexivity] | ].
    assert (Hkeep : delete idc (inflight w) !! idp = Some k)
      by (rewrite lookup_delete_ne by assumption; exact Hp).
    destruct o as [[succ response]|err]; [destruct succ|]; crunch;
      (split; [reflexivity | split; [reflexivity | exact Hkeep]]).
  - intros w idc idp k s Hne Hc Hp Hpipe Ha Hend.
    assert (Hkeep : delete idp (inflight w) !! idc = Some AwaitChat)
      by (rewrite lookup_delete_ne by auto; exact Hc).
    destruct k, s as [o|o|o|o]; try discriminate;
      destruct o as [d|err]; try (destruct d as [succ]; destruct succ).
    all: try (destruct Hend as [[e He] | [d' Hd']]; discriminate).
    all: eexists; split; [ eapply step_settle; [eassumption | reflexivity] | ].
    all: crunch; (split; [reflexivity | split; [reflexivity | exact Hkeep]]).
Qed.

Lemma typing_indicator_is_shared_witness :
  inflight (world_after [EvDrop [rx1]; EvSendChat "Can I take this with food?"])
    !! 1 = Some AwaitChat
  /\ inflight (world_after [EvDrop [rx1];
                            EvSendChat "Can I take this with food?"])
      !! 0 = Some (AwaitOcr rx1)
  /\ exists w1,
       step (EvSettle 1 (SChat (Resolved (chat_ok "Take it after food."))))
         (world_after [EvDrop [rx1]; EvSendChat "Can I take this with food?"])
         = Some w1
       /\ isTyping (appContent w1) = false
       /\ isProcessing (appContent w1) = true
       /\ inflight w1 !! 0 = Some (AwaitOcr rx1).
Proof.
  assert (Hc : inflight (world_after [EvDrop [rx1];
                 EvSendChat "Can I take this with food?"]) !! 1
               = Some AwaitChat) by (vm_compute; reflexivity).
  assert (Hp : inflight (world_after [EvDrop [rx1];
                 EvSendChat "Can I take this with food?"]) !! 0
               = Some (AwaitOcr rx1)) by (vm_compute; reflexivity).
  split; [exact Hc | split; [exact Hp |]].
  destruct (proj1 typing_indicator_is_shared _ 1 0 (AwaitOcr rx1)
              (Resolved (chat_ok "Take it after food."))
              ltac:(discriminate) Hc Hp)
    as (w1 & Hs & Ht & Hpr & Hk).
  exists w1.
  split; [exact Hs | split; [exact Ht | split; [| exact Hk]]].
  rewrite Hpr. vm_compute. reflexivity.
Defined.

(** ** The results modal opens on completion only *)

(** X8: the results modal is opened by nothing but a successful information
    response, which also gives it results to show; every other event leaves a
    closed modal closed.  Closing it keeps the results and changes nothing
    else, so a closed modal is shown again only when another run completes. *)
Theorem modal_opens_on_completion_only :
  (forall ev w w1,
     step ev w = Some w1 ->
     showResultsModal (appContent w) = false ->
     showResultsModal (appContent w1) = true ->
     exists id d,
       ev = EvSettle id (SInfo (Resolved d))
       /\ InfoData.success d = true
       /\ ResultsModal.rendered (appContent w1) = true)
  /\ (forall w w1,
        step EvCloseModal w = Some w1 ->
        ResultsModal.rendered (appContent w) = true
        /\ ResultsModal.rendered (appContent w1) = false
        /\ w1 = withApp (setShowResultsModal false) w
        /\ modalResults (appContent w1) = modalResults (appContent w)).
Proof.
  split.
  - intros ev w w1 Hstep Hclosed Hopen.
    destruct w as [[dm ms ty pr md mc et cp cf sm mr] uc rq inf rd ts co un ck].
    cbn [appContent showResultsModal] in Hclosed. subst sm.
    destruct ev; unfold step in Hstep.
    + injection Hstep as <-. exfalso. revert Hopen.
      destruct acceptedFiles as [|file others]; crunch; discriminate.
    + cbn [readers] in Hstep. destruct (rd !! i) as [file|]; [| discriminate].
      cbn [mbind option_bind] in Hstep. injection Hstep as <-.
      exfalso. revert Hopen. crunch. discriminate.
    + destruct (truthy _); [| discriminate]. injection Hstep as <-.
      exfalso. revert Hopen. crunch. discriminate.
    + destruct (_ || _); [discriminate |]. injection Hstep as <-.
      exfalso. revert Hopen. unfold hasFile.
      destruct cf as [file|]; crunch; discriminate.
    + destruct (_ || _); [| discriminate]. injection Hstep as <-.
      exfalso. revert Hopen. crunch. discriminate.
    + destruct (_ && _); [| discriminate]. injection Hstep as <-.
      exfalso. revert Hopen. crunch. discriminate.
    + injection Hstep as <-. exfalso. revert Hopen. crunch. discriminate.
    + destruct (isChatProcessing _); [discriminate |]. injection Hstep as <-.
      exfalso. revert Hopen. crunch. discriminate.
    + cbn [inflight] in Hstep. destruct (inf !! id) as [k|]; [| discriminate].
      cbn [mbind option_bind] in Hstep.
      destruct (resume k s) as [piece|] eqn:Hr; [| discriminate].
      cbn [mbind option_bind] in Hstep. injection Hstep as <-.
      destruct k, s as [o|o|o|o]; try discriminate; injection Hr as <-;
        destruct o as [d|err]; try (destruct d as [succ]; destruct succ);
        try (exfalso; revert Hopen; crunch; discriminate).
      eexists. eexists. split; [reflexivity | split; reflexivity].
    + injection Hstep as <-. exfalso. revert Hopen. crunch. discriminate.
  - intros w w1 Hstep. unfold step in Hstep. unfold ResultsModal.rendered.
    destruct (showResultsModal (appContent w) &&
              bool_decide (is_Some (modalResults (appContent w))));
      [| discriminate].
    injection Hstep as <-.
    split; [reflexivity | split; [reflexivity | split; reflexivity]].
Qed.

Lemma modal_opens_on_completion_only_witness :
  exists w1,
    step (EvSettle 2 (SInfo (Resolved (info_ok [info "Paracetamol"]))))
      meds_done_world = Some w1
    /\ showResultsModal (appContent meds_done_world) = false
    /\ showResultsModal (appContent w1) = true
    /\ ResultsModal.rendered (appContent w1) = true.
Proof.
  eexists.
  split; [vm_compute; reflexivity |].
  split; [reflexivity | split; [reflexivity |]].
  destruct (proj1 modal_opens_on_completion_only
              (EvSettle 2 (SInfo (Resolved (info_ok [info "Paracetamol"]))))
              meds_done_world _ ltac:(vm_compute; reflexivity)
              eq_refl eq_refl)
    as (id & d & _ & _ & Hr).
  exact Hr.
Defined.

(** ** The word count *)

Lemma split_length (sep : Ascii.ascii) (s : string) :
  length (split sep s) = S (occurrences sep s).
Proof.
  induction s as [|c s IH]; [reflexivity |].
  cbn [split occurrences]. destruct (Ascii.eqb c sep).
  - cbn [length]. rewrite IH. reflexivity.
  - destruct (split sep s) as [|part parts]; [discriminate IH |].
    cbn [length] in *. rewrite IH. reflexivity.
Qed.

(** X9: the number of words announced after the OCR step is the number of
    spaces in the text plus one: never zero, and every further space of a
    run of spaces counts as a word.  The modal's "Words Extracted" is the
    same number for every non-empty text and 0 for the empty text, for which
    the transcript says 1. *)
Theorem word_count_is_spaces_plus_one :
  (forall (w : World) (id : nat) (file : File.t) (d : OcrData.t),
     inflight w !! id = Some (AwaitOcr file) ->
     OcrData.success d = true ->
     exists w1,
       step (EvSettle id (SOcr (Resolved d))) w = Some w1
       /\ content <$> last (messages (appContent w1)) =
            Some ("I've extracted the text from your prescription. Found "
                  +:+ pretty (S (occurrences SPACE (OcrData.text d)))
                  +:+ " words."))
  /\ (forall results : ModalResults.t,
        ResultsModal.wordsExtracted results =
          if bool_decide (ModalResults.extractedText results = "") then 0
          else S (occurrences SPACE (ModalResults.extractedText results))).
Proof.
  split.
  - intros w id file d Hk Hs.
    destruct (ocr_step w id file d Hk Hs) as (w1 & Hstep & _ & _ & _ & Hm & _).
    exists w1. split; [exact Hstep |].
    rewrite Hm, last_snoc, split_length. reflexivity.
  - intros results. unfold ResultsModal.wordsExtracted, truthy.
    destruct (ModalResults.extractedText results) as [|c s] eqn:Ht.
    + reflexivity.
    + cbn [String.eqb negb]. rewrite bool_decide_eq_false_2 by discriminate.
      apply split_length.
Qed.

Lemma word_count_is_spaces_plus_one_witness :
  inflight uploaded_world !! 0 = Some (AwaitOcr rx1)
  /\ exists w1,
       step (EvSettle 0 (SOcr (Resolved (ocr_ok "twice  daily"))))
         uploaded_world = Some w1
       /\ content <$> last (messages (appContent w1)) =
            Some "I've extracted the text from your prescription. Found 3 words.".
Proof.
  assert (H : inflight uploaded_world !! 0 = Some (AwaitOcr rx1))
    by (vm_compute; reflexivity).
  split; [exact H |].
  exact (proj1 word_count_is_spaces_plus_one uploaded_world 0 rx1
           (ocr_ok "twice  daily") H eq_refl).
Defined.

(** * Further properties of the upload collector *)

(** X10: the preview and the file name of the collector are not tied to
    each other.  The name is that of the last selection, the preview the
    data URL of whichever reader fired last: after two selections the
    preview is the second file's when the readers fire in order and the
    first file's when they fire in the other order, and between the second
    selection and its reader the first file's preview stands under the
    second file's name. *)
Theorem preview_follows_last_reader (f1 f2 : File.t) (w : World) :
  readers w = [] ->
  (exists w1,
     exec [EvDrop [f1]; EvDrop [f2]; EvReaderLoad 0; EvReaderLoad 0] w
       = Some w1
     /\ fileName (uploadCard w1) = File.name f2
     /\ preview (uploadCard w1) = Some (dataURL f2)
     /\ readers w1 = [])
  /\ (exists w1,
        exec [EvDrop [f1]; EvDrop [f2]; EvReaderLoad 1; EvReaderLoad 0] w
          = Some w1
        /\ fileName (uploadCard w1) = File.name f2
        /\ preview (uploadCard w1) = Some (dataURL f1)
        /\ readers w1 = [])
  /\ (exists w1,
        exec [EvDrop [f1]; EvReaderLoad 0; EvDrop [f2]] w = Some w1
        /\ fileName (uploadCard w1) = File.name f2
        /\ preview (uploadCard w1) = Some (dataURL f1)
        /\ readers w1 = [f2]).
Proof.
  intros Hr.
  destruct w as [a uc rq inf rd ts co un ck]. cbn [readers] in Hr. subst rd.
  split; [| split]; eexists;
    (split; [vm_compute; reflexivity |]);
    (split; [reflexivity | split; [reflexivity | reflexivity]]).
Qed.

Lemma preview_follows_last_reader_witness :
  readers initialWorld = []
  /\ exists w1,
       exec [EvDrop [rx1]; EvDrop [rx2]; EvReaderLoad 1; EvReaderLoad 0]
         initialWorld = Some w1
       /\ fileName (uploadCard w1) = "rx2.PDF"
       /\ preview (uploadCard w1) = Some "data:image/jpeg;base64,/9j/4AAQ".
Proof.
  split; [reflexivity |].
  destruct (proj1 (proj2 (preview_follows_last_reader rx1 rx2 initialWorld
                            eq_refl)))
    as (w1 & He & Hn & Hp & _).
  exists w1. split; [exact He | split; [exact Hn | exact Hp]].
Defined.

(** * Properties of the chat input *)

(** X13: submitting the chat input, whatever [trim] computes.  While the
    chat is processing, or when trimming leaves nothing of the input,
    nothing is sent and the input is left as it is.  Otherwise what
    trimming leaves - not the input as typed - enters the transcript and the
    chat request, the chat is marked as processing and the input is
    emptied. *)
Theorem handleSubmit_sends_trimmed (trim : string -> string)
    (message : string) (w : World) :
  let isProcessing := isChatProcessing (appContent w) in
  let result :=
    ChatInput.handleSubmit trim handleChatMessage isProcessing message w in
  (trim message = "" \/ isProcessing = true ->
   result = (Normal message, w))
  /\ (trim message <> "" -> isProcessing = false ->
      result.1 = Normal ""
      /\ messages (appContent result.2) = messages (appContent w) ++
           [{| sender := user; content := trim message; timestamp := clock w |}]
      /\ requests result.2 = requests w ++
           [PostChat (trim message) (chat_context (medicines (appContent w)))]
      /\ inflight result.2 = <[length (requests w) := AwaitChat]> (inflight w)
      /\ isChatProcessing (appContent result.2) = true).
Proof.
  intros isProc result. subst result. unfold ChatInput.handleSubmit.
  split.
  - intros [Ht | Hp].
    + rewrite Ht. reflexivity.
    + rewrite Hp, andb_false_r. reflexivity.
  - intros Ht Hp. rewrite Hp.
    assert (Htr : truthy (Some (trim message)) = true) by now apply truthy_Some.
    rewrite Htr. cbn [andb negb]. facts.
Qed.

Lemma handleSubmit_sends_trimmed_witness :
  (fun _ : string => "Can I take this with food?")
    "  Can I take this with food? " <> ""
  /\ isChatProcessing (appContent meds_done_world) = false
  /\ requests (ChatInput.handleSubmit
                 (fun _ : string => "Can I take this with food?")
                 handleChatMessage false
                 "  Can I take this with food? " meds_done_world).2
     = requests meds_done_world ++
         [PostChat "Can I take this with food?"
            (chat_context (medicines (appContent meds_done_world)))].
Proof.
  assert (Ht : (fun _ : string => "Can I take this with food?")
                 "  Can I take this with food? " <> "") by discriminate.
  split; [exact Ht | split; [reflexivity |]].
  destruct (proj2 (handleSubmit_sends_trimmed
                     (fun _ : string => "Can I take this with food?")
                     "  Can I take this with food? " meds_done_world)
              Ht eq_refl)
    as (_ & _ & Hr & _).
  exact Hr.
Defined.

(** * Properties of the results modal *)

Lemma lower_idempotent (c : Ascii.ascii) : lower (lower c) = lower c.
Proof. destruct c as [[] [] [] [] [] [] [] []]; reflexivity. Qed.

Lemma toLowerCase_idempotent (s : string) :
  toLowerCase (toLowerCase s) = toLowerCase s.
Proof.
  induction s as [|c s IH]; [reflexivity |].
  cbn [toLowerCase]. now rewrite lower_idempotent, IH.
Qed.

Lemma toLowerCase_empty (s : string) : toLowerCase s = "" <-> s = "".
Proof. destruct s; cbn [toLowerCase]; split; intros H; congruence. Qed.

Lemma startsWith_append (s t prefix : string) :
  startsWith s prefix = true -> startsWith (s +:+ t) prefix = true.
Proof.
  revert s. induction prefix as [|p ps IH]; intros s H;
    [destruct s; [destruct t |]; reflexivity |].
  destruct s as [|c cs]; [discriminate H |].
  simpl in H |- *. apply andb_true_iff in H as [Hc Hs].
  apply andb_true_iff. split; [exact Hc | now apply IH].
Qed.

Lemma includes_append_r (s t sub : string) :
  includes s sub = true -> includes (s +:+ t) sub = true.
Proof.
  induction s as [|c s IH]; intros H.
  - assert (Hs : startsWith "" sub = true).
    { cbn [includes] in H. now rewrite orb_false_r in H. }
    destruct sub; [| discriminate Hs]. destruct t; reflexivity.
  - change (startsWith (String c s) sub || includes s sub = true) in H.
    change (startsWith (String c s +:+ t) sub || includes (s +:+ t) sub = true).
    apply orb_true_iff in H as [H | H]; apply orb_true_iff.
    + left. exact (startsWith_append (String c s) t sub H).
    + right. now apply IH.
Qed.

Lemma includes_append_l (s t sub : string) :
  includes s sub = true -> includes (t +:+ s) sub = true.
Proof.
  intros H. induction t as [|c t IH]; [exact H |].
  change (startsWith (String c (t +:+ s)) sub || includes (t +:+ s) sub = true).
  rewrite IH. apply orb_true_r.
Qed.

(** The names are lowered one by one, unless one of them is empty. *)
Lemma lowerNames_spec (ms : list MedicineInfo.t) :
  (Forall (fun m => MedicineInfo.name m <> "") ms
   /\ ResultsModal.lowerNames ms
      = Normal ((fun m => toLowerCase (MedicineInfo.name m)) <$> ms))
  \/ (Exists (fun m => MedicineInfo.name m = "") ms
      /\ ResultsModal.lowerNames ms = Thrown ResultsModal.notAFunction).
Proof.
  induction ms as [|m ms IH]; [left; split; [constructor | reflexivity] |].
  cbn [ResultsModal.lowerNames]. unfold ResultsModal.lowerName.
  destruct (truthy (Some (MedicineInfo.name m))) eqn:Ht.
  - apply truthy_Some in Ht.
    destruct IH as [[Hall ->] | [Hex ->]].
    + left. split; [constructor; assumption | reflexivity].
    + right. split; [now apply Exists_cons_tl | reflexivity].
  - right. split; [| reflexivity]. apply Exists_cons_hd.
    destruct (MedicineInfo.name m); [reflexivity | discriminate Ht].
Qed.

(** X14: the computation of the detected condition fails with an error -
    and with it the rendering of the modal - exactly when some medicine of
    the results has an empty name; otherwise it returns a result. *)
Theorem detectDisease_throws_iff_empty_name (results : ModalResults.t) :
  ((exists e, ResultsModal.detectDisease results = Thrown e)
   <-> Exists (fun m => MedicineInfo.name m = "")
         (ModalResults.medicines results))
  /\ ((exists d, ResultsModal.detectDisease results = Normal d)
      <-> Forall (fun m => MedicineInfo.name m <> "")
            (ModalResults.medicines results)).
Proof.
  unfold ResultsModal.detectDisease.
  destruct (lowerNames_spec (ModalResults.medicines results))
    as [[Hall ->] | [Hex ->]].
  - split; split.
    + intros [e H]. discriminate H.
    + intros Hex. exfalso. apply Exists_exists in Hex as (m & Hin & Hm).
      rewrite Forall_forall in Hall. exact (Hall m Hin Hm).
    + intros _. exact Hall.
    + intros _. eexists. reflexivity.
  - split; split.
    + intros _. exact Hex.
    + intros _. eexists. reflexivity.
    + intros [d H]. discriminate H.
    + intros Hall. exfalso. apply Exists_exists in Hex as (m & Hin & Hm).
      rewrite Forall_forall in Hall. exact (Hall m Hin Hm).
Qed.




(** X15: upper and lower case never matter to the detection: two results
    whose extracted texts and whose medicine names agree once lowered are
    given the same condition, or fail alike. *)
Theorem detectDisease_ignores_case (r1 r2 : ModalResults.t) :
  toLowerCase (ModalResults.extractedText r1)
    = toLowerCase (ModalResults.extractedText r2) ->
  (fun m => toLowerCase (MedicineInfo.name m)) <$> ModalResults.medicines r1
    = (fun m => toLowerCase (MedicineInfo.name m)) <$> ModalResults.medicines r2 ->
  ResultsModal.detectDisease r1 = ResultsModal.detectDisease r2.
Proof.
  intros Ht Hn. unfold ResultsModal.detectDisease. rewrite Ht.
  assert (Hnames : ResultsModal.lowerNames (ModalResults.medicines r1)
                   = ResultsModal.lowerNames (ModalResults.medicines r2)).
  { revert Hn. generalize (ModalResults.medicines r2).
    induction (ModalResults.medicines r1) as [|m ms IH];
      intros [|m' ms'] Hn; try discriminate Hn; [reflexivity |].
    injection Hn as Hm Hms.
    cbn [ResultsModal.lowerNames]. unfold ResultsModal.lowerName.
    rewrite (IH ms' Hms), Hm.
    assert (Htr : truthy (Some (MedicineInfo.name m))
                  = truthy (Some (MedicineInfo.name m'))).
    { destruct (MedicineInfo.name m), (MedicineInfo.name m');
        try reflexivity; discriminate Hm. }
    rewrite Htr. reflexivity. }
  rewrite Hnames. reflexivity.
Qed.

Lemma detectDisease_ignores_case_witness :
  ResultsModal.detectDisease
    {| ModalResults.extractedText := "METFORMIN 500mg";
       ModalResults.medicines := [info "Metformin"];
       ModalResults.medicineCorrections := [];
       ModalResults.fileName := "rx1.jpg" |}
  = ResultsModal.detectDisease
      {| ModalResults.extractedText := "metformin 500MG";
         ModalResults.medicines := [info "METFORMIN"];
         ModalResults.medicineCorrections := [];
         ModalResults.fileName := "rx2.PDF" |}.
Proof.
  apply detectDisease_ignores_case; reflexivity.
Defined.

(** The [if]s of [classify] as searches through five lists of key words. *)
Lemma classify_by_lists (t : string) :
  ResultsModal.classify t =
    if existsb (includes t)
         ["metformin"; "insulin"; "diabetes"; "glucose"; "glipizide"; "glyburide"]
    then Some "Diabetes"
    else if existsb (includes t)
         ["amlodipine"; "lisinopril"; "hypertension"; "blood pressure";
          "atenolol"; "losartan"]
    then Some "Hypertension"
    else if existsb (includes t)
         ["ibuprofen"; "arthritis"; "joint"; "inflammation"; "naproxen";
          "celecoxib"]
    then Some "Arthritis"
    else if existsb (includes t)
         ["asthma"; "inhaler"; "albuterol"; "bronchodilator"]
    then Some "Asthma"
    else if existsb (includes t)
         ["depression"; "anxiety"; "sertraline"; "fluoxetine"]
    then Some "Mental Health"
    else None.
Proof.
  unfold ResultsModal.classify. cbn [existsb].
  rewrite !orb_false_r, !orb_assoc. reflexivity.
Qed.

Lemma existsb_includes_grows (t before after : string) (keys : list string) :
  existsb (includes t) keys = true ->
  existsb (includes (before +:+ t +:+ after)) keys = true.
Proof.
  intros H. apply existsb_exists in H as (key & Hin & Hk).
  apply existsb_exists. exists key. split; [exact Hin |].
  apply includes_append_l, includes_append_r, Hk.
Qed.

(** X16: more text never loses a detection.  If a text is classified, so is
    every text that contains it; and a text classified as Diabetes, the
    first condition tested, stays Diabetes whatever is put around it. *)
Theorem classify_grows (t before after : string) :
  (ResultsModal.classify t <> None ->
   ResultsModal.classify (before +:+ t +:+ after) <> None)
  /\ (ResultsModal.classify t = Some "Diabetes" ->
      ResultsModal.classify (before +:+ t +:+ after) = Some "Diabetes").
Proof.
  rewrite !classify_by_lists.
  pose proof (existsb_includes_grows t before after) as G.
  split.
  - repeat match goal with
      | |- context [existsb (includes t) ?keys] =>
          let H := fresh "H" in
          destruct (existsb (includes t) keys) eqn:H;
            [rewrite (G keys H) | clear H]
      end;
      intros Hsome; try (contradiction Hsome; reflexivity);
      repeat match goal with
        | |- context [if ?c then _ else _] => destruct c
        end; discriminate.
  - destruct (existsb (includes t) _) eqn:H at 1.
    + intros _. rewrite (G _ H). reflexivity.
    + repeat match goal with
        | |- context [if ?c then _ else _] => destruct c
        end; discriminate.
Qed.

Lemma classify_grows_witness :
  ResultsModal.classify "ibuprofen" <> None
  /\ ResultsModal.classify ("take " +:+ "ibuprofen" +:+ " with insulin")
     <> None.
Proof.
  assert (H : ResultsModal.classify "ibuprofen" <> None) by discriminate.
  split; [exact H |].
  exact (proj1 (classify_grows "ibuprofen" "take " " with insulin") H).
Defined.

(** * Properties of the health plan *)

(** X17: which plan a detection gets.  The modal hands the detected
    condition to the chart; Diabetes, Hypertension and Arthritis get their
    own plan, while Asthma, Mental Health and no detection at all get the
    general plan. *)
Theorem plan_of_detection (results : ModalResults.t) (d : option string) :
  ResultsModal.detectDisease results = Normal d ->
  (d = Some "Diabetes"
   /\ HealthChart.getRecommendations d = HealthChart.diabetes)
  \/ (d = Some "Hypertension"
      /\ HealthChart.getRecommendations d = HealthChart.hypertension)
  \/ (d = Some "Arthritis"
      /\ HealthChart.getRecommendations d = HealthChart.arthritis)
  \/ ((d = Some "Asthma" \/ d = Some "Mental Health" \/ d = None)
      /\ HealthChart.getRecommendations d = HealthChart.default_plan).
Proof.
  unfold ResultsModal.detectDisease.
  destruct (ResultsModal.lowerNames _) as [names | e]; [| discriminate].
  intros H. injection H as <-. rewrite classify_by_lists.
  repeat match goal with
    | |- context [if ?c then _ else _] => destruct c
    end.
  - left. split; reflexivity.
  - right. left. split; reflexivity.
  - right. right. left. split; reflexivity.
  - right. right. right. split; [left; reflexivity | reflexivity].
  - right. right. right. split; [right; left; reflexivity | reflexivity].
  - right. right. right. split; [right; right; reflexivity | reflexivity].
Qed.

Lemma plan_of_detection_witness :
  ResultsModal.detectDisease
    {| ModalResults.extractedText := "Albuterol inhaler";
       ModalResults.medicines := [info "Albuterol"];
       ModalResults.medicineCorrections := [];
       ModalResults.fileName := "rx1.jpg" |} = Normal (Some "Asthma")
  /\ HealthChart.getRecommendations (Some "Asthma") = HealthChart.default_plan.
Proof.
  assert (H : ResultsModal.detectDisease
    {| ModalResults.extractedText := "Albuterol inhaler";
       ModalResults.medicines := [info "Albuterol"];
       ModalResults.medicineCorrections := [];
       ModalResults.fileName := "rx1.jpg" |} = Normal (Some "Asthma"))
    by reflexivity.
  split; [exact H |].
  destruct (plan_of_detection _ _ H)
    as [[Hd _] | [[Hd _] | [[Hd _] | [_ Hp]]]]; try discriminate Hd.
  exact Hp.
Defined.

(** X18: ticking a task.  A click on a task flips that task and no other,
    changes the number of completed tasks by exactly one, and a second click
    on the same task undoes the first. *)
Theorem toggleTask_flips_one (taskId : string) (completedTasks : gset string) :
  (taskId ∈ HealthChart.toggleTask taskId completedTasks
   <-> taskId ∉ completedTasks)
  /\ (forall other, other <> taskId ->
        (other ∈ HealthChart.toggleTask taskId completedTasks
         <-> other ∈ completedTasks))
  /\ (if bool_decide (taskId ∈ completedTasks)
      then S (size (HealthChart.toggleTask taskId completedTasks))
           = size completedTasks
      else size (HealthChart.toggleTask taskId completedTasks)
           = S (size completedTasks))
  /\ HealthChart.toggleTask taskId
       (HealthChart.toggleTask taskId completedTasks) = completedTasks.
Proof.
  unfold HealthChart.toggleTask.
  destruct (bool_decide (taskId ∈ completedTasks)) eqn:Hin.
  - apply bool_decide_eq_true in Hin.
    split; [rewrite elem_of_difference, elem_of_singleton; tauto |].
    split; [intros other Hne;
            rewrite elem_of_difference, elem_of_singleton; tauto |].
    split.
    + assert (Hsub : ({[taskId]} : gset string) ⊆ completedTasks)
        by now apply singleton_subseteq_l.
      pose proof (size_difference completedTasks {[taskId]} Hsub) as Hs.
      rewrite size_singleton in Hs.
      assert (Hpos : size completedTasks <> 0).
      { intros H0. apply size_empty_inv in H0.
        rewrite H0 in Hin. now apply elem_of_empty in Hin. }
      lia.
    + rewrite bool_decide_eq_false_2
        by (rewrite elem_of_difference, elem_of_singleton; tauto).
      apply set_eq. intros x.
      rewrite elem_of_union, elem_of_difference, elem_of_singleton.
      destruct (decide (x = taskId)) as [-> | Hne]; tauto.
  - apply bool_decide_eq_false in Hin.
    split; [rewrite elem_of_union, elem_of_singleton; tauto |].
    split; [intros other Hne;
            rewrite elem_of_union, elem_of_singleton; tauto |].
    split.
    + rewrite size_union by now apply disjoint_singleton_r.
      rewrite size_singleton. lia.
    + rewrite bool_decide_eq_true_2
        by (rewrite elem_of_union, elem_of_singleton; tauto).
      apply set_eq. intros x.
      rewrite elem_of_difference, elem_of_union, elem_of_singleton.
      split; [tauto |]. intros Hx. split; [tauto |]. now intros ->.
Qed.

Lemma plan_is_one_of_four (diseaseName : option string) :
  HealthChart.getRecommendations diseaseName = HealthChart.diabetes
  \/ HealthChart.getRecommendations diseaseName = HealthChart.hypertension
  \/ HealthChart.getRecommendations diseaseName = HealthChart.arthritis
  \/ HealthChart.getRecommendations diseaseName = HealthChart.default_plan.
Proof.
  unfold HealthChart.getRecommendations.
  repeat match goal with
    | |- context [if ?c then _ else _] => destruct c
    end; tauto.
Qed.

Lemma roundPercent_98 (n : nat) :
  let p := HealthChart.roundPercent n 98 in
  196 * p <= 200 * n + 98 < 196 * p + 196.
Proof.
  unfold HealthChart.roundPercent. cbn zeta.
  pose proof (Nat.div_mod_eq (200 * n + 98) (2 * 98)) as Hd.
  pose proof (Nat.mod_upper_bound (200 * n + 98) (2 * 98)) as Hm.
  lia.
Qed.

(** X19: the progress figure.  Whatever condition was detected, the figure
    counts against 98 tasks while a week lists 28, so ticking every task of a
    week gives 29; the figure never decreases when more tasks are ticked, is
    100 exactly at 98 ticked tasks, and exceeds 100 beyond that. *)
Theorem progress_counts_against_98 (diseaseName : option string)
    (currentWeek : Z) (completedTasks more : gset string) :
  let plan := HealthChart.getRecommendations diseaseName in
  HealthChart.totalTasks plan = 98
  /\ length (HealthChart.weekTasks plan currentWeek) = 28
  /\ (size completedTasks = 28 ->
      HealthChart.getProgressPercentage plan completedTasks = 29)
  /\ (HealthChart.getProgressPercentage plan completedTasks = 100
      <-> size completedTasks = 98)
  /\ (98 < size completedTasks
      <-> 100 < HealthChart.getProgressPercentage plan completedTasks)
  /\ (completedTasks ⊆ more ->
      HealthChart.getProgressPercentage plan completedTasks
        <= HealthChart.getProgressPercentage plan more).
Proof.
  intros plan.
  assert (Htotal : HealthChart.totalTasks plan = 98).
  { subst plan. destruct (plan_is_one_of_four diseaseName)
      as [-> | [-> | [-> | ->]]]; reflexivity. }
  assert (Hweek : length (HealthChart.weekTasks plan currentWeek) = 28).
  { subst plan. destruct (plan_is_one_of_four diseaseName)
      as [-> | [-> | [-> | ->]]]; reflexivity. }
  unfold HealthChart.getProgressPercentage. rewrite Htotal.
  pose proof (roundPercent_98 (size completedTasks)) as Hc. cbn zeta in Hc.
  pose proof (roundPercent_98 (size more)) as Hm. cbn zeta in Hm.
  split; [reflexivity | split; [exact Hweek |]].
  split; [intros H28; lia | split; [lia | split; [lia |]]].
  intros Hsub. apply subseteq_size in Hsub. nia.
Qed.

Lemma progress_counts_against_98_witness :
  size (list_to_set ((fun n : nat => pretty n) <$> seq 0 28) : gset string) = 28
  /\ HealthChart.getProgressPercentage
       (HealthChart.getRecommendations (Some "Diabetes"))
       (list_to_set ((fun n : nat => pretty n) <$> seq 0 28)) = 29.
Proof.
  assert (H : size (list_to_set ((fun n : nat => pretty n) <$> seq 0 28)
                     : gset string) = 28) by (vm_compute; reflexivity).
  split; [exact H |].
  exact (proj1 (proj2 (proj2 (progress_counts_against_98 (Some "Diabetes") 0
                                (list_to_set ((fun n : nat => pretty n)
                                                <$> seq 0 28)) ∅))) H).
Defined.

(** ** Task ids *)

Lemma pretty_N_char_no_dash (x : N) : Ascii.eqb (pretty_N_char x) DASH = false.
Proof. unfold pretty_N_char. repeat case_match; reflexivity. Qed.

Lemma pretty_N_go_no_dash (x : N) (s : string) :
  occurrences DASH (pretty_N_go x s) = occurrences DASH s.
Proof.
  revert s. induction (N.lt_wf_0 x) as [x _ IH]; intros s.
  assert (x = 0 \/ 0 < x)%N as [-> | Hpos] by lia.
  - now rewrite pretty_N_go_0.
  - rewrite pretty_N_go_step by assumption.
    rewrite IH by now apply N.div_lt.
    cbn [occurrences]. now rewrite pretty_N_char_no_dash.
Qed.

Lemma pretty_N_no_dash (x : N) : occurrences DASH (pretty x) = 0.
Proof.
  unfold pretty, pretty_N. case_decide; [reflexivity |].
  apply pretty_N_go_no_dash.
Qed.

Lemma pretty_nat_no_dash (n : nat) : occurrences DASH (pretty n) = 0.
Proof. apply pretty_N_no_dash. Qed.

Lemma pretty_Z_no_dash (z : Z) : (0 <= z)%Z -> occurrences DASH (pretty z) = 0.
Proof.
  destruct z as [|p|p]; intros Hz; [reflexivity | | lia].
  apply (pretty_N_no_dash (Npos p)).
Qed.

Lemma split_cons (sep c : Ascii.ascii) (s : string) :
  split sep (String c s) =
    if Ascii.eqb c sep then "" :: split sep s
    else match split sep s with
         | [] => [String c ""]
         | part :: parts => String c part :: parts
         end.
Proof. reflexivity. Qed.

(** Splitting at a separator that the first part does not contain. *)
Lemma split_first (sep : Ascii.ascii) (a b : string) :
  occurrences sep a = 0 ->
  split sep (a +:+ String sep b) = a :: split sep b.
Proof.
  induction a as [|c a IH]; intros Ha.
  - change ("" +:+ String sep b) with (String sep b).
    rewrite split_cons, Ascii.eqb_refl. reflexivity.
  - change (String c a +:+ String sep b) with (String c (a +:+ String sep b)).
    rewrite split_cons.
    change (occurrences sep (String c a))
      with ((if Ascii.eqb c sep then 1 else 0) + occurrences sep a) in Ha.
    destruct (Ascii.eqb c sep); [discriminate Ha |].
    rewrite IH by exact Ha. reflexivity.
Qed.

Lemma split_none (sep : Ascii.ascii) (a : string) :
  occurrences sep a = 0 -> split sep a = [a].
Proof.
  induction a as [|c a IH]; intros Ha; [reflexivity |].
  rewrite split_cons.
  change (occurrences sep (String c a))
    with ((if Ascii.eqb c sep then 1 else 0) + occurrences sep a) in Ha.
  destruct (Ascii.eqb c sep); [discriminate Ha |].
  rewrite IH by exact Ha. reflexivity.
Qed.

Lemma split_taskId (week : Z) (dayIndex : nat) (type : string) (i : nat) :
  (0 <= week)%Z ->
  occurrences DASH type = 0 ->
  split DASH (HealthChart.taskId week dayIndex type i)
    = [pretty week; pretty dayIndex; type; pretty i].
Proof.
  intros Hw Ht. unfold HealthChart.taskId.
  assert (Hdash : forall x, "-" +:+ x = String DASH x) by reflexivity.
  rewrite !Hdash.
  rewrite (split_first DASH (pretty week)) by now apply pretty_Z_no_dash.
  rewrite (split_first DASH (pretty dayIndex)) by apply pretty_nat_no_dash.
  rewrite (split_first DASH type) by exact Ht.
  rewrite split_none by apply pretty_nat_no_dash. reflexivity.
Qed.

(** X20: task ids never collide.  The week shown is never negative,
    whatever week buttons are clicked, and the previous-week button undoes
    the next-week button; and for such weeks the id of a task determines its
    week, its day, its kind and its position, so that ticking a task can
    never tick another one, of this week or of any other. *)
Theorem taskId_identifies_task :
  (forall clicks : list bool,
     (0 <= weekAfter clicks)%Z
     /\ weekAfter (clicks ++ [true; false]) = weekAfter clicks)
  /\ (forall (week week' : Z) (dayIndex dayIndex' : nat)
             (type type' : string) (i i' : nat),
        (0 <= week)%Z -> (0 <= week')%Z ->
        occurrences DASH type = 0 -> occurrences DASH type' = 0 ->
        HealthChart.taskId week dayIndex type i
          = HealthChart.taskId week' dayIndex' type' i' ->
        week = week' /\ dayIndex = dayIndex' /\ type = type' /\ i = i').
Proof.
  split.
  - intros clicks.
    assert (Hfold : forall clicks start, (0 <= start)%Z ->
              (0 <= fold_left (fun week (next : bool) =>
                       if next then HealthChart.nextWeek week
                       else HealthChart.previousWeek week) clicks start)%Z).
    { clear clicks. induction clicks as [|c clicks IH]; intros start Hs;
        [exact Hs |].
      cbn [fold_left]. apply IH.
      destruct c; unfold HealthChart.nextWeek, HealthChart.previousWeek; lia. }
    assert (Hpos : (0 <= weekAfter clicks)%Z) by (apply Hfold; lia).
    split; [exact Hpos |].
    unfold weekAfter in *. rewrite fold_left_app.
    set (week := fold_left _ clicks 0%Z) in *.
    cbn [fold_left]. unfold HealthChart.nextWeek, HealthChart.previousWeek.
    lia.
  - intros week week' dayIndex dayIndex' type type' i i' Hw Hw' Ht Ht' Hid.
    apply (f_equal (split DASH)) in Hid.
    rewrite !split_taskId in Hid by assumption.
    injection Hid as Hweek Hday Htype Hi.
    apply (inj pretty) in Hweek, Hday, Hi. tauto.
Qed.

Lemma taskId_identifies_task_witness :
  (0 <= 3)%Z /\ (0 <= 13)%Z
  /\ occurrences DASH "diet" = 0 /\ occurrences DASH "exercise" = 0
  /\ HealthChart.taskId 3 1 "diet" 0 <> HealthChart.taskId 13 1 "exercise" 0.
Proof.
  split; [lia | split; [lia | split; [reflexivity | split; [reflexivity |]]]].
  intros Hid.
  destruct (proj2 taskId_identifies_task 3%Z 13%Z 1 1 "diet" "exercise" 0 0
              ltac:(lia) ltac:(lia) eq_refl eq_refl Hid) as (Hw & _).
  discriminate Hw.
Defined.

(** * Properties of the medicine card *)

Lemma getCategoryColor_Some (category : string) :
  MedicineCard.getCategoryColor (Some category) =
    match MedicineCard.colors !! toLowerCase category with
    | Some color => Some color
    | None =>
        if bool_decide (toLowerCase category ∈ MedicineCard.inherited)
        then None else Some MedicineCard.default_color
    end.
Proof. reflexivity. Qed.

(** X21: the colour of a category.  Upper and lower case do not matter; an
    absent category and every category that is neither one of the eight
    listed ones nor "constructor" or "__proto__" gets the grey of "general
    medication"; and those two names, which every object answers to, are
    the only categories that yield no colour at all. *)
Theorem getCategoryColor_cases (category : string) :
  MedicineCard.getCategoryColor (Some category)
    = MedicineCard.getCategoryColor (Some (toLowerCase category))
  /\ MedicineCard.getCategoryColor None = Some MedicineCard.default_color
  /\ MedicineCard.getCategoryColor (Some "General Medication")
       = Some MedicineCard.default_color
  /\ (MedicineCard.colors !! toLowerCase category = None ->
      toLowerCase category <> "constructor" ->
      toLowerCase category <> "__proto__" ->
      MedicineCard.getCategoryColor (Some category)
        = Some MedicineCard.default_color)
  /\ (MedicineCard.getCategoryColor (Some category) = None
      <-> toLowerCase category = "constructor"
          \/ toLowerCase category = "__proto__").
Proof.
  assert (Hin : toLowerCase category ∈ MedicineCard.inherited
                <-> toLowerCase category = "constructor"
                    \/ toLowerCase category = "__proto__").
  { unfold MedicineCard.inherited. rewrite !elem_of_cons, elem_of_nil.
    pose proof (toLowerCase_idempotent category) as Hidem.
    split; [| tauto].
    intros [H | [H | [H | [H | [H | [H | [H | [H | [H | [H | [H | [H | []]]]]]]]]]]]];
      try tauto; rewrite H in Hidem; discriminate Hidem. }
  rewrite (getCategoryColor_Some (toLowerCase category)).
  rewrite toLowerCase_idempotent, <- getCategoryColor_Some.
  split; [reflexivity | split; [reflexivity | split; [reflexivity | split]]];
    rewrite getCategoryColor_Some.
  - intros Hnone Hc Hp. rewrite Hnone.
    rewrite bool_decide_eq_false_2 by (rewrite Hin; tauto). reflexivity.
  - destruct (MedicineCard.colors !! toLowerCase category) as [color|] eqn:Hl.
    + split; [discriminate |].
      intros [H | H]; rewrite H in Hl; vm_compute in Hl; discriminate Hl.
    + rewrite <- Hin. destruct (bool_decide _) eqn:Hb.
      * apply bool_decide_eq_true in Hb. tauto.
      * apply bool_decide_eq_false in Hb. split; [discriminate | tauto].
Qed.

Lemma getCategoryColor_cases_witness :
  MedicineCard.colors !! toLowerCase "Statin" = None
  /\ MedicineCard.getCategoryColor (Some "Statin")
     = Some MedicineCard.default_color
  /\ MedicineCard.getCategoryColor (Some "Antibiotic")
     = Some "from-blue-500 to-blue-600".
Proof.
  assert (H : MedicineCard.colors !! toLowerCase "Statin" = None)
    by (vm_compute; reflexivity).
  split; [exact H | split; [| vm_compute; reflexivity]].
  exact (proj1 (proj2 (proj2 (proj2 (getCategoryColor_cases "Statin"))))
           H ltac:(discriminate) ltac:(discriminate)).
Defined.

(** * Invariants of the page *)

(** What one event can do to the clock, the transcript, the request log and
    the pending continuations. *)
Lemma step_shape (ev : Event) (w w1 : World) :
  step ev w = Some w1 ->
  clock w <= clock w1
  /\ (messages (appContent w1) = []
      \/ exists new,
           messages (appContent w1) = messages (appContent w) ++ new
           /\ Forall (fun m => timestamp m = clock w) new)
  /\ exists base,
       (base = inflight w \/ exists id, base = delete id (inflight w))
       /\ ((requests w1 = requests w /\ inflight w1 = base)
           \/ exists req k,
                requests w1 = requests w ++ [req]
                /\ inflight w1 = <[length (requests w) := k]> base
                /\ answers_to k req).
Proof.
  intros Hstep.
  destruct w as [[dm ms ty pr md mc et cp cf sm mr] uc rq inf rd ts co un ck].
  destruct ev; unfold step in Hstep.
  - injection Hstep as <-.
    destruct acceptedFiles as [|file others]; unfold onDrop;
      simpl (_ !! 0); crunch.
    + split; [lia |]. split; [right; exists []; split; [now rewrite app_nil_r | constructor] |].
      exists inf. split; [left; reflexivity | left; split; reflexivity].
    + split; [lia |].
      split; [right; eexists; split; [reflexivity | repeat constructor] |].
      exists inf. split; [left; reflexivity |].
      right. eexists. eexists. split; [reflexivity | split; reflexivity].
  - cbn [readers] in Hstep. destruct (rd !! i) as [file|]; [| discriminate].
    cbn [mbind option_bind] in Hstep. injection Hstep as <-. crunch.
    split; [lia |]. split; [right; exists []; split; [now rewrite app_nil_r | constructor] |].
    exists inf. split; [left; reflexivity | left; split; reflexivity].
  - destruct (truthy _); [| discriminate]. injection Hstep as <-. crunch.
    split; [lia |]. split; [right; exists []; split; [now rewrite app_nil_r | constructor] |].
    exists inf. split; [left; reflexivity | left; split; reflexivity].
  - destruct (_ || _); [discriminate |]. injection Hstep as <-.
    unfold hasFile. destruct cf as [file|]; crunch.
    + split; [lia |].
      split; [right; eexists; split; [reflexivity | repeat constructor] |].
      exists inf. split; [left; reflexivity |].
      right. eexists. eexists. split; [reflexivity | split; reflexivity].
    + split; [lia |]. split; [right; exists []; split; [now rewrite app_nil_r | constructor] |].
      exists inf. split; [left; reflexivity | left; split; reflexivity].
  - destruct (_ || _); [| discriminate]. injection Hstep as <-. crunch.
    split; [lia |]. split; [left; reflexivity |].
    exists inf. split; [left; reflexivity | left; split; reflexivity].
  - destruct (_ && _); [| discriminate]. injection Hstep as <-. crunch.
    split; [lia |]. split; [right; exists []; split; [now rewrite app_nil_r | constructor] |].
    exists inf. split; [left; reflexivity | left; split; reflexivity].
  - injection Hstep as <-. crunch.
    split; [lia |]. split; [right; exists []; split; [now rewrite app_nil_r | constructor] |].
    exists inf. split; [left; reflexivity | left; split; reflexivity].
  - destruct (isChatProcessing _); [discriminate |]. injection Hstep as <-.
    crunch. split; [lia |].
    split; [right; eexists; split; [reflexivity | repeat constructor] |].
    exists inf. split; [left; reflexivity |].
    right. eexists. eexists. split; [reflexivity | split; [reflexivity | exact I]].
  - cbn [inflight] in Hstep. destruct (inf !! id) as [k|]; [| discriminate].
    cbn [mbind option_bind] in Hstep.
    destruct (resume k s) as [piece|] eqn:Hr; [| discriminate].
    cbn [mbind option_bind] in Hstep. injection Hstep as <-.
    destruct k, s as [o|o|o|o]; try discriminate; injection Hr as <-;
      destruct o as [d|err]; try (destruct d as [succ]; destruct succ);
      crunch;
      (split; [lia |]);
      (split; [right; eexists; split; [reflexivity | repeat constructor] |]);
      exists (delete id inf); (split; [right; eexists; reflexivity |]);
      first [ left; split; reflexivity
            | right; eexists; eexists;
              split; [reflexivity | split; reflexivity] ].
  - injection Hstep as <-. crunch.
    split; [lia |]. split; [right; exists []; split; [now rewrite app_nil_r | constructor] |].
    exists inf. split; [left; reflexivity | left; split; reflexivity].
Qed.

Lemma well_paired_step (ev : Event) (w w1 : World) :
  well_paired w -> step ev w = Some w1 -> well_paired w1.
Proof.
  intros Hw Hstep.
  destruct (step_shape ev w w1 Hstep) as (_ & _ & base & Hbase & Hcase).
  assert (Hsub : forall id k, base !! id = Some k -> inflight w !! id = Some k).
  { destruct Hbase as [-> | [gone ->]]; intros id k H; [exact H |].
    apply lookup_delete_Some in H as [_ H]. exact H. }
  intros id k Hk.
  destruct Hcase as [[Hr Hi] | (req & k1 & Hr & Hi & Hans)].
  - rewrite Hr. apply Hw, Hsub. now rewrite <- Hi.
  - rewrite Hi in Hk. rewrite Hr.
    destruct (decide (id = length (requests w))) as [-> | Hne].
    + rewrite lookup_insert_eq in Hk. injection Hk as <-.
      exists req. split; [apply lookup_snoc | exact Hans].
    + rewrite lookup_insert_ne in Hk by auto.
      destruct (Hw id k (Hsub id k Hk)) as (req0 & Hreq0 & Hans0).
      exists req0. split; [| exact Hans0].
      rewrite lookup_app_l; [exact Hreq0 |]. eapply lookup_lt_Some, Hreq0.
Qed.

(** X22: on every page reached from the freshly loaded one, whatever the
    events and their order, each pending continuation waits for a request
    that was really posted and for the very one it was suspended on: the
    extraction step for the text it will display, the information step for
    the corrected names of the corrections it will display. *)
Theorem pending_steps_are_well_paired (evs : list Event) (w : World) :
  exec evs initialWorld = Some w -> well_paired w.
Proof.
  assert (H : forall evs w0 w, well_paired w0 -> exec evs w0 = Some w ->
              well_paired w).
  { clear evs w. induction evs as [|ev evs IH]; intros w0 w Hw Hexec.
    - injection Hexec as <-. exact Hw.
    - cbn [exec] in Hexec. destruct (step ev w0) as [w1|] eqn:Hstep;
        [| discriminate].
      cbn [mbind option_bind] in Hexec.
      exact (IH w1 w (well_paired_step ev w0 w1 Hw Hstep) Hexec). }
  apply H. intros id k Hk. unfold initialWorld in Hk. cbn [inflight] in Hk.
  rewrite lookup_empty in Hk. discriminate Hk.
Qed.

Lemma pending_steps_are_well_paired_witness :
  exec [EvDrop [rx1]; EvDrop [rx2];
        EvSettle 1 (SOcr (Resolved (ocr_ok ibuprofen_text)))] initialWorld
    = Some (world_after [EvDrop [rx1]; EvDrop [rx2];
              EvSettle 1 (SOcr (Resolved (ocr_ok ibuprofen_text)))])
  /\ well_paired (world_after [EvDrop [rx1]; EvDrop [rx2];
                    EvSettle 1 (SOcr (Resolved (ocr_ok ibuprofen_text)))]).
Proof.
  assert (H : exec [EvDrop [rx1]; EvDrop [rx2];
                EvSettle 1 (SOcr (Resolved (ocr_ok ibuprofen_text)))]
                initialWorld
              = Some (world_after [EvDrop [rx1]; EvDrop [rx2];
                  EvSettle 1 (SOcr (Resolved (ocr_ok ibuprofen_text)))]))
    by (vm_compute; reflexivity).
  split; [exact H |].
  exact (pending_steps_are_well_paired _ _ H).
Defined.

Lemma in_time_order_step (ev : Event) (w w1 : World) :
  in_time_order w -> step ev w = Some w1 -> in_time_order w1.
Proof.
  intros [Hsorted Hpast] Hstep.
  destruct (step_shape ev w w1 Hstep) as (Hclock & Hmsgs & _).
  unfold in_time_order.
  destruct Hmsgs as [-> | (new & -> & Hnew)].
  - split; [| constructor]. intros i j earlier later _ Hi. discriminate Hi.
  - rewrite Forall_lookup in Hpast, Hnew. split.
    + intros i j earlier later Hij Hi Hj.
      apply lookup_app_Some in Hi as [Hi | [Hli Hi]];
        apply lookup_app_Some in Hj as [Hj | [Hlj Hj]].
      * exact (Hsorted i j earlier later Hij Hi Hj).
      * rewrite (Hnew _ _ Hj). exact (Hpast _ _ Hi).
      * apply lookup_lt_Some in Hj. lia.
      * rewrite (Hnew _ _ Hi), (Hnew _ _ Hj). lia.
    + apply Forall_lookup. intros i m Hi.
      apply lookup_app_Some in Hi as [Hi | [_ Hi]].
      * pose proof (Hpast _ _ Hi). lia.
      * rewrite (Hnew _ _ Hi). exact Hclock.
Qed.

(** X23: on every page reached from the freshly loaded one the transcript
    is in the order of its time stamps: a later message never carries an
    earlier time than the message before it, and no message carries a time
    that has not come yet. *)
Theorem transcript_in_time_order (evs : list Event) (w : World) :
  exec evs initialWorld = Some w -> in_time_order w.
Proof.
  assert (H : forall evs w0 w, in_time_order w0 -> exec evs w0 = Some w ->
              in_time_order w).
  { clear evs w. induction evs as [|ev evs IH]; intros w0 w Hw Hexec.
    - injection Hexec as <-. exact Hw.
    - cbn [exec] in Hexec. destruct (step ev w0) as [w1|] eqn:Hstep;
        [| discriminate].
      cbn [mbind option_bind] in Hexec.
      exact (IH w1 w (in_time_order_step ev w0 w1 Hw Hstep) Hexec). }
  apply H. split; [| constructor].
  intros i j earlier later _ Hi. discriminate Hi.
Qed.

Lemma transcript_in_time_order_witness :
  exec [EvDrop [rx1]; EvTick; EvSendChat "Can I take this with food?"; EvTick;
        EvSettle 0 (SOcr (Rejected network_error))] initialWorld
    = Some (world_after [EvDrop [rx1]; EvTick;
              EvSendChat "Can I take this with food?"; EvTick;
              EvSettle 0 (SOcr (Rejected network_error))])
  /\ in_time_order (world_after [EvDrop [rx1]; EvTick;
                      EvSendChat "Can I take this with food?"; EvTick;
                      EvSettle 0 (SOcr (Rejected network_error))]).
Proof.
  assert (H : exec [EvDrop [rx1]; EvTick;
                EvSendChat "Can I take this with food?"; EvTick;
                EvSettle 0 (SOcr (Rejected network_error))] initialWorld
              = Some (world_after [EvDrop [rx1]; EvTick;
                  EvSendChat "Can I take this with food?"; EvTick;
                  EvSettle 0 (SOcr (Rejected network_error))]))
    by (vm_compute; reflexivity).
  split; [exact H |].
  exact (transcript_in_time_order _ _ H).
Defined.

(** What one event adds to the transcript: nothing but messages of the
    assistant, unless it hands a file over or sends a question. *)
Lemma user_message_origin (ev : Event) (w w1 : World) :
  step ev w = Some w1 ->
  messages (appContent w1) = []
  \/ exists new,
       messages (appContent w1) = messages (appContent w) ++ new
       /\ (Forall (fun m => sender m = ai) new
           \/ (exists file others,
                 ev = EvDrop (file :: others)
                 /\ new = [{| sender := user;
                              content := "Uploaded prescription: "
                                           +:+ File.name file;
                              timestamp := clock w |}])
           \/ (exists file,
                 ev = EvAnalysisClick
                 /\ currentFile (appContent w) = Some file
                 /\ new = [{| sender := user;
                              content := "Uploaded prescription: "
                                           +:+ File.name file;
                              timestamp := clock w |}])
           \/ (exists question,
                 ev = EvSendChat question
                 /\ new = [{| sender := user; content := question;
                              timestamp := clock w |}])).
Proof.
  intros Hstep.
  destruct w as [[dm ms ty pr md mc et cp cf sm mr] uc rq inf rd ts co un ck].
  destruct ev; unfold step in Hstep.
  - injection Hstep as <-.
    destruct acceptedFiles as [|file others]; unfold onDrop;
      simpl (_ !! 0); crunch.
    + right. exists []. split; [now rewrite app_nil_r | left; constructor].
    + right. eexists. split; [reflexivity |].
      right. left. exists file, others. split; reflexivity.
  - cbn [readers] in Hstep. destruct (rd !! i) as [file|]; [| discriminate].
    cbn [mbind option_bind] in Hstep. injection Hstep as <-. crunch.
    right. exists []. split; [now rewrite app_nil_r | left; constructor].
  - destruct (truthy _); [| discriminate]. injection Hstep as <-. crunch.
    right. exists []. split; [now rewrite app_nil_r | left; constructor].
  - destruct (_ || _); [discriminate |]. injection Hstep as <-.
    unfold hasFile. destruct cf as [file|]; crunch.
    + right. eexists. split; [reflexivity |].
      right. right. left. exists file.
      split; [reflexivity | split; reflexivity].
    + right. exists []. split; [now rewrite app_nil_r | left; constructor].
  - destruct (_ || _); [| discriminate]. injection Hstep as <-. crunch.
    left. reflexivity.
  - destruct (_ && _); [| discriminate]. injection Hstep as <-. crunch.
    right. exists []. split; [now rewrite app_nil_r | left; constructor].
  - injection Hstep as <-. crunch.
    right. exists []. split; [now rewrite app_nil_r | left; constructor].
  - destruct (isChatProcessing _); [discriminate |]. injection Hstep as <-.
    crunch. right. eexists. split; [reflexivity |].
    right. right. right. exists message0. split; reflexivity.
  - cbn [inflight] in Hstep. destruct (inf !! id) as [k|]; [| discriminate].
    cbn [mbind option_bind] in Hstep.
    destruct (resume k s) as [piece|] eqn:Hr; [| discriminate].
    cbn [mbind option_bind] in Hstep. injection Hstep as <-.
    destruct k, s as [o|o|o|o]; try discriminate; injection Hr as <-;
      destruct o as [d|err]; try (destruct d as [succ]; destruct succ);
      crunch;
      right; eexists; (split; [reflexivity | left; repeat constructor]).
  - injection Hstep as <-. crunch.
    right. exists []. split; [now rewrite app_nil_r | left; constructor].
Qed.

(** X24: every response, of whatever request and however it settles, adds
    exactly one message to the transcript, and that message is the
    assistant's.  A message of the user enters the transcript only when a
    file is handed over - by a selection or by the Analysis button - and
    then names that file, or when a question is sent, and then is that
    question. *)
Theorem every_response_adds_one_ai_message :
  (forall (w : World) (id : nat) (k : Cont) (s : Settlement),
     inflight w !! id = Some k ->
     awaits k s = true ->
     exists w1 text,
       step (EvSettle id s) w = Some w1
       /\ messages (appContent w1) = messages (appContent w) ++
            [{| sender := ai; content := text; timestamp := clock w |}])
  /\ (forall (ev : Event) (w w1 : World) (new : list ChatMessage)
             (m : ChatMessage),
        step ev w = Some w1 ->
        messages (appContent w1) = messages (appContent w) ++ new ->
        m ∈ new ->
        sender m = user ->
        (exists file others,
           ev = EvDrop (file :: others)
           /\ content m = "Uploaded prescription: " +:+ File.name file)
        \/ (exists file,
              ev = EvAnalysisClick
              /\ currentFile (appContent w) = Some file
              /\ content m = "Uploaded prescription: " +:+ File.name file)
        \/ (exists question, ev = EvSendChat question /\ content m = question)).
Proof.
  split.
  - intros w id k s Hk Ha.
    destruct k, s as [o|o|o|o]; try discriminate;
      destruct o as [d|err]; try (destruct d as [succ]; destruct succ).
    all: eexists; eexists;
      split; [ eapply step_settle; [eassumption | reflexivity] | ].
    all: crunch; reflexivity.
  - intros ev w w1 new m Hstep Hnew Hin Huser.
    destruct (user_message_origin ev w w1 Hstep)
      as [Hnil | (new' & Hnew' & Horigin)].
    + rewrite Hnil in Hnew. symmetry in Hnew.
      apply app_eq_nil in Hnew as [_ ->]. inversion Hin.
    + rewrite Hnew' in Hnew. apply app_inv_head in Hnew. subst new'.
      destruct Horigin
        as [Hai | [(file & others & -> & ->)
                  | [(file & -> & Hcf & ->) | (question & -> & ->)]]].
      * rewrite Forall_forall in Hai. specialize (Hai m Hin). congruence.
      * left. exists file, others. split; [reflexivity |].
        apply list_elem_of_singleton in Hin. subst m. reflexivity.
      * right. left. exists file. split; [reflexivity | split; [exact Hcf |]].
        apply list_elem_of_singleton in Hin. subst m. reflexivity.
      * right. right. exists question. split; [reflexivity |].
        apply list_elem_of_singleton in Hin. subst m. reflexivity.
Qed.

Lemma every_response_adds_one_ai_message_witness :
  inflight uploaded_world !! 0 = Some (AwaitOcr rx1)
  /\ (exists w1 text,
        step (EvSettle 0 (SOcr (Resolved (ocr_ok paracetamol_text))))
          uploaded_world = Some w1
        /\ messages (appContent w1) = messages (appContent uploaded_world) ++
             [{| sender := ai; content := text;
                 timestamp := clock uploaded_world |}])
  /\ step (EvSendChat "Can I take this with food?") meds_done_world
     = Some (dispatch (handleChatMessage "Can I take this with food?")
               meds_done_world)
  /\ ((exists file others,
         EvSendChat "Can I take this with food?" = EvDrop (file :: others)
         /\ "Can I take this with food?"
            = "Uploaded prescription: " +:+ File.name file)
      \/ (exists file,
            EvSendChat "Can I take this with food?" = EvAnalysisClick
            /\ currentFile (appContent meds_done_world) = Some file
            /\ "Can I take this with food?"
               = "Uploaded prescription: " +:+ File.name file)
      \/ (exists question,
            EvSendChat "Can I take this with food?" = EvSendChat question
            /\ "Can I take this with food?" = question)).
Proof.
  assert (H : inflight uploaded_world !! 0 = Some (AwaitOcr rx1))
    by (vm_compute; reflexivity).
  assert (Hstep : step (EvSendChat "Can I take this with food?") meds_done_world
                  = Some (dispatch (handleChatMessage "Can I take this with food?")
                            meds_done_world))
    by (vm_compute; reflexivity).
  split; [exact H | split; [| split; [exact Hstep |]]].
  - exact (proj1 every_response_adds_one_ai_message uploaded_world 0
             (AwaitOcr rx1) (SOcr (Resolved (ocr_ok paracetamol_text)))
             H eq_refl).
  - exact (proj2 every_response_adds_one_ai_message
             (EvSendChat "Can I take this with food?") meds_done_world _
             [{| sender := user; content := "Can I take this with food?";
                 timestamp := clock meds_done_world |}]
             {| sender := user; content := "Can I take this with food?";
                timestamp := clock meds_done_world |}
             Hstep ltac:(vm_compute; reflexivity)
             ltac:(apply list_elem_of_singleton; reflexivity) eq_refl).
Defined.
